(** * mmworkbench.models.model: model training and evaluation layer

    A shallow embedding of [src/mmworkbench/models/model.py] and the
    properties of its evaluation statistics, cross-validation set-up,
    label encoding and configuration checks.

    Conventions of the embedding:
    - a Python [dict] with string keys is a [gmap string _]; a Python list is
      a [list], indexed with stdpp's lookup;
    - a Python exception is the [Raise] case of [result], threaded through
      the code with the bind of that monad;
    - [None] is [PyNone] inside dynamically typed values and the [None] of
      [option] for an optional argument;
    - calls into scikit-learn and numpy are either Section variables (the
      classifier, the grid search, the scoring functions) or small executable
      models of the documented behaviour (the confusion matrix, the mask
      arithmetic). *)

From stdpp Require Import gmap strings list fin_maps sorting.
From Stdlib Require Import QArith.

Local Open Scope Z_scope.

(** ** Python values

    Dynamically typed values as far as this module inspects them: settings
    and parameter dictionaries, their string, number and [None] entries.
    A float is an exact rational; rounding is not modelled. *)

#[local] Set Warnings "-register-all".

Inductive pyval : Type :=
  | PyNone
  | PyBool (b : bool)
  | PyInt (z : Z)
  | PyFloat (q : Q)
  | PyStr (s : string)
  | PyList (l : list pyval)
  | PyDict (d : gmap string pyval).

(** ** Python exceptions and results

    A message built with [str.format] is kept as the format string and the
    arguments it is applied to. *)

Inductive exn : Type :=
  | TypeError (fmt : string) (args : list pyval)
  | ValueError (fmt : string) (args : list pyval)
  | KeyError (key : string)
  | AttributeError (attr : string)
  | UnboundLocalError (name : string)
  | IndexError
  | ZeroDivisionError.

Inductive result (A : Type) : Type :=
  | Ok (a : A)
  | Raise (e : exn).
Arguments Ok {A} a.
Arguments Raise {A} e.

#[global] Instance result_ret : MRet result := λ A a, Ok a.
#[global] Instance result_bind : MBind result := λ A B f m,
  match m with
  | Ok a => f a
  | Raise e => Raise e
  end.

(** [try: ... except KeyError: handler] *)
Definition except_KeyError {A} (body : result A) (handler : result A) : result A :=
  match body with
  | Raise (KeyError _) => handler
  | r => r
  end.

(** A [for] loop whose body may raise. *)
Fixpoint for_each {S X : Type} (body : S → X → result S) (xs : list X) (s : S)
  : result S :=
  match xs with
  | [] => Ok s
  | x :: xs' => s' ← body s x; for_each body xs' s'
  end.

(** [l[i]] for an index that is not negative. *)
Definition list_get {V : Type} (l : list V) (i : nat) : result V :=
  match l !! i with
  | Some v => Ok v
  | None => Raise IndexError
  end.

(** A list comprehension [[f(x) for x in xs]] whose element may raise. *)
Fixpoint comprehension {X Y : Type} (f : X → result Y) (xs : list X)
  : result (list Y) :=
  match xs with
  | [] => Ok []
  | x :: xs' => y ← f x; ys ← comprehension f xs'; Ok (y :: ys)
  end.

(** ** Operations on Python values *)

(** Truth value of an object, as tested by [if not x] and by [x or y]. *)
Definition truthy (v : pyval) : bool :=
  match v with
  | PyNone => false
  | PyBool b => b
  | PyInt z => negb (z =? 0)
  | PyFloat q => negb (Qeq_bool q 0)
  | PyStr s => negb (bool_decide (s = EmptyString))
  | PyList l => negb (bool_decide (l = []))
  | PyDict d => negb (bool_decide (d = ∅))
  end.

(** [a or b] *)
Definition py_or (a b : pyval) : pyval := if truthy a then a else b.

(** [x is None] *)
Definition is_None (v : pyval) : bool :=
  match v with PyNone => true | _ => false end.

(** [d[key]] for a string key: [KeyError] on a dictionary without the key,
    [TypeError] on an object that is not a dictionary. *)
Definition subscript (v : pyval) (key : string) : result pyval :=
  match v with
  | PyDict d =>
      match d !! key with
      | Some x => Ok x
      | None => Raise (KeyError key)
      end
  | _ => Raise (TypeError "object is not subscriptable with a str key" [v])
  end.

(** [d.get(key, default)]: only dictionaries have the method. *)
Definition dict_get (v : pyval) (key : string) (default : pyval) : result pyval :=
  match v with
  | PyDict d => Ok (from_option id default (d !! key))
  | _ => Raise (AttributeError "get")
  end.

(** ** ModelConfig *)

Module ModelConfig.

Record t : Type := mk {
  model_type : pyval;
  example_type : pyval;
  label_type : pyval;
  features : pyval;
  model_settings : pyval;
  params : pyval;
  param_selection : pyval
}.

(** The body of the loop over the four required arguments. *)
Definition check_required (_ : unit) (item : string * pyval) : result unit :=
  let '(arg, val) := item in
  if is_None val
  then Raise (TypeError "__init__() missing required argument {!r}" [PyStr arg])
  else Ok ().

(** [param_selection is None or param_selection.get('grid') is None],
    with the short circuit of [or]. *)
Definition lacks_grid (param_selection : pyval) : result bool :=
  if is_None param_selection then Ok true
  else grid ← dict_get param_selection "grid" PyNone; Ok (is_None grid).

Definition __init__ (model_type example_type label_type features
                     model_settings params param_selection : pyval) : result t :=
  _ ← for_each check_required
        [("model_type", model_type); ("example_type", example_type);
         ("label_type", label_type); ("features", features)] ();
  missing ← (if is_None params then lacks_grid param_selection else Ok false);
  if missing : bool
  then Raise (ValueError
                "__init__() One of 'params' and 'param_selection' is required" [])
  else Ok (mk model_type example_type label_type features
              model_settings params param_selection).

(** [to_dict]: the seven slots by name. *)
Definition to_dict (self : t) : gmap string pyval :=
  <["model_type" := model_type self]> (
  <["example_type" := example_type self]> (
  <["label_type" := label_type self]> (
  <["features" := features self]> (
  <["model_settings" := model_settings self]> (
  <["params" := params self]> (
  <["param_selection" := param_selection self]> ∅)))))).

(** The names [__slots__] lists. *)
Definition slots : list string :=
  ["model_type"; "example_type"; "label_type"; "features"; "model_settings";
   "params"; "param_selection"].

(** The constructor called with a dictionary unpacked into keyword
    arguments. A key that is not a parameter is a [TypeError] (which key the
    message names depends on the order of the dictionary and is not kept);
    a parameter without a key takes its default, [None]. *)
Definition from_kwargs (kwargs : gmap string pyval) : result t :=
  if decide (dom kwargs ⊆ list_to_set slots) then
    __init__ (default PyNone (kwargs !! "model_type"))
             (default PyNone (kwargs !! "example_type"))
             (default PyNone (kwargs !! "label_type"))
             (default PyNone (kwargs !! "features"))
             (default PyNone (kwargs !! "model_settings"))
             (default PyNone (kwargs !! "params"))
             (default PyNone (kwargs !! "param_selection"))
  else Raise (TypeError "__init__() got an unexpected keyword argument" []).

End ModelConfig.

(** ** Evaluated examples and raw results *)

Record EvaluatedExample (E L P : Type) : Type := mkEvaluatedExample {
  example : E;
  expected : L;
  predicted : L;
  probas : P
}.
Arguments mkEvaluatedExample {E L P}.
Arguments example {E L P}.
Arguments expected {E L P}.
Arguments predicted {E L P}.
Arguments probas {E L P}.

Record RawResults (L : Type) : Type := mkRawResults {
  rr_predicted : list nat;
  rr_expected : list nat;
  rr_text_labels : list L
}.
Arguments mkRawResults {L}.
Arguments rr_predicted {L}.
Arguments rr_expected {L}.
Arguments rr_text_labels {L}.

Module ModelEvaluation.
Section Raw.
Context {E L P : Type} `{EqDecision L}.

(** [label in text_labels] *)
Definition py_in (label : L) (text_labels : list L) : bool :=
  bool_decide (label ∈ text_labels).

(** [text_labels.index(label)]: the first position holding a value equal to
    [label]; [ValueError] when there is none. *)
Fixpoint py_index (label : L) (text_labels : list L) : result nat :=
  match text_labels with
  | [] => Raise (ValueError "x is not in list" [])
  | x :: rest =>
      if decide (x = label) then Ok 0%nat
      else i ← py_index label rest; Ok (S i)
  end.

Definition _update_raw_result (label : L) (text_labels : list L) (vec : list nat)
  : result (list L * list nat) :=
  let text_labels :=
    if negb (py_in label text_labels) then text_labels ++ [label]
    else text_labels in
  i ← py_index label text_labels;
  let vec := vec ++ [i] in
  Ok (text_labels, vec).

(** [is_correct] of an evaluated example. *)
Definition is_correct (e : EvaluatedExample E L P) : bool :=
  bool_decide (expected e = predicted e).

(** [correct_results] and [incorrect_results]: the generators, as the lists
    of what they yield. *)
Definition correct_results (results : list (EvaluatedExample E L P))
  : list (EvaluatedExample E L P) :=
  filter (λ result, is_correct result = true) results.

Definition incorrect_results (results : list (EvaluatedExample E L P))
  : list (EvaluatedExample E L P) :=
  filter (λ result, negb (is_correct result) = true) results.
End Raw.

(** *** Arrays

    Integer matrices as lists of rows. [entry C i j] is [C[i][j]]; the
    matrices indexed here are square and the indices in range. *)

Abbreviation matrix := (list (list Z)).

Definition entry (C : matrix) (i j : nat) : Z :=
  default 0 (C !! i ≫= λ row, row !! j).

(** Python's [sum] of a list of numbers. *)
Definition Zsum (l : list Z) : Z := foldr Z.add 0 l.

(** [np.ones((n, m))] and [np.zeros((n, m))] *)
Definition np_ones (n m : nat) : matrix := replicate n (replicate m 1).
Definition np_zeros (n m : nat) : matrix := replicate n (replicate m 0).

(** [mask[:, j] = v] *)
Definition set_column (j : nat) (v : Z) (mask : matrix) : matrix :=
  (λ row, <[j := v]> row) <$> mask.

(** [mask[i, :] = v] *)
Definition set_row (i : nat) (v : Z) (mask : matrix) : matrix :=
  alter (λ row, replicate (length row) v) i mask.

(** [mask[i, j] = v] *)
Definition set_entry (i j : nat) (v : Z) (mask : matrix) : matrix :=
  alter (λ row, <[j := v]> row) i mask.

(** [a * b], element by element, and [np.sum] of a matrix. *)
Definition np_mul (a b : matrix) : matrix := zip_with (zip_with Z.mul) a b.
Definition np_sum (a : matrix) : Z := Zsum (Zsum <$> a).

(** [sklearn.metrics.confusion_matrix(y_true, y_pred)] as documented: the
    classes are the sorted distinct values of both vectors, and the entry in
    row [i], column [j] counts the observations whose true class is the
    [i]-th class and whose predicted class is the [j]-th. Vectors of
    different lengths are rejected. *)
Definition unique_labels (y_true y_pred : list nat) : list nat :=
  merge_sort (≤)%nat (remove_dups (y_true ++ y_pred)).

Definition count_pairs (a b : nat) (pairs : list (nat * nat)) : Z :=
  Z.of_nat (length (filter (λ p, p = (a, b)) pairs)).

Definition confusion_matrix (y_true y_pred : list nat) : result matrix :=
  if decide (length y_true = length y_pred) then
    let labels := unique_labels y_true y_pred in
    Ok ((λ a, (λ b, count_pairs a b (zip y_true y_pred)) <$> labels) <$> labels)
  else
    Raise (ValueError "Found input variables with inconsistent numbers of samples"
             [PyInt (Z.of_nat (length y_true)); PyInt (Z.of_nat (length y_pred))]).

(** *** Confusion counts *)

Record Counts (A : Type) : Type := mkCounts { TP : A; TN : A; FP : A; FN : A }.
Arguments mkCounts {A}.
Arguments TP {A}.
Arguments TN {A}.
Arguments FP {A}.
Arguments FN {A}.

Record ConfusionStats : Type := mkConfusionStats {
  cs_confusion_matrix : matrix;
  counts_by_class : Counts (list Z);
  counts_overall : Counts Z
}.

(** The four arrays [TP_arr, TN_arr, FP_arr, FN_arr]. *)
Abbreviation count_arrays := (list Z * list Z * list Z * list Z)%type.

(** The binary class case. *)
Definition binary_counts (confusion_mat : matrix) : count_arrays :=
  let tp := entry confusion_mat 1 1 in
  let tn := entry confusion_mat 0 0 in
  let fp := entry confusion_mat 0 1 in
  let fn := entry confusion_mat 1 0 in
  ([tp], [tn], [fp], [fn]).

(** The body of the loop of the multi class case. *)
Definition multiclass_body (confusion_mat : matrix) (num_classes : nat)
    (arrs : count_arrays) (class_index : nat) : count_arrays :=
  let '(TP_arr, TN_arr, FP_arr, FN_arr) := arrs in
  let tp := entry confusion_mat class_index class_index in
  let TP_arr := TP_arr ++ [tp] in
  let mask := np_ones num_classes num_classes in
  let mask := set_column class_index 0 mask in
  let mask := set_row class_index 0 mask in
  let tn := np_sum (np_mul mask confusion_mat) in
  let TN_arr := TN_arr ++ [tn] in
  let mask := np_zeros num_classes num_classes in
  let mask := set_column class_index 1 mask in
  let mask := set_entry class_index class_index 0 mask in
  let fp := np_sum (np_mul mask confusion_mat) in
  let FP_arr := FP_arr ++ [fp] in
  let mask := np_zeros num_classes num_classes in
  let mask := set_column class_index 1 mask in
  let mask := set_entry class_index class_index 0 mask in
  let fn := np_sum (np_mul mask confusion_mat) in
  let FN_arr := FN_arr ++ [fn] in
  (TP_arr, TN_arr, FP_arr, FN_arr).

Definition counts_of_matrix (confusion_mat : matrix) : ConfusionStats :=
  let '(TP_arr, TN_arr, FP_arr, FN_arr) :=
    if decide (length confusion_mat = 2%nat) then binary_counts confusion_mat
    else
      let num_classes := length confusion_mat in
      foldl (multiclass_body confusion_mat num_classes) ([], [], [], [])
        (seq 0 num_classes) in
  mkConfusionStats confusion_mat
    (mkCounts TP_arr TN_arr FP_arr FN_arr)
    (mkCounts (Zsum TP_arr) (Zsum TN_arr) (Zsum FP_arr) (Zsum FN_arr)).

Definition _get_confusion_matrix_and_counts (y_true y_pred : list nat)
  : result ConfusionStats :=
  confusion_mat ← confusion_matrix y_true y_pred;
  Ok (counts_of_matrix confusion_mat).

(** *** Statistics dictionaries and tables

    A statistics dictionary keeps its keys in insertion order, which is the
    order in which [keys()] lists them. *)

Definition odict_get {V : Type} (d : list (string * V)) (key : string) : result V :=
  match list_find (λ kv, kv.1 = key) d with
  | Some (_, (_, v)) => Ok v
  | None => Raise (KeyError key)
  end.

Definition odict_set {V : Type} (d : list (string * V)) (key : string) (v : V)
  : list (string * V) :=
  match list_find (λ kv, kv.1 = key) d with
  | Some (i, _) => <[i := (key, v)]> d
  | None => d ++ [(key, v)]
  end.

(** [s * n] for a string [s]. *)
Fixpoint str_repeat (s : string) (n : nat) : string :=
  match n with
  | O => EmptyString
  | S n' => s +:+ str_repeat s n'
  end.

Definition newline : string := String (Ascii.ascii_of_nat 10) EmptyString.

(** What [print] writes: a plain string, or the result of [str.format]
    kept as the format string and the arguments it is applied to. *)
Inductive line : Type :=
  | Text (s : string)
  | Formatted (fmt : string) (args : list pyval).

Record CommonStats : Type := mkCommonStats {
  stats_overall : list (string * pyval);
  class_stats : list (string * list pyval);
  cm_confusion_matrix : matrix
}.

Definition _truncate_label (label : string) (max_len : nat) : string :=
  if decide (max_len < String.length label)%nat
  then String.substring 0 max_len label +:+ ".."
  else label.

Section Stats.
Context {E P : Type}.

(** [precision_recall_fscore_support(y_true, y_pred, labels)] and
    [f1_score(y_true, y_pred, labels, average)] of [sklearn.metrics]. *)
Variable score :
  list nat → list nat → list nat → result (list Q * list Q * list Q * list Z).
Variable f1_score : list nat → list nat → list nat → string → result Q.

Definition get_accuracy (results : list (EvaluatedExample E string P)) : result Q :=
  let num_examples := length results in
  let num_correct := length (filter (λ e, is_correct e = true) results) in
  if decide (num_examples = 0)%nat then Raise ZeroDivisionError
  else Ok (inject_Z (Z.of_nat num_correct) / inject_Z (Z.of_nat num_examples))%Q.

Definition _get_class_stats (y_true y_pred labels : list nat)
  : result (list (string * list pyval)) :=
  match score y_true y_pred labels with
  | Ok (precision, recall, f_beta, support) =>
      Ok [("precision", PyFloat <$> precision);
          ("recall", PyFloat <$> recall);
          ("f_beta", PyFloat <$> f_beta);
          ("support", PyInt <$> support)]
  | Raise e => Raise e
  end.

Definition _get_overall_stats (results : list (EvaluatedExample E string P))
    (y_true y_pred labels : list nat) : result (list (string * pyval)) :=
  f1_weighted ← f1_score y_true y_pred labels "weighted";
  f1_macro ← f1_score y_true y_pred labels "macro";
  f1_micro ← f1_score y_true y_pred labels "micro";
  accuracy ← get_accuracy results;
  Ok [("f1_weighted", PyFloat f1_weighted);
      ("f1_macro", PyFloat f1_macro);
      ("f1_micro", PyFloat f1_micro);
      ("accuracy", PyFloat accuracy)].

(** [range(len(text_labels)-1)] *)
Definition label_range (text_labels : list string) : list nat :=
  seq 0 (length text_labels - 1).

Definition _get_common_stats (results : list (EvaluatedExample E string P))
    (raw_expected raw_predicted : list nat) (text_labels : list string)
  : result CommonStats :=
  let labels := label_range text_labels in
  confusion_stats ← _get_confusion_matrix_and_counts raw_expected raw_predicted;
  stats_overall ← _get_overall_stats results raw_expected raw_predicted labels;
  let counts_overall := counts_overall confusion_stats in
  let stats_overall := odict_set stats_overall "TP" (PyInt (TP counts_overall)) in
  let stats_overall := odict_set stats_overall "TN" (PyInt (TN counts_overall)) in
  let stats_overall := odict_set stats_overall "FP" (PyInt (FP counts_overall)) in
  let stats_overall := odict_set stats_overall "FN" (PyInt (FN counts_overall)) in
  class_stats ← _get_class_stats raw_expected raw_predicted labels;
  let counts_by_class := counts_by_class confusion_stats in
  let class_stats := odict_set class_stats "TP" (PyInt <$> TP counts_by_class) in
  let class_stats := odict_set class_stats "TN" (PyInt <$> TN counts_by_class) in
  let class_stats := odict_set class_stats "FP" (PyInt <$> FP counts_by_class) in
  let class_stats := odict_set class_stats "FN" (PyInt <$> FN counts_by_class) in
  Ok (mkCommonStats stats_overall class_stats
        (cs_confusion_matrix confusion_stats)).

End Stats.

Definition common_stats : list string :=
  ["f_beta"; "precision"; "recall"; "support"; "TP"; "TN"; "FP"; "FN"].

(** One row of the class table: the cells [stats[stat][label]]. *)
Definition stats_row (stats : list (string * list pyval))
    (table_titles : list string) (label : nat) : result (list pyval) :=
  for_each (λ row stat,
              column ← odict_get stats stat;
              cell ← list_get column label;
              Ok (row ++ [cell]))
           table_titles [].

(** The lines printed by [_print_class_stats_table], in order. *)
Definition _print_class_stats_table (stats : list (string * list pyval))
    (text_labels : list string) : result (list line) :=
  let title_format := "{:>20}" +:+ str_repeat "{:>12}" (length stats) in
  let stat_row_format :=
    "{:>20}" +:+ str_repeat "{:>12.3f}" 3 +:+ str_repeat "{:>12.0f}" 5
    +:+ str_repeat "{:>12.3f}" (length stats - length common_stats) in
  let table_titles :=
    common_stats
    ++ filter (λ stat, stat ∉ common_stats) (fst <$> stats) in
  let out := [Text ("Statistics by Class: " +:+ newline)] in
  let out := out ++ [Formatted title_format (PyStr <$> ("class" :: table_titles))] in
  out ← for_each (λ out label,
                    row ← stats_row stats table_titles label;
                    name ← list_get text_labels label;
                    Ok (out ++ [Formatted stat_row_format
                                  (PyStr (_truncate_label name 18) :: row)]))
                 (label_range text_labels) out;
  Ok (out ++ [Text (newline +:+ newline)]).

Definition overall_common_stats : list string :=
  ["accuracy"; "f1_weighted"; "TP"; "TN"; "FP"; "FN"].

(** The lines printed by [_print_overall_stats_table], in order. *)
Definition _print_overall_stats_table (stats_overall : list (string * pyval))
  : result (list line) :=
  let title_format := str_repeat "{:>12}" (length stats_overall) in
  let stat_row_format :=
    str_repeat "{:>12.3f}" 2 +:+ str_repeat "{:>12.0f}" 4
    +:+ str_repeat "{:>12.3f}" (length stats_overall - length overall_common_stats) in
  let table_titles :=
    overall_common_stats
    ++ filter (λ stat, stat ∉ overall_common_stats) (fst <$> stats_overall) in
  let out := [Text ("Overall Statistics: " +:+ newline)] in
  let out := out ++ [Formatted title_format (PyStr <$> table_titles)] in
  row ← for_each (λ row stat,
                    cell ← odict_get stats_overall stat;
                    Ok (row ++ [cell]))
                 table_titles [];
  let out := out ++ [Formatted stat_row_format row] in
  Ok (out ++ [Text (newline +:+ newline)]).

(** The lines printed by [_print_class_matrix], in order. *)
Definition _print_class_matrix (confusion : matrix) (text_labels : list string)
  : result (list line) :=
  let labels := label_range text_labels in
  let title_format := str_repeat "{:>15}" (length labels + 1) in
  let stat_row_format := "{:>15}" +:+ str_repeat "{:>15}" (length labels) in
  table_titles ←
    comprehension (λ label, name ← list_get text_labels label;
                            Ok (_truncate_label name 10)) labels;
  let out := [Text ("Confusion Matrix: " +:+ newline)] in
  let out := out ++ [Formatted title_format (PyStr <$> (EmptyString :: table_titles))] in
  out ← for_each (λ out label,
                    name ← list_get text_labels label;
                    cells ← list_get confusion label;
                    Ok (out ++ [Formatted stat_row_format
                                  (PyStr (_truncate_label name 10)
                                   :: (PyInt <$> cells))]))
                 (label_range text_labels) out;
  Ok (out ++ [Text (newline +:+ newline)]).

End ModelEvaluation.

Module StandardModelEvaluation.
Section Raw.
Context {E L P : Type} `{EqDecision L}.
Import ModelEvaluation.

Definition raw_results_body (st : list L * list nat * list nat)
    (r : EvaluatedExample E L P) : result (list L * list nat * list nat) :=
  let '(text_labels, predicted_vec, expected_vec) := st in
  '(text_labels, predicted_vec) ←
      _update_raw_result (predicted r) text_labels predicted_vec;
  '(text_labels, expected_vec) ←
      _update_raw_result (expected r) text_labels expected_vec;
  Ok (text_labels, predicted_vec, expected_vec).

Definition raw_results (results : list (EvaluatedExample E L P))
  : result (RawResults L) :=
  '(text_labels, predicted_vec, expected_vec) ←
      for_each raw_results_body results ([], [], []);
  Ok (mkRawResults predicted_vec expected_vec text_labels).
End Raw.

Section PrintStats.
Context {E P : Type}.
Import ModelEvaluation.

Variable score :
  list nat → list nat → list nat → result (list Q * list Q * list Q * list Z).
Variable f1_score : list nat → list nat → list nat → string → result Q.

(** [print_stats]: the statistics it returns and the lines it prints. *)
Definition print_stats (results : list (EvaluatedExample E string P))
  : result (CommonStats * list line) :=
  raw ← raw_results results;
  stats ← _get_common_stats score f1_score results
             (rr_expected raw) (rr_predicted raw) (rr_text_labels raw);
  overall_table ← _print_overall_stats_table (stats_overall stats);
  class_table ← _print_class_stats_table (class_stats stats) (rr_text_labels raw);
  class_matrix ← _print_class_matrix (cm_confusion_matrix stats)
                    (rr_text_labels raw);
  Ok (stats, overall_table ++ class_table ++ class_matrix).

End PrintStats.
End StandardModelEvaluation.

(** ** Model: cross-validation iterators *)

(** A splitter of [sklearn.model_selection], recorded as the class and the
    values of [n_splits] and [test_size] it is built with. The shuffle
    splitters keep the arguments the code gives them. *)
Inductive cv_splitter : Type :=
  | KFold (n_splits : pyval)
  | ShuffleSplit (n_splits test_size : pyval)
  | GroupKFold (n_splits : pyval)
  | GroupShuffleSplit (n_splits test_size : pyval)
  | StratifiedKFold (n_splits : pyval)
  | StratifiedShuffleSplit (n_splits test_size : pyval).

Module Model.

(** [1.0 / k] *)
Definition one_over (k : pyval) : result pyval :=
  match k with
  | PyInt z =>
      if z =? 0 then Raise ZeroDivisionError else Ok (PyFloat (1 / inject_Z z))
  | PyFloat q =>
      if Qeq_bool q 0 then Raise ZeroDivisionError else Ok (PyFloat (1 / q))
  | PyBool b =>
      if b then Ok (PyFloat 1) else Raise ZeroDivisionError
  | _ => Raise (TypeError "unsupported operand type(s) for /: 'float' and {}" [k])
  end.

(** The check that the constructors of [KFold], [GroupKFold] and
    [StratifiedKFold] make on [n_splits] (in the base class of the three):
    a value that is not an integer is rejected, and so is a number of splits
    below 2; both with [ValueError]. A Python boolean is an integer, [0] or
    [1]. The result is [int(n_splits)], which the splitter stores. *)
Definition check_n_splits (n_splits : pyval) : result pyval :=
  let too_few (z : Z) :=
    Raise (ValueError
      "k-fold cross-validation requires at least one train/test split by setting n_splits=2 or more, got n_splits={0}."
      [PyInt z]) in
  match n_splits with
  | PyInt z => if z <=? 1 then too_few z else Ok (PyInt z)
  | PyBool b => too_few (if b then 1 else 0)
  | _ =>
      Raise (ValueError
        "The number of folds must be of Integral type. %s of type %s was passed."
        [n_splits])
  end.

Definition _k_fold_iterator (settings : pyval) : result cv_splitter :=
  k ← subscript settings "k";
  n_splits ← check_n_splits k;
  Ok (KFold n_splits).

Definition _shuffle_iterator (settings : pyval) : result cv_splitter :=
  k ← subscript settings "k";
  n ← dict_get settings "n" k;
  test_size ← one_over k;
  Ok (ShuffleSplit n test_size).

Definition _groups_k_fold_iterator (settings : pyval) : result cv_splitter :=
  k ← subscript settings "k";
  n_splits ← check_n_splits k;
  Ok (GroupKFold n_splits).

Definition _groups_shuffle_iterator (settings : pyval) : result cv_splitter :=
  k ← subscript settings "k";
  n ← dict_get settings "n" k;
  test_size ← one_over k;
  Ok (GroupShuffleSplit n test_size).

Definition _stratified_k_fold_iterator (settings : pyval) : result cv_splitter :=
  k ← subscript settings "k";
  n_splits ← check_n_splits k;
  Ok (StratifiedKFold n_splits).

Definition _stratified_shuffle_iterator (settings : pyval) : result cv_splitter :=
  k ← subscript settings "k";
  n ← dict_get settings "n" k;
  test_size ← one_over k;
  Ok (StratifiedShuffleSplit n test_size).

(** The dispatch table of [_get_cv_iterator]. *)
Definition cv_iterators : gmap string (pyval → result cv_splitter) :=
  <["k-fold" := _k_fold_iterator]> (
  <["shuffle" := _shuffle_iterator]> (
  <["group-k-fold" := _groups_k_fold_iterator]> (
  <["group-shuffle" := _groups_shuffle_iterator]> (
  <["stratified-k-fold" := _stratified_k_fold_iterator]> (
  <["stratified-shuffle" := _stratified_shuffle_iterator]> ∅))))).

(** [table.get(cv_type)]: a list or a dictionary is not hashable; a key
    that is not one of the strings of the table gives [None]. *)
Definition table_get (cv_type : pyval)
  : result (option (pyval → result cv_splitter)) :=
  match cv_type with
  | PyStr s => Ok (cv_iterators !! s)
  | PyList _ | PyDict _ => Raise (TypeError "unhashable type: {}" [cv_type])
  | _ => Ok None
  end.

(** [f(settings)] where [f] is what [table.get] returned: calling [None]
    is a [TypeError]. *)
Definition call_iterator (f : option (pyval → result cv_splitter))
    (settings : pyval) : result cv_splitter :=
  match f with
  | Some iterator => iterator settings
  | None => Raise (TypeError "'NoneType' object is not callable" [])
  end.

(** The result is [None] ([Ok None]) or a splitter. *)
Definition _get_cv_iterator (settings : pyval) : result (option cv_splitter) :=
  if negb (truthy settings) then Ok None
  else
    cv_type ← subscript settings "type";
    cv_iterator ←
      except_KeyError
        (f ← table_get cv_type; call_iterator f settings)
        (Raise (ValueError "Unknown param selection type: {!r}" [cv_type]));
    Ok (Some cv_iterator).

End Model.

(** ** Label encoders *)

(** A label encoder class: its [encode] and [decode] methods. The second
    argument is the keyword argument [examples], [None] when it is not
    passed. *)
Record LabelEncoderClass (Ex Lbl Cls : Type) : Type := mkLabelEncoderClass {
  encode : list Lbl → option (list Ex) → result (list Cls);
  decode : list Cls → option (list Ex) → result (list Lbl)
}.
Arguments mkLabelEncoderClass {Ex Lbl Cls}.
Arguments encode {Ex Lbl Cls}.
Arguments decode {Ex Lbl Cls}.

(** The base class [LabelEncoder]: both methods return their argument. *)
Definition LabelEncoder {Ex L : Type} : LabelEncoderClass Ex L L :=
  {| encode := λ labels _, Ok labels;
     decode := λ classes _, Ok classes |}.

(** Modelled from the spec: [register_label] and [get_label_encoder] of
    [helpers] are not among the sources; the registry is taken to map a label
    type to the encoder class registered under it, and [get_label_encoder]
    to look the label type up. *)
Definition register_label {Ex L : Type} (label_type : string)
    (label_encoder : LabelEncoderClass Ex L L)
    (registry : gmap string (LabelEncoderClass Ex L L))
  : gmap string (LabelEncoderClass Ex L L) :=
  <[label_type := label_encoder]> registry.

(** The registry after the module is loaded:
    [register_label('class', LabelEncoder)]. *)
Definition label_registry {Ex L : Type} : gmap string (LabelEncoderClass Ex L L) :=
  register_label "class" LabelEncoder ∅.

Definition get_label_encoder {Ex L : Type} (label_type : string)
  : option (LabelEncoderClass Ex L L) :=
  label_registry !! label_type.

(** ** SequenceModelEvaluation *)

Record SequenceRawResults (C : Type) : Type := mkSequenceRawResults {
  sr_predicted : list (list nat);
  sr_expected : list (list nat);
  sr_text_labels : list C;
  sr_predicted_flat : list nat;
  sr_expected_flat : list nat
}.
Arguments mkSequenceRawResults {C}.
Arguments sr_predicted {C}.
Arguments sr_expected {C}.
Arguments sr_text_labels {C}.
Arguments sr_predicted_flat {C}.
Arguments sr_expected_flat {C}.

Module SequenceModelEvaluation.
Section Raw.
Context {Ex Lbl Cls P : Type} `{EqDecision Cls}.
Import ModelEvaluation.

(** The inner loop: every encoded entity is registered in [text_labels] and
    its number appended to [vec]. *)
Definition register_entities (st : list Cls * list nat) (entity : Cls)
  : result (list Cls * list nat) :=
  _update_raw_result entity st.1 st.2.

Definition raw_results_body (label_encoder : LabelEncoderClass Ex Lbl Cls)
    (st : list Cls * list (list nat) * list (list nat) * list nat * list nat)
    (r : EvaluatedExample Ex Lbl P)
  : result (list Cls * list (list nat) * list (list nat) * list nat * list nat) :=
  let '(text_labels, predicted_vecs, expected_vecs, predicted_flat, expected_flat) :=
    st in
  raw_predicted ← encode label_encoder [predicted r] (Some [example r]);
  raw_expected ← encode label_encoder [expected r] (Some [example r]);
  registered ← for_each register_entities raw_predicted (text_labels, []);
  let text_labels := registered.1 in
  let vec := registered.2 in
  let predicted_vecs := predicted_vecs ++ [vec] in
  let predicted_flat := predicted_flat ++ vec in
  registered ← for_each register_entities raw_expected (text_labels, []);
  let text_labels := registered.1 in
  let vec := registered.2 in
  let expected_vecs := expected_vecs ++ [vec] in
  let expected_flat := expected_flat ++ vec in
  Ok (text_labels, predicted_vecs, expected_vecs, predicted_flat, expected_flat).

Definition raw_results (label_encoder : LabelEncoderClass Ex Lbl Cls)
    (results : list (EvaluatedExample Ex Lbl P))
  : result (SequenceRawResults Cls) :=
  st ← for_each (raw_results_body label_encoder) results ([], [], [], [], []);
  let '(text_labels, predicted_vecs, expected_vecs, predicted_flat, expected_flat) :=
    st in
  Ok (mkSequenceRawResults predicted_vecs expected_vecs text_labels
        predicted_flat expected_flat).

End Raw.
End SequenceModelEvaluation.

(** ** SkLearnModel *)

(** The calls made into the classifier library, in the order they are made:
    a plain [fit] of a classifier built from [params], or the [fit] of a
    [GridSearchCV]. *)
Inductive sk_call : Type :=
  | CallFit (params : pyval)
  | CallGridSearchCV (scoring param_grid : pyval) (cv : cv_splitter)
      (n_jobs : pyval).

(** What a fitted [GridSearchCV] exposes. *)
Record GridSearchResult (Clf : Type) : Type := mkGridSearchResult {
  best_estimator_ : Clf;
  best_params_ : pyval;
  best_score_ : Q
}.
Arguments mkGridSearchResult {Clf}.
Arguments best_estimator_ {Clf}.
Arguments best_params_ {Clf}.
Arguments best_score_ {Clf}.

Module SkLearnModel.

(** The attributes of a model that [fit] and [_predict_proba] read or
    write. [classes_] is the content of the fitted [_class_encoder];
    [sk_calls] is not an attribute: it logs the library calls. *)
Record t (Ex Lbl Cls Clf : Type) : Type := mk {
  config : ModelConfig.t;
  _label_encoder : LabelEncoderClass Ex Lbl Cls;
  _current_params : pyval;
  _clf : option Clf;
  cv_loss_ : option Q;
  classes_ : list Cls;
  sk_calls : list sk_call
}.
Arguments mk {Ex Lbl Cls Clf}.
Arguments config {Ex Lbl Cls Clf}.
Arguments _label_encoder {Ex Lbl Cls Clf}.
Arguments _current_params {Ex Lbl Cls Clf}.
Arguments _clf {Ex Lbl Cls Clf}.
Arguments cv_loss_ {Ex Lbl Cls Clf}.
Arguments classes_ {Ex Lbl Cls Clf}.
Arguments sk_calls {Ex Lbl Cls Clf}.

(** [Model.__init__] *)
Definition __init__ {Ex Lbl Cls Clf : Type} (config : ModelConfig.t)
    (label_encoder : LabelEncoderClass Ex Lbl Cls) : t Ex Lbl Cls Clf :=
  mk config label_encoder PyNone None None [] [].

Definition ACCURACY_SCORING : string := "accuracy".
Definition LIKELIHOOD_SCORING : string := "log_loss".
Definition DEFAULT_CV_SCORING : string := ACCURACY_SCORING.

(** [scoring == name] *)
Definition str_eqb (v : pyval) (name : string) : bool :=
  match v with
  | PyStr s => bool_decide (s = name)
  | _ => false
  end.

Section Fit.
Context {Ex Lbl Cls Clf X Y : Type}.

(** The permutation [random.shuffle] leaves in the list it is given. *)
Variable random_shuffle : list nat → list nat.

(** [get_feature_matrix(examples, y, fit=True)]: feature extraction and the
    scikit-learn preprocessing. The call refits the transformers of the
    model; of their state the classes of [_class_encoder] are modelled,
    which [_class_encoder.fit_transform(y)] sets: they are returned first,
    before the matrix, the transformed [y] and the groups. *)
Variable get_feature_matrix :
  list Ex → list Cls → result (list Cls * (X * Y * list nat)).

(** The abstract method [_convert_params], and the [fit(X, y)] of the
    classifier that the class returned by the abstract
    [_get_model_constructor] builds from the keyword arguments [params]. *)
Variable _convert_params : pyval → Y → result pyval.
Variable model_class_fit : pyval → X → Y → result Clf.

(** [GridSearchCV(estimator=model_class(), scoring=..., param_grid=...,
    cv=..., n_jobs=...).fit(X, y, groups)] *)
Variable grid_search_fit :
  pyval → pyval → cv_splitter → pyval → X → Y → list nat
  → result (GridSearchResult Clf).

Abbreviation model := (t Ex Lbl Cls Clf).

Definition log_call (self : model) (c : sk_call) : model :=
  mk (config self) (_label_encoder self) (_current_params self) (_clf self)
     (cv_loss_ self) (classes_ self) (sk_calls self ++ [c]).

Definition set_cv_loss_ (self : model) (loss : Q) : model :=
  mk (config self) (_label_encoder self) (_current_params self) (_clf self)
     (Some loss) (classes_ self) (sk_calls self).

Definition set_fitted (self : model) (clf : Clf) (params : pyval) : model :=
  mk (config self) (_label_encoder self) params (Some clf)
     (cv_loss_ self) (classes_ self) (sk_calls self).

Definition set_classes_ (self : model) (classes : list Cls) : model :=
  mk (config self) (_label_encoder self) (_current_params self) (_clf self)
     (cv_loss_ self) classes (sk_calls self).

(** The shuffle at the start of [fit]: both lists are read through the same
    shuffled list of indices. *)
Definition shuffle_examples (examples : list Ex) (labels : list Lbl)
  : result (list Ex * list Lbl) :=
  let indices := random_shuffle (seq 0 (length labels)) in
  examples' ← comprehension (list_get examples) indices;
  labels' ← comprehension (list_get labels) indices;
  Ok (examples', labels').

Definition _fit (self : model) (x : X) (y : Y) (params : pyval)
  : result (model * Clf) :=
  params ← _convert_params params y;
  clf ← model_class_fit params x y;
  Ok (log_call self (CallFit params), clf).

Definition _fit_cv (self : model) (x : X) (y : Y) (groups : list nat)
    (selection_settings : pyval) : result (model * (Clf * pyval)) :=
  let selection_settings :=
    py_or selection_settings (ModelConfig.param_selection (config self)) in
  cv_iterator ← Model._get_cv_iterator selection_settings;
  if is_None selection_settings then
    fitted ← _fit self x y (ModelConfig.params (config self));
    Ok (fitted.1, (fitted.2, ModelConfig.params (config self)))
  else
    cv_type ← subscript selection_settings "type";
    cv ← match cv_iterator with
         | Some cv => Ok cv
         | None => Raise (AttributeError "get_n_splits")
         end;
    scoring ← dict_get selection_settings "scoring" (PyStr DEFAULT_CV_SCORING);
    n_jobs ← dict_get selection_settings "n_jobs" (PyInt (-1));
    grid ← subscript selection_settings "grid";
    param_grid ← _convert_params grid y;
    fitted ← grid_search_fit scoring param_grid cv n_jobs x y groups;
    let self := log_call self (CallGridSearchCV scoring param_grid cv n_jobs) in
    self ← (if str_eqb scoring ACCURACY_SCORING
            then Ok (set_cv_loss_ self (1 - best_score_ fitted)%Q)
            else if str_eqb scoring LIKELIHOOD_SCORING
            then Ok (set_cv_loss_ self (- best_score_ fitted)%Q)
            else Raise (UnboundLocalError "msg"));
    Ok (self, (best_estimator_ fitted, best_params_ fitted)).

Definition fit (self : model) (examples : list Ex) (labels : list Lbl)
    (params : pyval) : result model :=
  let skip_param_selection :=
    negb (is_None params)
    || is_None (ModelConfig.param_selection (config self)) in
  let params := py_or params (ModelConfig.params (config self)) in
  shuffled ← shuffle_examples examples labels;
  let examples := shuffled.1 in
  let labels := shuffled.2 in
  y ← encode (_label_encoder self) labels None;
  matrix ← get_feature_matrix examples y;
  let '(classes, (x, y, groups)) := matrix in
  let self := set_classes_ self classes in
  if skip_param_selection then
    fitted ← _fit self x y params;
    Ok (set_fitted fitted.1 fitted.2 params)
  else
    selected ← _fit_cv self x y groups PyNone;
    Ok (set_fitted selected.1 selected.2.1 selected.2.2).

Definition set_clf (self : model) (clf : Clf) : model :=
  mk (config self) (_label_encoder self) (_current_params self) (Some clf)
     (cv_loss_ self) (classes_ self) (sk_calls self).

(** [select_params]: the model with its new classifier, and the selected
    parameters it returns. *)
Definition select_params (self : model) (examples : list Ex) (labels : list Lbl)
    (selection_settings : pyval) : result (model * pyval) :=
  y ← encode (_label_encoder self) labels None;
  matrix ← get_feature_matrix examples y;
  let '(classes, (x, y, groups)) := matrix in
  let self := set_classes_ self classes in
  selected ← _fit_cv self x y groups selection_settings;
  Ok (set_clf selected.1 selected.2.1, selected.2.2).

End Fit.

(** [enumerate(row)] *)
Definition enumerate {V : Type} (row : list V) : list (nat * V) :=
  zip (seq 0 (length row)) row.

(** [a > b] on floats. *)
Definition float_gt (a b : Q) : bool := negb (Qle_bool a b).

Section PredictProba.
Context {Ex Lbl Cls Clf : Type} `{Countable Lbl}.

Abbreviation model := (t Ex Lbl Cls Clf).

(** [_class_encoder.inverse_transform(y)]: the classes at the positions [y];
    a position outside the fitted classes is rejected. *)
Definition inverse_transform (self : model) (y : list nat) : result (list Cls) :=
  comprehension
    (λ i, match classes_ self !! i with
          | Some c => Ok c
          | None => Raise (ValueError "y contains previously unseen labels: {}"
                             [PyInt (Z.of_nat i)])
          end)
    y.

(** [probabilities.get(top_class, -1.0)]; [top_class] is [None] until a
    class is chosen, and [None] is not a key. *)
Definition get_top (probabilities : gmap Lbl Q) (top_class : option Lbl) : Q :=
  match top_class with
  | Some c => default (-1)%Q (probabilities !! c)
  | None => (-1)%Q
  end.

(** [row.argmax()]: the position of the first largest entry; numpy raises
    [ValueError] on an empty array. *)
Definition argmax (row : list Q) : result nat :=
  match row with
  | [] => Raise (ValueError "attempt to get argmax of an empty sequence" [])
  | p :: rest =>
      Ok (foldl (λ (best : nat * Q) (item : nat * Q),
                   if float_gt item.2 best.2 then item else best)
                (0%nat, p) (zip (seq 1 (length rest)) rest)).1
  end.

(** The body of the loop over the classes of one row. *)
Definition proba_body (self : model) (st : gmap Lbl Q * option Lbl)
    (item : nat * Q) : result (gmap Lbl Q * option Lbl) :=
  let '(probabilities, top_class) := st in
  let '(class_index, proba) := item in
  raw ← inverse_transform self [class_index];
  raw_class ← list_get raw 0;
  decoded ← decode (_label_encoder self) [raw_class] None;
  decoded_class ← list_get decoded 0;
  let probabilities := <[decoded_class := proba]> probabilities in
  let top_class :=
    if float_gt proba (get_top probabilities top_class)
    then Some decoded_class else top_class in
  Ok (probabilities, top_class).

(** [predictor(X)] is the matrix [rows]. The value that [row.argmax()]
    assigns to [class_index] is overwritten by the loop variable and never
    read, but the call raises on an empty row. *)
Definition _predict_proba (self : model) (rows : list (list Q))
  : result (list (option Lbl * gmap Lbl Q)) :=
  for_each (λ predictions row,
              class_index ← argmax row;
              st ← for_each (proba_body self) (enumerate row) (∅, None);
              Ok (predictions ++ [(st.2, st.1)]))
           rows [].

(** [get_feature_matrix(examples)] without fitting, of which [predict]
    keeps the matrix only, and [clf.predict(X)] as class indices. *)
Context {X : Type}.
Variable transform_features : list Ex → result X.
Variable clf_predict : Clf → X → result (list nat).

Definition predict (self : model) (examples : list Ex) : result (list Lbl) :=
  x ← transform_features examples;
  clf ← match _clf self with
        | Some clf => Ok clf
        | None => Raise (AttributeError "predict")
        end;
  y ← clf_predict clf x;
  predictions ← inverse_transform self y;
  decode (_label_encoder self) predictions None.

End PredictProba.

(** The scalers of [sklearn.preprocessing] that [_get_feature_scaler]
    builds, recorded as the constructor call. *)
Inductive feature_scaler : Type :=
  | StandardScaler (with_mean : bool)
  | MaxAbsScaler.

(** The look-up of [scale_type] in the dictionary of the two scalers. *)
Definition scaler_table_get (scale_type : pyval) : result (option feature_scaler) :=
  match scale_type with
  | PyStr s =>
      if decide (s = "std-dev") then Ok (Some (StandardScaler false))
      else if decide (s = "max-abs") then Ok (Some MaxAbsScaler)
      else Ok None
  | PyList _ | PyDict _ => Raise (TypeError "unhashable type: {}" [scale_type])
  | _ => Ok None
  end.

Definition _get_feature_scaler (config : ModelConfig.t)
  : result (option feature_scaler) :=
  scale_type ←
    (if is_None (ModelConfig.model_settings config) then Ok PyNone
     else dict_get (ModelConfig.model_settings config) "feature_scaler" PyNone);
  scaler_table_get scale_type.

(** [dict.pop(key)] *)
Definition dict_pop (d : gmap string pyval) (key : string)
  : result (gmap string pyval) :=
  match d !! key with
  | Some _ => Ok (delete key d)
  | None => Raise (KeyError key)
  end.

(** [_get_effective_config], of [Model]. *)
Definition _get_effective_config {Ex Lbl Cls Clf : Type}
    (self : t Ex Lbl Cls Clf) : result ModelConfig.t :=
  let config_dict := ModelConfig.to_dict (config self) in
  config_dict ← dict_pop config_dict "param_selection";
  let config_dict := <["params" := _current_params self]> config_dict in
  ModelConfig.from_kwargs config_dict.

End SkLearnModel.

(** ** Statements of the specification

    Properties worded as the specification words them, to be compared with
    what the code does. *)

Definition raises_TypeError {A : Type} (r : result A) : Prop :=
  ∃ fmt args, r = Raise (TypeError fmt args).

Definition raises_ValueError {A : Type} (r : result A) : Prop :=
  ∃ fmt args, r = Raise (ValueError fmt args).

(** One of the four required arguments is [None]. *)
Definition required_missing (model_type example_type label_type features : pyval)
  : Prop :=
  model_type = PyNone ∨ example_type = PyNone ∨ label_type = PyNone
  ∨ features = PyNone.

(** [param_selection] is [None] or a dictionary without a 'grid' entry. *)
Definition no_grid_entry (param_selection : pyval) : Prop :=
  param_selection = PyNone
  ∨ ∃ d, param_selection = PyDict d ∧ d !! "grid" = None.

(** [param_selection] is [None] or a dictionary whose 'grid' entry is absent
    or [None]: what [param_selection.get('grid') is None] tests. *)
Definition no_grid_value (param_selection : pyval) : Prop :=
  param_selection = PyNone
  ∨ ∃ d, param_selection = PyDict d
         ∧ (d !! "grid" = None ∨ d !! "grid" = Some PyNone).

(** The contract of [ModelConfig.__init__], parameterised by the reading of
    "no grid". *)
Definition init_contract (no_grid : pyval → Prop)
    (model_type example_type label_type features
     model_settings params param_selection : pyval) : Prop :=
  let r := ModelConfig.__init__ model_type example_type label_type features
             model_settings params param_selection in
  let missing := required_missing model_type example_type label_type features in
  (raises_TypeError r ↔ missing)
  ∧ (¬ missing →
       (raises_ValueError r ↔ params = PyNone ∧ no_grid param_selection))
  ∧ (¬ missing → ¬ (params = PyNone ∧ no_grid param_selection) →
       param_selection = PyNone ∨ (∃ d, param_selection = PyDict d) →
       r = Ok (ModelConfig.mk model_type example_type label_type features
                 model_settings params param_selection)).

(** The specification's statement about the k-fold types: whatever the
    entry [k] of the settings is, the splitter has [k] splits. *)
Definition k_splits_as_stated (d : gmap string pyval) : Prop :=
  ∀ k, d !! "k" = Some k →
    (d !! "type" = Some (PyStr "k-fold") →
       Model._get_cv_iterator (PyDict d) = Ok (Some (KFold k)))
    ∧ (d !! "type" = Some (PyStr "group-k-fold") →
       Model._get_cv_iterator (PyDict d) = Ok (Some (GroupKFold k)))
    ∧ (d !! "type" = Some (PyStr "stratified-k-fold") →
       Model._get_cv_iterator (PyDict d) = Ok (Some (StratifiedKFold k))).

Import ModelEvaluation.

(** Sums over the classes [0 .. n-1]. *)
Definition sum_over (n : nat) (f : nat → Z) : Z := Zsum (f <$> seq 0 n).

(** The counts of class [i] read off a confusion matrix [C]: the entries
    outside row [i] and column [i]; column [i] without the diagonal; row [i]
    without the diagonal. *)
Definition true_negatives (C : matrix) (i : nat) : Z :=
  sum_over (length C) (λ j,
    sum_over (length C) (λ k,
      if bool_decide (j ≠ i ∧ k ≠ i) then entry C j k else 0)).

Definition false_positives (C : matrix) (i : nat) : Z :=
  sum_over (length C) (λ j,
    if bool_decide (j ≠ i) then entry C j i else 0).

Definition false_negatives (C : matrix) (i : nat) : Z :=
  sum_over (length C) (λ j,
    if bool_decide (j ≠ i) then entry C i j else 0).

(** [counts_overall] is the componentwise sum of [counts_by_class]. *)
Definition overall_is_sum (st : ConfusionStats) : Prop :=
  let by_class := counts_by_class st in
  counts_overall st =
    mkCounts
      (Zsum (TP by_class))
      (Zsum (TN by_class))
      (Zsum (FP by_class))
      (Zsum (FN by_class)).

(** Every class has its four counts, as the specification states it. *)
Definition counts_as_stated (st : ConfusionStats) : Prop :=
  let C := cs_confusion_matrix st in
  let by_class := counts_by_class st in
  (∀ i, (i < length C)%nat →
     TP by_class !! i = Some (entry C i i)
     ∧ TN by_class !! i = Some (true_negatives C i)
     ∧ FP by_class !! i = Some (false_positives C i)
     ∧ FN by_class !! i = Some (false_negatives C i))
  ∧ overall_is_sum st.

(** The specification's statement about [_get_confusion_matrix_and_counts]. *)
Definition confusion_counts_as_stated (y_true y_pred : list nat) : Prop :=
  ∃ st, _get_confusion_matrix_and_counts y_true y_pred = Ok st
        ∧ counts_as_stated st.

(** The multi class branch: one entry per class in each array, with the
    true positives, true negatives and false positives of the class. *)
Definition multiclass_counts (st : ConfusionStats) : Prop :=
  let C := cs_confusion_matrix st in
  let by_class := counts_by_class st in
  length (TP by_class) = length C
  ∧ length (TN by_class) = length C
  ∧ length (FP by_class) = length C
  ∧ length (FN by_class) = length C
  ∧ ∀ i, (i < length C)%nat →
      TP by_class !! i = Some (entry C i i)
      ∧ TN by_class !! i = Some (true_negatives C i)
      ∧ FP by_class !! i = Some (false_positives C i).

(** The binary branch: each array has the single entry of class 1. *)
Definition positive_class_counts (st : ConfusionStats) : Prop :=
  let C := cs_confusion_matrix st in
  counts_by_class st =
    mkCounts
      [entry C 1 1] [true_negatives C 1]
      [false_positives C 1] [false_negatives C 1].

(** ** Invariants, loop summaries and sample inputs

    Definitions the proofs below rely on, and the concrete models and
    library stand-ins on which the code is run. *)

(** A matrix with [n] rows of [n] entries. *)
Definition is_square (n : nat) (C : matrix) : Prop :=
  length C = n ∧ Forall (λ row, length row = n) C.

(** The masks built in the loop body: ones outside row and column [i]; ones
    in column [i] off the diagonal. *)
Definition tn_mask (n i : nat) : matrix :=
  set_row i 0 (set_column i 0 (np_ones n n)).
Definition column_mask (n i : nat) : matrix :=
  set_entry i i 0 (set_column i 1 (np_zeros n n)).

(** A scorer that returns one entry per requested label, used to run the
    statistics on concrete results. *)
Definition unit_score (y_true y_pred labels : list nat)
  : result (list Q * list Q * list Q * list Z) :=
  Ok ((λ _, 1%Q) <$> labels, (λ _, 1%Q) <$> labels, (λ _, 1%Q) <$> labels,
      (λ _, 1) <$> labels).

Definition unit_f1_score (y_true y_pred labels : list nat) (average : string)
  : result Q := Ok 1%Q.

Definition three_results : list (EvaluatedExample unit string unit) :=
  [mkEvaluatedExample () "a" "a" (); mkEvaluatedExample () "b" "b" ();
   mkEvaluatedExample () "c" "c" ()].

(** What [_predict_proba] owes for one row, given the decoded label of each
    class: the dictionary maps every label to the probability of its class
    and has no other key, and [top_class] is a label whose probability is
    the largest of the row. *)
Definition row_prediction_ok {Lbl : Type} `{Countable Lbl} (labels : list Lbl)
    (row : list Q) (prediction : option Lbl * gmap Lbl Q) : Prop :=
  let '(top_class, probabilities) := prediction in
  (∀ i l, labels !! i = Some l → probabilities !! l = row !! i)
  ∧ (∀ l, l ∉ labels → probabilities !! l = None)
  ∧ ∃ i l p, labels !! i = Some l ∧ row !! i = Some p
             ∧ top_class = Some l ∧ Forall (λ q, (q <= p)%Q) row.

(** The loop body of [_predict_proba] once the class is decoded. *)
Definition proba_step {Lbl : Type} `{Countable Lbl}
    (st : gmap Lbl Q * option Lbl) (item : Lbl * Q) : gmap Lbl Q * option Lbl :=
  let probabilities := <[item.1 := item.2]> st.1 in
  (probabilities,
   if SkLearnModel.float_gt item.2 (SkLearnModel.get_top probabilities st.2)
   then Some item.1 else st.2).

(** The invariant of that loop over the (label, probability) pairs [seen]. *)
Definition proba_inv {Lbl : Type} `{Countable Lbl} (seen : list (Lbl * Q))
    (st : gmap Lbl Q * option Lbl) : Prop :=
  (∀ l p, (l, p) ∈ seen → st.1 !! l = Some p)
  ∧ (∀ l, l ∉ seen.*1 → st.1 !! l = None)
  ∧ match st.2 with
    | None => seen = []
    | Some t => ∃ pt, (t, pt) ∈ seen ∧ Forall (λ lp, (lp.2 <= pt)%Q) seen
    end.

(** A model fitted on the classes "greet" and "exit", with the 'class'
    label encoder, used to run [_predict_proba]. *)
Definition two_class_model : SkLearnModel.t unit string string unit :=
  SkLearnModel.mk
    (ModelConfig.mk (PyStr "text") (PyStr "query") (PyStr "class") (PyDict ∅)
       PyNone (PyDict ∅) PyNone)
    LabelEncoder PyNone None None ["exit"; "greet"] [].

Section RawInvariant.
Context {E L P : Type}.

(** The loop invariant of [raw_results]: the text labels are duplicate
    free and every numeric entry written so far points at its label. *)
Definition raw_inv (seen : list (EvaluatedExample E L P))
    (st : list L * list nat * list nat) : Prop :=
  let '(text_labels, predicted_vec, expected_vec) := st in
  NoDup text_labels
  ∧ Forall2 (λ r p, text_labels !! p = Some (predicted r)) seen predicted_vec
  ∧ Forall2 (λ r e, text_labels !! e = Some (expected r)) seen expected_vec.

End RawInvariant.

(** The contract of [SkLearnModel.fit], parameterised by the parameters a
    plain fit falls back to. *)
Section FitContract.
Context {Ex Lbl Cls Clf X Y : Type}.
Variable random_shuffle : list nat → list nat.
Variable get_feature_matrix :
  list Ex → list Cls → result (list Cls * (X * Y * list nat)).
Variable _convert_params : pyval → Y → result pyval.
Variable model_class_fit : pyval → X → Y → result Clf.
Variable grid_search_fit :
  pyval → pyval → cv_splitter → pyval → X → Y → list nat
  → result (GridSearchResult Clf).

(** A grid search was run. *)
Definition ran_grid_search (calls : list sk_call) : Prop :=
  ∃ scoring param_grid cv n_jobs,
    CallGridSearchCV scoring param_grid cv n_jobs ∈ calls.

(** The model [self'] holds the outcome of one grid search and nothing else
    was fitted. *)
Definition selected_by_grid_search (self' : SkLearnModel.t Ex Lbl Cls Clf) : Prop :=
  ∃ scoring param_grid cv n_jobs x y groups fitted,
    grid_search_fit scoring param_grid cv n_jobs x y groups = Ok fitted
    ∧ SkLearnModel.sk_calls self' = [CallGridSearchCV scoring param_grid cv n_jobs]
    ∧ SkLearnModel._clf self' = Some (best_estimator_ fitted)
    ∧ SkLearnModel._current_params self' = best_params_ fitted.

(** The model [self'] holds one classifier fitted with [params], recorded
    as the current parameters. *)
Definition fitted_with (params : pyval) (self' : SkLearnModel.t Ex Lbl Cls Clf)
  : Prop :=
  ∃ converted x y clf,
    _convert_params params y = Ok converted
    ∧ model_class_fit converted x y = Ok clf
    ∧ SkLearnModel.sk_calls self' = [CallFit converted]
    ∧ SkLearnModel._clf self' = Some clf
    ∧ SkLearnModel._current_params self' = params.

Definition fit_contract (fallback : pyval → pyval → pyval)
    (self : SkLearnModel.t Ex Lbl Cls Clf) (examples : list Ex)
    (labels : list Lbl) (params : pyval) : Prop :=
  let selection := ModelConfig.param_selection (SkLearnModel.config self) in
  let config_params := ModelConfig.params (SkLearnModel.config self) in
  ∀ self',
    SkLearnModel.fit random_shuffle get_feature_matrix _convert_params
      model_class_fit grid_search_fit self examples labels params = Ok self' →
    (ran_grid_search (SkLearnModel.sk_calls self')
       ↔ params = PyNone ∧ selection ≠ PyNone)
    ∧ (params = PyNone ∧ selection ≠ PyNone → selected_by_grid_search self')
    ∧ (¬ (params = PyNone ∧ selection ≠ PyNone) →
         fitted_with (fallback params config_params) self').

End FitContract.

(** The fallback as the specification words it: [config.params] when
    [params] is [None]. *)
Definition params_unless_None (params config_params : pyval) : pyval :=
  if is_None params then config_params else params.

(** Stand-ins for the library, used to run [fit] on concrete inputs: the
    shuffle keeps the order, the class encoder is fitted on the sorted
    distinct values of [y] and features are not extracted, parameters are
    passed on unchanged, a classifier is identified by the parameters it
    was built from, and the grid search selects the grid it is given. *)
Definition keep_order (indices : list nat) : list nat := indices.
Definition np_unique (y : list string) : list string :=
  @merge_sort string (λ a b, String.leb a b = true)
    (λ a b, decide (String.leb a b = true)) (remove_dups y).
Definition no_features (examples : list string) (y : list string)
  : result (list string * (unit * unit * list nat)) :=
  Ok (np_unique y, ((), (), seq 0 (length examples))).
Definition same_params (params : pyval) (y : unit) : result pyval := Ok params.
Definition fit_as_params (params : pyval) (x y : unit) : result pyval := Ok params.
Definition select_grid (scoring param_grid : pyval) (cv : cv_splitter)
    (n_jobs : pyval) (x y : unit) (groups : list nat)
  : result (GridSearchResult pyval) :=
  Ok (mkGridSearchResult param_grid param_grid 1).

(** A new model whose configuration has [params = {'C': 1}] and no
    parameter selection. *)
Definition fixed_params_model : SkLearnModel.t string string string pyval :=
  SkLearnModel.__init__
    (ModelConfig.mk (PyStr "text") (PyStr "query") (PyStr "class") (PyDict ∅)
       PyNone (PyDict (<["C" := PyInt 1]> ∅)) PyNone)
    LabelEncoder.

(** ** Further invariants and sample inputs *)

(** The labels occurring in a list of results, predicted before expected. *)
Definition all_labels {E L P : Type} (results : list (EvaluatedExample E L P))
  : list L :=
  results ≫= λ r, [predicted r; expected r].

(** What [raw_results] keeps besides [raw_inv]: the text labels are the
    labels met so far, and every number below their count was written to one
    of the two vectors. *)
Definition raw_cover_inv {E L P : Type} (seen : list (EvaluatedExample E L P))
    (st : list L * list nat * list nat) : Prop :=
  let '(text_labels, predicted_vec, expected_vec) := st in
  NoDup text_labels
  ∧ (∀ l, l ∈ text_labels ↔ l ∈ all_labels seen)
  ∧ (∀ i, (i < length text_labels)%nat → i ∈ predicted_vec ∨ i ∈ expected_vec).

(** The names of the six cross-validation types. *)
Definition cv_types : list string :=
  ["k-fold"; "shuffle"; "group-k-fold"; "group-shuffle"; "stratified-k-fold";
   "stratified-shuffle"].

(** The number of entries of each per-class count array for [n] classes. *)
Definition count_entries (n : nat) : nat := if decide (n = 2%nat) then 1%nat else n.

(** The invariant of [SequenceModelEvaluation.raw_results]: the flat
    vectors are the concatenations of the per-result vectors, there is one
    vector per result seen, the text labels have no duplicates and every
    number written is a position in them. *)
Definition seq_raw_inv {C : Type} (count : nat)
    (st : list C * list (list nat) * list (list nat) * list nat * list nat)
  : Prop :=
  let '(text_labels, predicted_vecs, expected_vecs, predicted_flat, expected_flat) :=
    st in
  NoDup text_labels
  ∧ predicted_flat = concat predicted_vecs
  ∧ expected_flat = concat expected_vecs
  ∧ length predicted_vecs = count
  ∧ length expected_vecs = count
  ∧ Forall (λ i, (i < length text_labels)%nat) predicted_flat
  ∧ Forall (λ i, (i < length text_labels)%nat) expected_flat.

(** Selection settings for a 3-fold grid search over one parameter, and the
    same with a scoring that is neither 'accuracy' nor 'log_loss'. *)
Definition kfold_settings : gmap string pyval :=
  <["type" := PyStr "k-fold"]> (<["k" := PyInt 3]> (
  <["grid" := PyDict (<["C" := PyList [PyInt 1; PyInt 10]]> ∅)]> ∅)).

Definition f1_settings : gmap string pyval :=
  <["scoring" := PyStr "f1"]> kfold_settings.

(** A new model whose configuration has [params = {'C': 1}] and an empty
    dictionary as parameter selection. *)
Definition empty_selection_model : SkLearnModel.t string string string pyval :=
  SkLearnModel.__init__
    (ModelConfig.mk (PyStr "text") (PyStr "query") (PyStr "class") (PyDict ∅)
       PyNone (PyDict (<["C" := PyInt 1]> ∅)) (PyDict ∅))
    LabelEncoder.

(** The two-class model with a classifier, and stand-ins for the feature
    transformation and for a classifier that predicts the second class for
    every example. *)
Definition fitted_two_class_model : SkLearnModel.t unit string string unit :=
  SkLearnModel.mk
    (ModelConfig.mk (PyStr "text") (PyStr "query") (PyStr "class") (PyDict ∅)
       PyNone (PyDict ∅) PyNone)
    LabelEncoder PyNone (Some ()) None ["exit"; "greet"] [].

Definition count_examples (examples : list unit) : result nat :=
  Ok (length examples).

Definition always_second (clf : unit) (x : nat) : result (list nat) :=
  Ok (replicate x 1%nat).

(** * Properties *)

(** ** Raw results: text labels and numeric vectors *)

Section RawResultsFacts.
Context {E L P : Type} `{EqDecision L}.
Import ModelEvaluation StandardModelEvaluation.

Lemma py_index_found (label : L) (text_labels : list L) :
  label ∈ text_labels →
  ∃ i, py_index label text_labels = Ok i ∧ text_labels !! i = Some label.
Proof.
  induction text_labels as [|x rest IH]; intros Hin.
  - by apply elem_of_nil in Hin.
  - simpl. destruct (decide (x = label)) as [->|Hne].
    + by exists 0%nat.
    + apply elem_of_cons in Hin as [Heq|Hin]; [congruence|].
      destruct (IH Hin) as (i & -> & Hi). by exists (S i).
Qed.

Lemma update_raw_result_spec (label : L) (text_labels : list L) (vec : list nat) :
  NoDup text_labels →
  ∃ text_labels' i,
    _update_raw_result label text_labels vec = Ok (text_labels', vec ++ [i])
    ∧ NoDup text_labels'
    ∧ text_labels `prefix_of` text_labels'
    ∧ text_labels' !! i = Some label.
Proof.
  intros Hnd. unfold _update_raw_result, py_in.
  case_bool_decide as Hin; simpl.
  - destruct (py_index_found label text_labels Hin) as (i & -> & Hi).
    by exists text_labels, i.
  - assert (label ∈ text_labels ++ [label]) as Hin'
      by (apply elem_of_app; right; apply list_elem_of_singleton; done).
    destruct (py_index_found _ _ Hin') as (i & -> & Hi).
    exists (text_labels ++ [label]), i. split_and!; [done| |by eexists|done].
    apply NoDup_app. split_and!; [done| |apply NoDup_singleton].
    intros x Hx ->%list_elem_of_singleton. done.
Qed.

Lemma Forall2_lookup_prefix (f : EvaluatedExample E L P → L)
    (tl tl' : list L) seen (vec : list nat) :
  tl `prefix_of` tl' →
  Forall2 (λ r p, tl !! p = Some (f r)) seen vec →
  Forall2 (λ r p, tl' !! p = Some (f r)) seen vec.
Proof.
  intros [k ->] HF. eapply Forall2_impl; [exact HF|].
  intros r p Hp. simpl in *. by apply lookup_app_l_Some.
Qed.

Lemma raw_results_body_inv (seen : list (EvaluatedExample E L P)) st r :
  raw_inv seen st →
  ∃ st', raw_results_body st r = Ok st' ∧ raw_inv (seen ++ [r]) st'.
Proof.
  destruct st as [[tl pv] ev]. intros (Hnd & Hp & He).
  unfold raw_results_body.
  destruct (update_raw_result_spec (predicted r) tl pv Hnd)
    as (tl1 & i & -> & Hnd1 & Hpre1 & Hi).
  simpl.
  destruct (update_raw_result_spec (expected r) tl1 ev Hnd1)
    as (tl2 & j & -> & Hnd2 & Hpre2 & Hj).
  simpl. eexists; split; [done|]. split_and!; [done| |].
  - apply Forall2_app.
    + eapply Forall2_lookup_prefix; [|exact Hp]. by etrans.
    + constructor; [|constructor].
      destruct Hpre2 as [k ->]. by apply lookup_app_l_Some.
  - apply Forall2_app.
    + eapply Forall2_lookup_prefix; [|exact He]. by etrans.
    + by constructor.
Qed.

Lemma raw_results_loop_inv (results : list (EvaluatedExample E L P)) :
  ∀ seen st,
  raw_inv seen st →
  ∃ st', for_each raw_results_body results st = Ok st'
         ∧ raw_inv (seen ++ results) st'.
Proof.
  induction results as [|r results IH]; intros seen st Hinv.
  - exists st. by rewrite app_nil_r.
  - destruct (raw_results_body_inv seen st r Hinv) as (st1 & Hst1 & Hinv1).
    destruct (IH _ _ Hinv1) as (st' & Hst' & Hinv').
    exists st'. simpl. rewrite Hst1. simpl. split; [done|].
    by rewrite <- app_assoc in Hinv'.
Qed.

(** C9. For every results list, [raw_results] returns normally; its
    [text_labels] has no duplicates; [predicted] and [expected] have one
    entry per result; every entry is a valid index into [text_labels];
    and the label at [predicted[i]] (at [expected[i]]) is the predicted
    (expected) label of [results[i]]. *)
Theorem raw_results_decodes (results : list (EvaluatedExample E L P)) :
  ∃ rr, raw_results results = Ok rr
    ∧ NoDup (rr_text_labels rr)
    ∧ length (rr_predicted rr) = length results
    ∧ length (rr_expected rr) = length results
    ∧ Forall (λ p, (p < length (rr_text_labels rr))%nat) (rr_predicted rr)
    ∧ Forall (λ e, (e < length (rr_text_labels rr))%nat) (rr_expected rr)
    ∧ ∀ i r, results !! i = Some r →
        ∃ p e, rr_predicted rr !! i = Some p
             ∧ rr_expected rr !! i = Some e
             ∧ rr_text_labels rr !! p = Some (predicted r)
             ∧ rr_text_labels rr !! e = Some (expected r).
Proof.
  destruct (raw_results_loop_inv results [] ([], [], [])) as (st & Hst & Hinv).
  { split_and!; [apply NoDup_nil_2|constructor|constructor]. }
  destruct st as [[tl pv] ev]. simpl in Hinv. destruct Hinv as (Hnd & Hp & He).
  exists (mkRawResults pv ev tl). unfold raw_results. rewrite Hst. simpl.
  split_and!; [done|done| | | | |].
  - symmetry. by eapply Forall2_length.
  - symmetry. by eapply Forall2_length.
  - apply Forall_forall. intros p Hin.
    apply list_elem_of_lookup in Hin as [i Hi].
    destruct (Forall2_lookup_r _ _ _ _ _ Hp Hi) as (r & _ & Hr).
    by eapply lookup_lt_Some.
  - apply Forall_forall. intros e Hin.
    apply list_elem_of_lookup in Hin as [i Hi].
    destruct (Forall2_lookup_r _ _ _ _ _ He Hi) as (r & _ & Hr).
    by eapply lookup_lt_Some.
  - intros i r Hr.
    destruct (Forall2_lookup_l _ _ _ _ _ Hp Hr) as (p & Hpi & Hpl).
    destruct (Forall2_lookup_l _ _ _ _ _ He Hr) as (e & Hei & Hel).
    by exists p, e.
Qed.
End RawResultsFacts.

(** ** Cross-validation iterators *)

Section CvIteratorFacts.
Import Model.

Lemma truthy_dict_with_key (d : gmap string pyval) key v :
  d !! key = Some v → truthy (PyDict d) = true.
Proof.
  intros Hk. simpl. case_bool_decide as He; [|done].
  subst d. by rewrite lookup_empty in Hk.
Qed.

Lemma get_cv_iterator_dispatch (d : gmap string pyval) (ty : string) k f :
  d !! "type" = Some (PyStr ty) →
  d !! "k" = Some k →
  cv_iterators !! ty = Some f →
  _get_cv_iterator (PyDict d) =
    except_KeyError (f (PyDict d))
      (Raise (ValueError "Unknown param selection type: {!r}" [PyStr ty]))
    ≫= λ it, Ok (Some it).
Proof.
  intros Hty Hk Hf. unfold _get_cv_iterator.
  rewrite (truthy_dict_with_key d "k" k Hk). simpl.
  rewrite Hty. simpl. by rewrite Hf.
Qed.

(** The constructors of the k-fold splitters reject a number of splits
    below 2: [_get_cv_iterator] raises their [ValueError], which the handler
    for [KeyError] lets through. *)
Lemma k_fold_too_few_splits (d : gmap string pyval) (ty : string) (z : Z) :
  d !! "type" = Some (PyStr ty) →
  ty ∈ ["k-fold"; "group-k-fold"; "stratified-k-fold"] →
  d !! "k" = Some (PyInt z) → z <= 1 →
  raises_ValueError (_get_cv_iterator (PyDict d)).
Proof.
  intros Hty Hin Hk Hz.
  assert ((z <=? 1) = true) as Hz' by by apply Z.leb_le.
  rewrite !elem_of_cons, elem_of_nil in Hin.
  destruct Hin as [->|[->|[->|[]]]];
    (erewrite get_cv_iterator_dispatch; [|exact Hty|exact Hk|reflexivity]);
    cbn; rewrite Hk; cbn; rewrite Hz'; by eexists _, _.
Qed.

(** C5 (amended). [_get_cv_iterator] returns [None] for every falsy
    settings value. For a settings dictionary whose entry [k] is an integer
    of at least 2, the types 'k-fold', 'group-k-fold' and
    'stratified-k-fold' give the matching splitter with [n_splits = k]; for
    an integer [k] other than zero the types 'shuffle', 'group-shuffle' and
    'stratified-shuffle' give the matching splitter with [n_splits = n],
    where [n] is the entry 'n' or [k] when there is none, and
    [test_size = 1.0 / k]. *)
Theorem get_cv_iterator_spec :
  (∀ settings, truthy settings = false → _get_cv_iterator settings = Ok None)
  ∧ (∀ (d : gmap string pyval) (z : Z),
      d !! "k" = Some (PyInt z) → 2 <= z →
      (d !! "type" = Some (PyStr "k-fold") →
         _get_cv_iterator (PyDict d) = Ok (Some (KFold (PyInt z))))
      ∧ (d !! "type" = Some (PyStr "group-k-fold") →
         _get_cv_iterator (PyDict d) = Ok (Some (GroupKFold (PyInt z))))
      ∧ (d !! "type" = Some (PyStr "stratified-k-fold") →
         _get_cv_iterator (PyDict d) = Ok (Some (StratifiedKFold (PyInt z)))))
  ∧ (∀ (d : gmap string pyval) (z : Z),
      d !! "k" = Some (PyInt z) → z ≠ 0 →
      let n := from_option id (PyInt z) (d !! "n") in
      let test_size := PyFloat (1 / inject_Z z) in
      (d !! "type" = Some (PyStr "shuffle") →
         _get_cv_iterator (PyDict d) = Ok (Some (ShuffleSplit n test_size)))
      ∧ (d !! "type" = Some (PyStr "group-shuffle") →
         _get_cv_iterator (PyDict d) = Ok (Some (GroupShuffleSplit n test_size)))
      ∧ (d !! "type" = Some (PyStr "stratified-shuffle") →
         _get_cv_iterator (PyDict d)
           = Ok (Some (StratifiedShuffleSplit n test_size)))).
Proof.
  split_and!.
  - intros settings Hf. unfold _get_cv_iterator. by rewrite Hf.
  - intros d z Hk Hz.
    assert ((z <=? 1) = false) as Hz' by by apply Z.leb_gt; lia.
    split_and!; intros Hty;
      (erewrite get_cv_iterator_dispatch; [|exact Hty|exact Hk|reflexivity]);
      cbn; rewrite Hk; cbn; by rewrite Hz'.
  - intros d z Hk Hz n test_size.
    assert ((z =? 0) = false) as Hz' by by apply Z.eqb_neq.
    split_and!; intros Hty;
      (erewrite get_cv_iterator_dispatch; [|exact Hty|exact Hk|reflexivity]);
      cbn; rewrite Hk; cbn; by rewrite Hz'.
Qed.

(** C5 (as stated) fails for a small [k]: the k-fold splitters need at
    least two splits, so with [k = 1] the constructor raises [ValueError]
    and no splitter with one split is returned; and with [k = 0] the shuffle
    types raise [ZeroDivisionError] when the test fraction is computed. *)
Lemma get_cv_iterator_small_k_counterexample :
  ¬ k_splits_as_stated (<["type" := PyStr "k-fold"]> (<["k" := PyInt 1]> ∅))
  ∧ _get_cv_iterator
      (PyDict (<["type" := PyStr "shuffle"]> (<["k" := PyInt 0]> ∅)))
    = Raise ZeroDivisionError.
Proof.
  split; [|reflexivity].
  intros Hstated.
  destruct (Hstated (PyInt 1) eq_refl) as (Hfold & _).
  specialize (Hfold eq_refl).
  destruct (k_fold_too_few_splits
              (<["type" := PyStr "k-fold"]> (<["k" := PyInt 1]> ∅)) "k-fold" 1)
    as (fmt & args & Hraise);
    [reflexivity|rewrite !elem_of_cons; tauto|reflexivity|lia|].
  rewrite Hraise in Hfold. discriminate Hfold.
Qed.

(** C10 (what the code does). A settings dictionary whose 'type' is a
    string outside the table makes [table.get] return [None]; calling it
    raises [TypeError], which [except KeyError] lets through: no
    [ValueError] is raised. *)
Theorem get_cv_iterator_unknown_type (d : gmap string pyval) (ty : string) :
  d !! "type" = Some (PyStr ty) →
  cv_iterators !! ty = None →
  _get_cv_iterator (PyDict d)
    = Raise (TypeError "'NoneType' object is not callable" []).
Proof.
  intros Hty Hnone. unfold _get_cv_iterator.
  rewrite (truthy_dict_with_key d "type" _ Hty). simpl.
  rewrite Hty. simpl. by rewrite Hnone.
Qed.

Lemma get_cv_iterator_unknown_type_witness :
  _get_cv_iterator (PyDict (<["type" := PyStr "leave-one-out"]> (<["k" := PyInt 3]> ∅)))
    = Raise (TypeError "'NoneType' object is not callable" []).
Proof.
  apply (get_cv_iterator_unknown_type _ "leave-one-out"); reflexivity.
Defined.

Lemma get_cv_iterator_spec_witness :
  _get_cv_iterator (PyDict ∅) = Ok None
  ∧ _get_cv_iterator
      (PyDict (<["type" := PyStr "k-fold"]> (<["k" := PyInt 5]> ∅)))
    = Ok (Some (KFold (PyInt 5)))
  ∧ _get_cv_iterator
      (PyDict (<["type" := PyStr "shuffle"]> (<["k" := PyInt 4]> ∅)))
    = Ok (Some (ShuffleSplit (PyInt 4) (PyFloat (1 / inject_Z 4)))).
Proof.
  destruct get_cv_iterator_spec as (Hfalsy & Hfold & Hshuffle).
  split_and!.
  - apply Hfalsy. reflexivity.
  - refine (proj1 (Hfold _ 5 _ _) _); [reflexivity|lia|reflexivity].
  - refine (proj1 (Hshuffle _ 4 _ _) _); [reflexivity|lia|reflexivity].
Defined.
End CvIteratorFacts.


(** ** ModelConfig construction *)

Section ModelConfigFacts.
Import ModelConfig.

Lemma is_None_true (v : pyval) : is_None v = true ↔ v = PyNone.
Proof. destruct v; simpl; split; intros; done. Qed.

Lemma is_None_false (v : pyval) : is_None v = false ↔ v ≠ PyNone.
Proof. destruct v; simpl; split; intros; done. Qed.

Lemma required_args_checked (mt et lt f : pyval) :
  (required_missing mt et lt f
   ∧ raises_TypeError
       (for_each check_required
          [("model_type", mt); ("example_type", et);
           ("label_type", lt); ("features", f)] ()))
  ∨ (¬ required_missing mt et lt f
     ∧ for_each check_required
         [("model_type", mt); ("example_type", et);
          ("label_type", lt); ("features", f)] () = Ok ()).
Proof.
  unfold required_missing. simpl.
  destruct (is_None mt) eqn:H1; [left; split; [|by eexists _, _]|].
  { apply is_None_true in H1. tauto. }
  destruct (is_None et) eqn:H2; [left; split; [|by eexists _, _]|].
  { apply is_None_true in H2. tauto. }
  destruct (is_None lt) eqn:H3; [left; split; [|by eexists _, _]|].
  { apply is_None_true in H3. tauto. }
  destruct (is_None f) eqn:H4; [left; split; [|by eexists _, _]|].
  { apply is_None_true in H4. tauto. }
  right. apply is_None_false in H1, H2, H3, H4. split; [tauto|done].
Qed.

(** What [lacks_grid] computes. *)
Lemma lacks_grid_spec (ps : pyval) :
  (lacks_grid ps = Ok true ∧ no_grid_value ps)
  ∨ (lacks_grid ps = Ok false ∧ ¬ no_grid_value ps ∧ ∃ d, ps = PyDict d)
  ∨ (lacks_grid ps = Raise (AttributeError "get") ∧ ¬ no_grid_value ps
     ∧ ps ≠ PyNone ∧ ¬ ∃ d, ps = PyDict d).
Proof.
  unfold lacks_grid, no_grid_value.
  destruct ps as [| | | | | |d]; simpl;
    try (right; right; split_and!; [done|intros [?|(?&?&?)]; done|done|intros [? ?]; done]).
  - left. split; [done|by left].
  - destruct (d !! "grid") as [g|] eqn:Hg; simpl.
    + destruct (is_None g) eqn:Hn.
      * apply is_None_true in Hn as ->. left. split; [done|].
        right. exists d. split; [done|by right].
      * apply is_None_false in Hn. right. left. split_and!; [done| |by exists d].
        intros [?|(d' & [= <-] & [?|?])]; congruence.
    + left. split; [done|]. right. exists d. split; [done|by left].
Qed.

(** C8 (amended). [__init__] raises [TypeError] exactly when one of
    [model_type], [example_type], [label_type], [features] is [None]; when
    none is, it raises [ValueError] exactly when [params] is [None] and
    [param_selection] is [None] or a dictionary whose 'grid' entry is absent
    or [None]; otherwise, for [param_selection] being [None] or a dictionary,
    it builds the configuration whose seven slots are the arguments. *)
Theorem init_contract_holds (mt et lt f ms p ps : pyval) :
  init_contract no_grid_value mt et lt f ms p ps.
Proof.
  unfold init_contract, __init__.
  destruct (required_args_checked mt et lt f) as [[Hm Hr]|[Hm ->]].
  - destruct Hr as (fmt & args & ->). simpl. split_and!.
    + split; [done|]. intros _. by eexists _, _.
    + tauto.
    + tauto.
  - simpl. split_and!.
    + split; [|tauto]. intros (fmt & args & Hr). exfalso.
      destruct (is_None p); [|done].
      destruct (lacks_grid_spec ps) as [[Hl _]|[[Hl _]|[Hl _]]];
        rewrite Hl in Hr; done.
    + intros _. destruct (is_None p) eqn:Hp.
      * apply is_None_true in Hp as ->.
        destruct (lacks_grid_spec ps) as [[-> Hg]|[[-> [Hg _]]|[-> [Hg _]]]]; simpl.
        -- split; [done|]. intros _. by eexists _, _.
        -- split; [intros (?&?&?); done|tauto].
        -- split; [intros (?&?&?); done|tauto].
      * apply is_None_false in Hp. simpl. split; [intros (?&?&?); done|tauto].
    + intros _ Hno Hty. destruct (is_None p) eqn:Hp; [|done].
      apply is_None_true in Hp as ->.
      destruct (lacks_grid_spec ps) as [[-> Hg]|[[-> _]|[_ (_ & Hn & Hd)]]];
        [tauto|done|tauto].
Qed.

(** C8 (as stated) fails: with [params = None] and
    [param_selection = {'grid': None}] the dictionary has a 'grid' entry,
    yet [ValueError] is raised. *)
Lemma init_contract_grid_None_counterexample :
  ¬ init_contract no_grid_entry
      (PyStr "text") (PyStr "query") (PyStr "class") (PyDict ∅)
      PyNone PyNone (PyDict (<["grid" := PyNone]> ∅)).
Proof.
  intros (_ & Hv & _).
  assert (¬ required_missing (PyStr "text") (PyStr "query") (PyStr "class") (PyDict ∅))
    as Hm by (intros [?|[?|[?|?]]]; done).
  destruct (Hv Hm) as [Hraise _].
  destruct Hraise as [_ [?|(d & [= <-] & Hd)]]; [by eexists _, _|done|done].
Qed.
End ModelConfigFacts.


(** ** Confusion matrix counts *)

Section ConfusionFacts.

Lemma sum_over_S (n : nat) (f : nat → Z) :
  sum_over (S n) f = f 0%nat + sum_over n (λ k, f (S k)).
Proof.
  unfold sum_over. simpl. f_equal.
  rewrite <- fmap_S_seq, <- list_fmap_compose. done.
Qed.

Lemma sum_over_ext (n : nat) (f g : nat → Z) :
  (∀ k, (k < n)%nat → f k = g k) → sum_over n f = sum_over n g.
Proof.
  revert f g. induction n as [|n IH]; intros f g Hfg; [done|].
  rewrite !sum_over_S. rewrite (Hfg 0%nat) by lia.
  f_equal. apply IH. intros k Hk. apply Hfg. lia.
Qed.

Lemma Zsum_sum_over (l : list Z) :
  Zsum l = sum_over (length l) (λ k, default 0 (l !! k)).
Proof.
  induction l as [|x l IH]; [done|].
  simpl length. rewrite sum_over_S. simpl. by rewrite IH.
Qed.

Lemma Zsum_app (l1 l2 : list Z) : Zsum (l1 ++ l2) = Zsum l1 + Zsum l2.
Proof. induction l1 as [|x l1 IH]; simpl; [done|]. rewrite IH. lia. Qed.

Lemma entry_np_mul (a b : matrix) (i j : nat) :
  entry (np_mul a b) i j = entry a i j * entry b i j.
Proof.
  unfold entry, np_mul. rewrite lookup_zip_with.
  destruct (a !! i) as [ra|]; simpl; [|done].
  destruct (b !! i) as [rb|]; simpl; [|lia].
  rewrite lookup_zip_with.
  destruct (ra !! j) as [x|]; simpl; [|done].
  destruct (rb !! j) as [y|]; simpl; [done|lia].
Qed.

Lemma np_mul_square (n : nat) (a b : matrix) :
  is_square n a → is_square n b → is_square n (np_mul a b).
Proof.
  intros [Ha Hra] [Hb Hrb]. unfold np_mul. split.
  - rewrite length_zip_with. lia.
  - apply Forall_forall. intros row Hin.
    apply elem_of_lookup_zip_with in Hin as (i & ra & rb & -> & Hia & Hib).
    rewrite length_zip_with.
    rewrite Forall_forall in Hra. rewrite Forall_forall in Hrb.
    rewrite (Hra ra), (Hrb rb); [lia| |]; by eapply list_elem_of_lookup_2.
Qed.

Lemma np_sum_square (n : nat) (a : matrix) :
  is_square n a →
  np_sum a = sum_over n (λ i, sum_over n (λ j, entry a i j)).
Proof.
  intros [Hlen Hrows]. unfold np_sum.
  rewrite Zsum_sum_over, length_fmap, Hlen.
  apply sum_over_ext. intros i Hi.
  rewrite list_lookup_fmap.
  destruct (a !! i) as [row|] eqn:Hrow.
  - simpl. rewrite Zsum_sum_over.
    rewrite Forall_forall in Hrows.
    rewrite (Hrows row) by (by eapply list_elem_of_lookup_2).
    apply sum_over_ext. intros j Hj. unfold entry. by rewrite Hrow.
  - apply lookup_ge_None in Hrow. lia.
Qed.

Lemma masked_sum (n : nat) (mask C : matrix) :
  is_square n mask → is_square n C →
  np_sum (np_mul mask C)
  = sum_over n (λ i, sum_over n (λ j, entry mask i j * entry C i j)).
Proof.
  intros Hm HC. rewrite (np_sum_square n) by by apply np_mul_square.
  apply sum_over_ext. intros i _. apply sum_over_ext. intros j _.
  apply entry_np_mul.
Qed.


Lemma sum_over_zero (n : nat) : sum_over n (λ _, 0) = 0.
Proof. induction n as [|n IH]; [done|]. rewrite sum_over_S, IH. done. Qed.

Lemma sum_over_single (n i : nat) (g : nat → Z) :
  (i < n)%nat →
  sum_over n (λ k, if bool_decide (k = i) then g k else 0) = g i.
Proof.
  revert i g. induction n as [|n IH]; intros i g Hi; [lia|].
  rewrite sum_over_S. destruct i as [|i].
  - rewrite bool_decide_eq_true_2 by done.
    rewrite (sum_over_ext n _ (λ _, 0)), sum_over_zero; [lia|].
    intros k _. by rewrite bool_decide_eq_false_2.
  - rewrite bool_decide_eq_false_2 by done.
    rewrite (sum_over_ext n _ (λ k, if bool_decide (k = i) then g (S k) else 0)).
    + rewrite (IH i (λ k, g (S k))) by lia. lia.
    + intros k _. repeat case_bool_decide; try done; lia.
Qed.

Lemma tn_mask_square (n i : nat) : is_square n (tn_mask n i).
Proof.
  unfold tn_mask, set_row, set_column, np_ones. split.
  - by rewrite length_alter, length_fmap, length_replicate.
  - apply Forall_forall. intros row Hin.
    apply list_elem_of_lookup in Hin as [j Hj].
    rewrite list_lookup_alter, list_lookup_fmap in Hj.
    case_decide; subst.
    + destruct (replicate n (replicate n 1) !! j) as [r|] eqn:Hr; [|done].
      apply lookup_replicate in Hr as [-> _]. simpl in Hj.
      injection Hj as <-. by rewrite length_replicate, length_insert, length_replicate.
    + rewrite list_lookup_fmap in Hj.
      destruct (replicate n (replicate n 1) !! j) as [r|] eqn:Hr; [|done].
      apply lookup_replicate in Hr as [-> _]. simpl in Hj.
      injection Hj as <-. by rewrite length_insert, length_replicate.
Qed.

Lemma tn_mask_entry (n i j k : nat) :
  (i < n)%nat → (j < n)%nat → (k < n)%nat →
  entry (tn_mask n i) j k = if bool_decide (j ≠ i ∧ k ≠ i) then 1 else 0.
Proof.
  intros Hi Hj Hk. unfold entry, tn_mask, set_row, set_column, np_ones.
  rewrite list_lookup_alter, !list_lookup_fmap.
  rewrite !lookup_replicate_2 by done.
  case_decide as Hij; simpl.
  - subst j. rewrite length_insert, length_replicate.
    rewrite lookup_replicate_2 by done. simpl.
    rewrite bool_decide_eq_false_2; [done|]. tauto.
  - rewrite list_lookup_insert, length_replicate.
    case_decide as Hik.
    + rewrite bool_decide_eq_false_2; [done|]. intros [_ ?]. lia.
    + rewrite lookup_replicate_2 by done. simpl.
      rewrite bool_decide_eq_true_2; [done|]. split; [done|]. lia.
Qed.

Lemma column_mask_square (n i : nat) : is_square n (column_mask n i).
Proof.
  unfold column_mask, set_entry, set_column, np_zeros. split.
  - by rewrite length_alter, length_fmap, length_replicate.
  - apply Forall_forall. intros row Hin.
    apply list_elem_of_lookup in Hin as [j Hj].
    rewrite list_lookup_alter, !list_lookup_fmap in Hj.
    case_decide; subst.
    + destruct (replicate n (replicate n 0) !! j) as [r|] eqn:Hr; [|done].
      apply lookup_replicate in Hr as [-> _]. simpl in Hj.
      injection Hj as <-. by rewrite !length_insert, length_replicate.
    + destruct (replicate n (replicate n 0) !! j) as [r|] eqn:Hr; [|done].
      apply lookup_replicate in Hr as [-> _]. simpl in Hj.
      injection Hj as <-. by rewrite length_insert, length_replicate.
Qed.

Lemma column_mask_entry (n i j k : nat) :
  (i < n)%nat → (j < n)%nat → (k < n)%nat →
  entry (column_mask n i) j k = if bool_decide (k = i ∧ j ≠ i) then 1 else 0.
Proof.
  intros Hi Hj Hk. unfold entry, column_mask, set_entry, set_column, np_zeros.
  rewrite list_lookup_alter, !list_lookup_fmap.
  rewrite !lookup_replicate_2 by done.
  case_decide as Hij; simpl.
  - subst j. rewrite !list_lookup_insert, !length_insert, length_replicate.
    rewrite (bool_decide_eq_false_2 (k = i ∧ i ≠ i)) by tauto.
    repeat case_decide; try done.
    by rewrite lookup_replicate_2.
  - rewrite list_lookup_insert, length_replicate.
    case_decide as Hik.
    + rewrite bool_decide_eq_true_2; [done|]. split; [lia|done].
    + rewrite lookup_replicate_2 by done. simpl.
      rewrite bool_decide_eq_false_2; [done|]. intros [? _]. lia.
Qed.

Lemma tn_mask_sum (C : matrix) (i : nat) :
  is_square (length C) C → (i < length C)%nat →
  np_sum (np_mul (tn_mask (length C) i) C) = true_negatives C i.
Proof.
  intros HC Hi. rewrite (masked_sum (length C)); [|apply tn_mask_square|done].
  unfold true_negatives. apply sum_over_ext. intros j Hj.
  apply sum_over_ext. intros k Hk. rewrite tn_mask_entry by done.
  case_bool_decide; lia.
Qed.

Lemma column_mask_sum (C : matrix) (i : nat) :
  is_square (length C) C → (i < length C)%nat →
  np_sum (np_mul (column_mask (length C) i) C) = false_positives C i.
Proof.
  intros HC Hi. rewrite (masked_sum (length C)); [|apply column_mask_square|done].
  unfold false_positives. apply sum_over_ext. intros j Hj.
  rewrite (sum_over_ext _ _
    (λ k, if bool_decide (k = i) then (if bool_decide (j ≠ i) then entry C j k else 0) else 0)).
  - by rewrite sum_over_single.
  - intros k Hk. rewrite column_mask_entry by done.
    repeat case_bool_decide; try lia; tauto.
Qed.


Lemma multiclass_loop (C : matrix) (n : nat) (l : list nat) : ∀ a b c d,
  foldl (multiclass_body C n) (a, b, c, d) l =
    (a ++ ((λ i, entry C i i) <$> l),
     b ++ ((λ i, np_sum (np_mul (tn_mask n i) C)) <$> l),
     c ++ ((λ i, np_sum (np_mul (column_mask n i) C)) <$> l),
     d ++ ((λ i, np_sum (np_mul (column_mask n i) C)) <$> l)).
Proof.
  induction l as [|i l IH]; intros a b c d; simpl.
  - by rewrite !app_nil_r.
  - rewrite IH. by rewrite <- !app_assoc.
Qed.

Lemma lookup_fmap_seq (f : nat → Z) (n i : nat) :
  (i < n)%nat → (f <$> seq 0 n) !! i = Some (f i).
Proof. intros Hi. by rewrite list_lookup_fmap, lookup_seq_lt. Qed.

Lemma confusion_matrix_square (y_true y_pred : list nat) (C : matrix) :
  confusion_matrix y_true y_pred = Ok C → is_square (length C) C.
Proof.
  unfold confusion_matrix. case_decide; [|done]. intros [= <-].
  split; [done|]. rewrite length_fmap.
  apply Forall_fmap, Forall_forall. intros a _. simpl. by rewrite length_fmap.
Qed.

(** The multi class branch on a square matrix. *)
Lemma counts_of_matrix_multiclass (C : matrix) :
  is_square (length C) C → length C ≠ 2%nat →
  multiclass_counts (counts_of_matrix C).
Proof.
  intros HC Hn. unfold counts_of_matrix. case_decide; [done|].
  rewrite multiclass_loop. unfold multiclass_counts. simpl.
  rewrite !length_fmap, !length_seq. split_and!; try done.
  intros i Hi. rewrite !lookup_fmap_seq by done.
  by rewrite tn_mask_sum, column_mask_sum.
Qed.

(** The binary branch on a square matrix. *)
Lemma counts_of_matrix_binary (C : matrix) :
  is_square (length C) C → length C = 2%nat →
  positive_class_counts (counts_of_matrix C).
Proof.
  intros HC Hn. unfold counts_of_matrix. case_decide; [|done].
  unfold positive_class_counts, binary_counts. simpl.
  unfold true_negatives, false_positives, false_negatives. rewrite Hn.
  f_equal; f_equal; cbn; repeat case_bool_decide; lia.
Qed.

Lemma counts_of_matrix_overall (C : matrix) : overall_is_sum (counts_of_matrix C).
Proof.
  unfold counts_of_matrix, overall_is_sum.
  by destruct (if decide (length C = 2%nat) then _ else _) as [[[a b] c] d].
Qed.

Lemma counts_of_matrix_confusion_matrix (C : matrix) :
  cs_confusion_matrix (counts_of_matrix C) = C.
Proof.
  unfold counts_of_matrix.
  by destruct (if decide (length C = 2%nat) then _ else _) as [[[a b] c] d].
Qed.

(** C1 (amended). For equal-length label vectors the function returns the
    confusion matrix [C] together with counts such that: when [C] does not
    have exactly two classes, each array has one entry per class [i], with
    [TP_i = C[i][i]], [TN_i] the sum of the entries outside row [i] and
    column [i], and [FP_i] the sum of column [i] without the diagonal; when
    [C] has exactly two classes, each array has a single entry, the count of
    class 1 ([TP = C[1][1]], [TN = C[0][0]], [FP = C[0][1]],
    [FN = C[1][0]]); and [counts_overall] is the componentwise sum of the
    per-class arrays. *)
Theorem confusion_counts (y_true y_pred : list nat) :
  length y_true = length y_pred →
  ∃ st C,
    _get_confusion_matrix_and_counts y_true y_pred = Ok st
    ∧ confusion_matrix y_true y_pred = Ok C
    ∧ cs_confusion_matrix st = C
    ∧ (length C ≠ 2%nat → multiclass_counts st)
    ∧ (length C = 2%nat → positive_class_counts st)
    ∧ overall_is_sum st.
Proof.
  intros Hlen. unfold _get_confusion_matrix_and_counts.
  destruct (confusion_matrix y_true y_pred) as [C|e] eqn:HC.
  - pose proof (confusion_matrix_square _ _ _ HC) as Hsq.
    exists (counts_of_matrix C), C. simpl. split_and!; try done.
    + apply counts_of_matrix_confusion_matrix.
    + by apply counts_of_matrix_multiclass.
    + by apply counts_of_matrix_binary.
    + apply counts_of_matrix_overall.
  - unfold confusion_matrix in HC. by case_decide.
Qed.

Lemma confusion_counts_witness :
  ∃ st C,
    _get_confusion_matrix_and_counts [0; 1; 2; 2]%nat [1; 1; 2; 0]%nat = Ok st
    ∧ confusion_matrix [0; 1; 2; 2]%nat [1; 1; 2; 0]%nat = Ok C
    ∧ cs_confusion_matrix st = C
    ∧ (length C ≠ 2%nat → multiclass_counts st)
    ∧ (length C = 2%nat → positive_class_counts st)
    ∧ overall_is_sum st.
Proof. apply (confusion_counts [0; 1; 2; 2]%nat [1; 1; 2; 0]%nat). reflexivity. Defined.

(** C1 (as stated) fails in the binary branch: for two classes the arrays
    hold one entry, the counts of class 1, so the entry at index 0 is not
    the count of class 0. *)
Lemma confusion_counts_binary_counterexample :
  ¬ confusion_counts_as_stated [0; 0; 1]%nat [0; 0; 1]%nat.
Proof.
  intros (st & Hst & Hclass & _).
  vm_compute in Hst. injection Hst as <-.
  destruct (Hclass 0%nat) as [Htp _]; [simpl; lia|].
  vm_compute in Htp. discriminate Htp.
Qed.

(** In the multi class branch the false-negative array is computed with
    the mask of the false positives (column [i] instead of row [i]). *)
Lemma multiclass_FN_equals_FP (C : matrix) :
  length C ≠ 2%nat →
  FN (counts_by_class (counts_of_matrix C)) = FP (counts_by_class (counts_of_matrix C)).
Proof.
  intros Hn. unfold counts_of_matrix. case_decide; [done|].
  by rewrite multiclass_loop.
Qed.

(** For true labels [0, 1, 2] predicted as [1, 1, 2], class 0 has one false
    negative (row 0 of the matrix without its diagonal) and the array
    reports none. *)
Lemma multiclass_FN_example :
  ∃ st, _get_confusion_matrix_and_counts [0; 1; 2]%nat [1; 1; 2]%nat = Ok st
        ∧ cs_confusion_matrix st = [[0; 1; 0]; [0; 1; 0]; [0; 0; 1]]
        ∧ FN (counts_by_class st) = [0; 1; 0]
        ∧ false_negatives (cs_confusion_matrix st) <$> [0; 1; 2]%nat = [1; 0; 0].
Proof. eexists. split; [vm_compute; reflexivity|]. by vm_compute. Qed.

End ConfusionFacts.


(** ** Per-class statistics and their table *)

Section ClassStatsFacts.
Context {E P : Type}.

Lemma for_each_appends {X R : Type} (body : list R → X → result (list R))
    (xs : list X) : ∀ init out,
  (∀ acc x acc', body acc x = Ok acc' → ∃ r, acc' = acc ++ [r]) →
  for_each body xs init = Ok out →
  ∃ rows, out = init ++ rows ∧ length rows = length xs.
Proof.
  induction xs as [|x xs IH]; intros init out Hbody Hrun; simpl in Hrun.
  - injection Hrun as <-. exists []. by rewrite app_nil_r.
  - destruct (body init x) as [acc'|e] eqn:Hstep; [|done]. simpl in Hrun.
    destruct (Hbody _ _ _ Hstep) as [r ->].
    destruct (IH _ _ Hbody Hrun) as (rows & -> & Hlen).
    exists (r :: rows). rewrite <- app_assoc. simpl. by rewrite Hlen.
Qed.

(** The rows of the class table: one per label of [label_range]. *)
Lemma print_class_stats_table_rows (stats : list (string * list pyval))
    (text_labels : list string) (out : list line) :
  _print_class_stats_table stats text_labels = Ok out →
  ∃ title header rows footer,
    out = [title; header] ++ rows ++ [footer]
    ∧ length rows = (length text_labels - 1)%nat.
Proof.
  unfold _print_class_stats_table. intros Hout.
  match type of Hout with
  | context [for_each ?b ?xs ?i] => destruct (for_each b xs i) as [acc|e] eqn:Hloop
  end; [|done].
  simpl in Hout. injection Hout as <-.
  apply for_each_appends in Hloop as (rows & -> & Hlen).
  - eexists _, _, rows, _. split; [by rewrite <- app_assoc|].
    unfold label_range in Hlen. by rewrite Hlen, length_seq.
  - intros acc0 label acc' Hstep.
    destruct (stats_row _ _ label) as [row|]; [|done]. simpl in Hstep.
    destruct (list_get text_labels label) as [name|]; [|done]. simpl in Hstep.
    injection Hstep as <-. by eexists.
Qed.

(** C2 (what the code does). The per-class scoring is given the labels
    [0 .. n-2] for [n] text labels, and the class table has [n-1] rows:
    the last label has no per-class statistics and no row. *)
Theorem class_stats_leave_out_last_label
    (score : list nat → list nat → list nat
             → result (list Q * list Q * list Q * list Z))
    (f1_score : list nat → list nat → list nat → string → result Q)
    (results : list (EvaluatedExample E string P))
    (raw_expected raw_predicted : list nat) (text_labels : list string)
    (st : CommonStats) :
  _get_common_stats score f1_score results raw_expected raw_predicted text_labels
    = Ok st →
  (∃ precision recall f_beta support,
      score raw_expected raw_predicted (seq 0 (length text_labels - 1))
        = Ok (precision, recall, f_beta, support)
      ∧ odict_get (class_stats st) "precision" = Ok (PyFloat <$> precision)
      ∧ odict_get (class_stats st) "recall" = Ok (PyFloat <$> recall)
      ∧ odict_get (class_stats st) "f_beta" = Ok (PyFloat <$> f_beta)
      ∧ odict_get (class_stats st) "support" = Ok (PyInt <$> support))
  ∧ (∀ out, _print_class_stats_table (class_stats st) text_labels = Ok out →
       ∃ title header rows footer,
         out = [title; header] ++ rows ++ [footer]
         ∧ length rows = (length text_labels - 1)%nat).
Proof.
  intros Hst. split.
  - unfold _get_common_stats in Hst.
    destruct (_get_confusion_matrix_and_counts _ _) as [cs|]; [|done].
    simpl in Hst.
    destruct (_get_overall_stats _ _ _ _ _) as [ov|]; [|done]. simpl in Hst.
    unfold _get_class_stats, label_range in Hst.
    destruct (score _ _ _) as [[[[p r] f] s]|]; [|done].
    simpl in Hst. injection Hst as <-.
    exists p, r, f, s. split_and!; reflexivity.
  - intros out. apply print_class_stats_table_rows.
Qed.

End ClassStatsFacts.

Lemma class_stats_leave_out_last_label_witness :
  ∃ st,
    _get_common_stats unit_score unit_f1_score three_results
      [0; 1; 2]%nat [0; 1; 2]%nat ["a"; "b"; "c"] = Ok st
    ∧ (∃ precision recall f_beta support,
        unit_score [0; 1; 2]%nat [0; 1; 2]%nat (seq 0 (3 - 1))
          = Ok (precision, recall, f_beta, support)
        ∧ odict_get (class_stats st) "precision" = Ok (PyFloat <$> precision)
        ∧ odict_get (class_stats st) "recall" = Ok (PyFloat <$> recall)
        ∧ odict_get (class_stats st) "f_beta" = Ok (PyFloat <$> f_beta)
        ∧ odict_get (class_stats st) "support" = Ok (PyInt <$> support))
    ∧ (∀ out, _print_class_stats_table (class_stats st) ["a"; "b"; "c"] = Ok out →
         ∃ title header rows footer,
           out = [title; header] ++ rows ++ [footer]
           ∧ length rows = (3 - 1)%nat).
Proof.
  eexists. split; [vm_compute; reflexivity|].
  apply (class_stats_leave_out_last_label unit_score unit_f1_score
           three_results [0; 1; 2]%nat [0; 1; 2]%nat ["a"; "b"; "c"]).
  vm_compute. reflexivity.
Defined.

(** On three results with the labels a, b and c the table has the rows of
    a and b only. *)
Lemma class_stats_table_three_labels :
  ∃ st title header footer fmt cells_a cells_b,
    _get_common_stats unit_score unit_f1_score three_results
      [0; 1; 2]%nat [0; 1; 2]%nat ["a"; "b"; "c"] = Ok st
    ∧ _print_class_stats_table (class_stats st) ["a"; "b"; "c"]
      = Ok [title; header;
            Formatted fmt (PyStr "a" :: cells_a);
            Formatted fmt (PyStr "b" :: cells_b);
            footer].
Proof. eexists _, _, _, _, _, _, _. split; vm_compute; reflexivity. Qed.


(** ** Label encoders *)

Section LabelEncoderFacts.
Context {Ex L : Type}.

(** C7. The encoder registered under 'class' is [LabelEncoder]; its
    [encode] and [decode] return the list they are given, whatever the
    keyword arguments, so decoding the encoded labels gives the labels
    back. *)
Theorem class_encoder_round_trip (labels : list L) (kw kw' : option (list Ex)) :
  get_label_encoder "class" = Some (LabelEncoder (Ex := Ex) (L := L))
  ∧ encode LabelEncoder labels kw = Ok labels
  ∧ decode LabelEncoder labels kw = Ok labels
  ∧ (encode LabelEncoder labels kw ≫= λ classes, decode LabelEncoder classes kw')
    = Ok labels.
Proof.
  split_and!; [|reflexivity ..].
  unfold get_label_encoder, label_registry, register_label.
  apply lookup_insert_eq.
Qed.

End LabelEncoderFacts.

(** ** The shuffle of [fit] *)

Section ShuffleFacts.
Context {Ex Lbl : Type}.
Import SkLearnModel.

Lemma comprehension_list_get {V : Type} (l : list V) (indices : list nat) :
  Forall (λ i, (i < length l)%nat) indices →
  comprehension (list_get l) indices = Ok (omap (λ i, l !! i) indices).
Proof.
  induction 1 as [|i indices Hi _ IH]; [done|].
  destruct (lookup_lt_is_Some_2 l i Hi) as [x Hx].
  cbn [comprehension omap list_omap]. rewrite IH. unfold list_get.
  by rewrite Hx.
Qed.

Lemma omap_lookup_seq {V : Type} (l : list V) : ∀ pre,
  omap (λ i, (pre ++ l) !! i) (seq (length pre) (length l)) = l.
Proof.
  induction l as [|x l IH]; intros pre; [done|].
  simpl. rewrite list_lookup_middle by done. f_equal.
  specialize (IH (pre ++ [x])).
  rewrite <- app_assoc, length_app in IH. simpl in IH.
  by rewrite Nat.add_1_r in IH.
Qed.

Lemma omap_lookup_permutation {V : Type} (l : list V) (indices : list nat) :
  indices ≡ₚ seq 0 (length l) → omap (λ i, l !! i) indices ≡ₚ l.
Proof.
  intros Hperm. rewrite Hperm.
  pose proof (omap_lookup_seq l []) as Hseq. simpl in Hseq. by rewrite Hseq.
Qed.

Lemma zip_omap_lookup {A B : Type} (l : list A) (k : list B) (indices : list nat) :
  zip (omap (λ i, l !! i) indices) (omap (λ i, k !! i) indices)
  = omap (λ i, zip l k !! i) indices
  ∨ ¬ Forall (λ i, (i < length l)%nat ∧ (i < length k)%nat) indices.
Proof.
  induction indices as [|i indices IH]; [by left|].
  destruct IH as [IH|IH]; [|right; by intros [_ ?]%Forall_cons].
  destruct (l !! i) as [x|] eqn:Hx; [|right].
  - destruct (k !! i) as [y|] eqn:Hy; [left|right].
    + assert (zip l k !! i = Some (x, y)) as Hxy by by apply lookup_zip_Some.
      cbn [omap list_omap]. rewrite Hx, Hy, Hxy.
      cbn [zip_with]. by f_equal.
    + intros [[_ Hk] _]%Forall_cons. apply lookup_ge_None in Hy. lia.
  - intros [[Hl _] _]%Forall_cons. apply lookup_ge_None in Hx. lia.
Qed.

(** C6. When [random.shuffle] permutes the list of indices and the two
    lists have the same length, the shuffle succeeds, the shuffled lists
    have the same length, and their list of (example, label) pairs is a
    permutation of the original list of pairs. *)
Theorem shuffle_keeps_pairs (random_shuffle : list nat → list nat)
    (examples : list Ex) (labels : list Lbl) :
  (∀ l, random_shuffle l ≡ₚ l) →
  length examples = length labels →
  ∃ examples' labels',
    shuffle_examples random_shuffle examples labels = Ok (examples', labels')
    ∧ length examples' = length labels'
    ∧ zip examples' labels' ≡ₚ zip examples labels.
Proof.
  intros Hshuffle Hlen. unfold shuffle_examples.
  set (indices := random_shuffle (seq 0 (length labels))).
  assert (indices ≡ₚ seq 0 (length labels)) as Hperm by apply Hshuffle.
  assert (Forall (λ i, (i < length examples)%nat ∧ (i < length labels)%nat) indices)
    as Hrange.
  { rewrite Hperm. apply Forall_forall. intros i Hi%elem_of_seq. lia. }
  rewrite (comprehension_list_get examples), (comprehension_list_get labels);
    [|eapply Forall_impl; [exact Hrange|]; simpl; tauto ..].
  simpl. eexists _, _. split; [done|].
  assert (omap (λ i, examples !! i) indices ≡ₚ examples) as Hex
    by (apply omap_lookup_permutation; by rewrite Hlen).
  assert (omap (λ i, labels !! i) indices ≡ₚ labels) as Hlab
    by by apply omap_lookup_permutation.
  split.
  - by rewrite (Permutation_length Hex), (Permutation_length Hlab).
  - destruct (zip_omap_lookup examples labels indices) as [->|Hno]; [|done].
    apply omap_lookup_permutation.
    rewrite length_zip_with, Hlen, Nat.min_id. done.
Qed.

End ShuffleFacts.

Lemma shuffle_keeps_pairs_witness :
  ∃ examples' labels',
    SkLearnModel.shuffle_examples (@reverse nat) ["book a table"; "play jazz"; "stop"]
      ["reserve"; "music"; "exit"] = Ok (examples', labels')
    ∧ length examples' = length labels'
    ∧ zip examples' labels'
      ≡ₚ zip ["book a table"; "play jazz"; "stop"] ["reserve"; "music"; "exit"].
Proof.
  apply (shuffle_keeps_pairs reverse).
  - intros l. apply reverse_Permutation.
  - reflexivity.
Defined.


(** ** Class probabilities *)

Section PredictProbaFacts.
Context {Ex Lbl Cls Clf : Type} `{Countable Lbl}.
Import SkLearnModel.

Abbreviation model := (SkLearnModel.t Ex Lbl Cls Clf).

Lemma float_gt_true (a b : Q) : float_gt a b = true ↔ (b < a)%Q.
Proof.
  unfold float_gt. rewrite negb_true_iff, <- not_true_iff_false, Qle_bool_iff.
  split; [apply Qnot_le_lt|apply Qlt_not_le].
Qed.

Lemma float_gt_false (a b : Q) : float_gt a b = false ↔ (a <= b)%Q.
Proof. unfold float_gt. by rewrite negb_false_iff, Qle_bool_iff. Qed.

Lemma proba_body_decoded (self : model) st (i : nat) (p : Q) (c : Cls) (l : Lbl) :
  classes_ self !! i = Some c →
  decode (_label_encoder self) [c] None = Ok [l] →
  proba_body self st (i, p) = Ok (proba_step st (l, p)).
Proof.
  intros Hc Hl. destruct st as [probs top]. unfold proba_body, inverse_transform.
  simpl. rewrite Hc. simpl. rewrite Hl. done.
Qed.

Lemma proba_loop_decoded (self : model) (items : list (nat * Q))
    (pairs : list (Lbl * Q)) : ∀ st,
  Forall2 (λ item pair, item.2 = pair.2
             ∧ ∃ c, classes_ self !! item.1 = Some c
                    ∧ decode (_label_encoder self) [c] None = Ok [pair.1])
          items pairs →
  for_each (proba_body self) items st = Ok (foldl proba_step st pairs).
Proof.
  intros st HF. revert st.
  induction HF as [|[i p] [l p'] items pairs (Hp & c & Hc & Hl) _ IH]; intros st;
    [done|].
  simpl in Hp, Hc, Hl. subst p'. simpl.
  rewrite (proba_body_decoded self st i p c l Hc Hl). simpl. apply IH.
Qed.

Lemma proba_step_inv (seen : list (Lbl * Q)) st (l : Lbl) (p : Q) :
  proba_inv seen st → l ∉ seen.*1 → (0 <= p)%Q →
  proba_inv (seen ++ [(l, p)]) (proba_step st (l, p)).
Proof.
  destruct st as [probs top]. intros (Hin & Hout & Htop) Hl Hp.
  simpl in Hin, Hout, Htop.
  unfold proba_step, proba_inv. simpl. split_and!.
  - intros l' p' [Hseen|Heq%list_elem_of_singleton]%elem_of_app.
    + rewrite lookup_insert_ne; [by apply Hin|].
      intros <-. apply Hl. apply list_elem_of_fmap. by exists (l, p').
    + injection Heq as -> ->. apply lookup_insert_eq.
  - intros l' Hl'. rewrite fmap_app, elem_of_app in Hl'.
    rewrite lookup_insert_ne; [apply Hout; tauto|].
    intros <-. apply Hl'. right. simpl. apply list_elem_of_singleton. done.
  - destruct top as [t|]; simpl.
    + destruct Htop as (pt & Ht & Hmax).
      assert (t ≠ l) as Hne.
      { intros ->. apply Hl. apply list_elem_of_fmap. by exists (l, pt). }
      rewrite lookup_insert_ne by done. rewrite (Hin t pt Ht). simpl.
      destruct (float_gt p pt) eqn:Hgt.
      * apply float_gt_true in Hgt. exists p. split.
        -- apply elem_of_app. right. by apply list_elem_of_singleton.
        -- apply Forall_app. split; [|constructor; [apply Qle_refl|constructor]].
           eapply Forall_impl; [exact Hmax|]. intros lp Hlp. simpl in *.
           apply Qlt_le_weak. by eapply Qle_lt_trans.
      * apply float_gt_false in Hgt. exists pt. split.
        -- apply elem_of_app. by left.
        -- apply Forall_app. split; [done|]. by constructor.
    + subst seen. assert (float_gt p (-1) = true) as ->.
      { apply float_gt_true. eapply Qlt_le_trans; [|exact Hp]. done. }
      exists p. split.
      * apply list_elem_of_singleton. done.
      * constructor; [apply Qle_refl|constructor].
Qed.

Lemma proba_loop_inv (pairs : list (Lbl * Q)) : ∀ seen st,
  proba_inv seen st →
  NoDup (seen ++ pairs).*1 →
  Forall (λ lp, (0 <= lp.2)%Q) pairs →
  proba_inv (seen ++ pairs) (foldl proba_step st pairs).
Proof.
  induction pairs as [|[l p] pairs IH]; intros seen st Hinv Hnd Hpos.
  - by rewrite app_nil_r.
  - apply Forall_cons in Hpos as [Hp Hpos]. simpl in Hp.
    replace (seen ++ (l, p) :: pairs) with ((seen ++ [(l, p)]) ++ pairs) in *
      by (by rewrite <- app_assoc).
    simpl. apply IH; [|done|done].
    apply proba_step_inv; [done| |done].
    rewrite !fmap_app in Hnd. apply NoDup_app in Hnd as [Hnd _].
    apply NoDup_app in Hnd as (_ & Hdisj & _).
    intros Hl. apply (Hdisj l Hl). simpl. by apply list_elem_of_singleton.
Qed.


Lemma enumerate_decoded (self : model) (labels : list Lbl) (row : list Q) :
  Forall2 (λ c l, decode (_label_encoder self) [c] None = Ok [l])
          (classes_ self) labels →
  length row = length (classes_ self) →
  Forall2 (λ (item : nat * Q) (pair : Lbl * Q), item.2 = pair.2
             ∧ ∃ c, classes_ self !! item.1 = Some c
                    ∧ decode (_label_encoder self) [c] None = Ok [pair.1])
          (enumerate row) (zip labels row).
Proof.
  intros Hdec Hlen. pose proof (Forall2_length _ _ _ Hdec) as Hlen'.
  apply Forall2_same_length_lookup. split.
  - unfold enumerate. rewrite !length_zip_with, length_seq. lia.
  - intros i [j p] [l p'] Hitem Hpair. unfold enumerate in Hitem.
    apply lookup_zip_Some in Hitem as [Hj Hp].
    apply lookup_zip_Some in Hpair as [Hl Hp'].
    apply lookup_seq in Hj as [-> _]. simpl.
    split; [congruence|].
    destruct (Forall2_lookup_r _ _ _ _ _ Hdec Hl) as (c & Hc & Hcl).
    by exists c.
Qed.

Lemma proba_inv_row (labels : list Lbl) (row : list Q) st :
  length row = length labels → row ≠ [] →
  proba_inv (zip labels row) st →
  row_prediction_ok labels row (st.2, st.1).
Proof.
  intros Hlen Hne (Hin & Hout & Htop). unfold row_prediction_ok. split_and!.
  - intros i l Hl.
    destruct (lookup_lt_is_Some_2 row i) as [p Hp].
    { apply lookup_lt_Some in Hl. lia. }
    rewrite Hp. apply Hin. apply (list_elem_of_lookup_2 _ i).
    by apply lookup_zip_Some.
  - intros l Hl. apply Hout. rewrite fst_zip by lia. done.
  - destruct (st.2) as [t|].
    + destruct Htop as (pt & Ht & Hmax).
      apply list_elem_of_lookup in Ht as [i Hi].
      apply lookup_zip_Some in Hi as [Hl Hp].
      exists i, t, pt. split_and!; try done.
      assert (row = (zip labels row).*2) as -> by (rewrite snd_zip; [done|lia]).
      by apply Forall_fmap.
    + destruct row as [|p row]; [done|]. destruct labels; [done|].
      discriminate Htop.
Qed.

Lemma argmax_nonempty (row : list Q) : row ≠ [] → ∃ i, argmax row = Ok i.
Proof. destruct row as [|p rest]; [done|]. intros _. by eexists. Qed.

Lemma predict_proba_row (self : model) (labels : list Lbl) (row : list Q) :
  Forall2 (λ c l, decode (_label_encoder self) [c] None = Ok [l])
          (classes_ self) labels →
  NoDup labels →
  row ≠ [] → length row = length (classes_ self) →
  Forall (λ p, (0 <= p)%Q) row →
  ∃ st, for_each (proba_body self) (enumerate row) (∅, None) = Ok st
        ∧ row_prediction_ok labels row (st.2, st.1).
Proof.
  intros Hdec Hnd Hne Hlen Hpos.
  pose proof (Forall2_length _ _ _ Hdec) as Hlen'.
  eexists. split.
  - apply proba_loop_decoded. by apply enumerate_decoded.
  - apply proba_inv_row; [lia|done|].
    apply (proba_loop_inv (zip labels row) [] (∅, None)).
    + split_and!; [by intros ? ? ?%elem_of_nil|intros; apply lookup_empty|done].
    + simpl. rewrite fst_zip by lia. done.
    + apply Forall_forall. intros [l p] Hlp. simpl.
      rewrite Forall_forall in Hpos. apply Hpos.
      apply list_elem_of_lookup in Hlp as [i Hi].
      apply lookup_zip_Some in Hi as [_ Hp].
      by eapply list_elem_of_lookup_2.
Qed.

(** C3. Let [labels] be the decoded labels of the fitted classes, all
    distinct. For every matrix whose rows hold one probability per class
    (rows not empty, entries not negative), [_predict_proba] returns one
    [(top_class, probabilities)] pair per row; [probabilities] maps every
    label to the entry of its class in that row and has no other key; and
    [top_class] is a label whose entry is the largest of the row. *)
Theorem predict_proba_spec (self : model) (labels : list Lbl)
    (rows : list (list Q)) :
  Forall2 (λ c l, decode (_label_encoder self) [c] None = Ok [l])
          (classes_ self) labels →
  NoDup labels →
  Forall (λ row, row ≠ [] ∧ length row = length (classes_ self)
                 ∧ Forall (λ p, (0 <= p)%Q) row) rows →
  ∃ predictions,
    _predict_proba self rows = Ok predictions
    ∧ Forall2 (row_prediction_ok labels) rows predictions.
Proof.
  intros Hdec Hnd Hrows. unfold _predict_proba.
  enough (∀ acc, ∃ predictions,
    for_each (λ predictions row,
                class_index ← argmax row;
                st ← for_each (proba_body self) (enumerate row) (∅, None);
                Ok (predictions ++ [(st.2, st.1)])) rows acc
      = Ok (acc ++ predictions)
    ∧ Forall2 (row_prediction_ok labels) rows predictions) as Hloop.
  { destruct (Hloop []) as (predictions & Hrun & Hok). by exists predictions. }
  induction Hrows as [|row rows (Hne & Hlen & Hpos) _ IH]; intros acc.
  - exists []. by rewrite app_nil_r.
  - destruct (predict_proba_row self labels row Hdec Hnd Hne Hlen Hpos)
      as (st & Hst & Hok).
    destruct (IH (acc ++ [(st.2, st.1)])) as (predictions & Hrun & Hall).
    destruct (argmax_nonempty row Hne) as (class_index & Hargmax).
    exists ((st.2, st.1) :: predictions). split; [|by constructor].
    cbn [for_each]. rewrite Hargmax. cbn [mbind result_bind].
    rewrite Hst. cbn [mbind result_bind]. rewrite Hrun. by rewrite <- app_assoc.
Qed.

End PredictProbaFacts.

Lemma predict_proba_spec_witness :
  ∃ predictions,
    SkLearnModel._predict_proba two_class_model [[3 # 10; 7 # 10]; [1 # 2; 1 # 2]]%Q
      = Ok predictions
    ∧ Forall2 (row_prediction_ok ["exit"; "greet"])
        [[3 # 10; 7 # 10]; [1 # 2; 1 # 2]]%Q predictions.
Proof.
  apply (predict_proba_spec two_class_model ["exit"; "greet"]).
  - repeat constructor.
  - apply NoDup_cons. split; [|apply NoDup_singleton].
    by intros ?%list_elem_of_singleton.
  - repeat constructor; simpl; try done.
Defined.


(** ** Fitting *)

Section FitFacts.
Context {Ex Lbl Cls Clf X Y : Type}.
Variable random_shuffle : list nat → list nat.
Variable get_feature_matrix :
  list Ex → list Cls → result (list Cls * (X * Y * list nat)).
Variable _convert_params : pyval → Y → result pyval.
Variable model_class_fit : pyval → X → Y → result Clf.
Variable grid_search_fit :
  pyval → pyval → cv_splitter → pyval → X → Y → list nat
  → result (GridSearchResult Clf).
Import SkLearnModel.

Ltac bind_inv H :=
  match type of H with
  | (?m ≫= _) = Ok _ =>
      let E := fresh "E" in
      destruct m eqn:E; simpl in H; [|discriminate H]
  end.

Lemma fit_single_spec (self fitted : SkLearnModel.t Ex Lbl Cls Clf) x y params clf :
  sk_calls self = [] →
  _fit _convert_params model_class_fit self x y params = Ok (fitted, clf) →
  fitted_with _convert_params model_class_fit params
    (set_fitted fitted clf params).
Proof.
  intros Hcalls Hfit. unfold _fit in Hfit.
  bind_inv Hfit. bind_inv Hfit. injection Hfit as <- <-.
  eexists _, x, y, _. split_and!; try done. simpl. by rewrite Hcalls.
Qed.

Lemma fit_cv_spec (self selected : SkLearnModel.t Ex Lbl Cls Clf) x y groups
    clf best :
  sk_calls self = [] →
  ModelConfig.param_selection (config self) ≠ PyNone →
  _fit_cv _convert_params model_class_fit grid_search_fit self x y groups PyNone
    = Ok (selected, (clf, best)) →
  selected_by_grid_search grid_search_fit (set_fitted selected clf best).
Proof.
  intros Hcalls Hsel Hcv. unfold _fit_cv in Hcv.
  change (py_or PyNone ?b) with b in Hcv.
  bind_inv Hcv.
  destruct (is_None (ModelConfig.param_selection (config self))) eqn:Hnone.
  { by apply is_None_true in Hnone. }
  simpl in Hcv.
  do 7 bind_inv Hcv.
  destruct (str_eqb _ ACCURACY_SCORING);
    [|destruct (str_eqb _ LIKELIHOOD_SCORING)];
    simpl in Hcv; try discriminate Hcv; injection Hcv as <- <- <-;
    eexists _, _, _, _, x, y, groups, _; split_and!; try done;
    simpl; by rewrite Hcalls.
Qed.

(** C4 (amended). Starting from a model that has made no library call,
    when [fit] returns: a grid search was run exactly when [params] is
    [None] and [config.param_selection] is not [None]; in that case the
    best estimator and the best parameters of the search are recorded;
    otherwise exactly one classifier was fitted, with [params or
    config.params] (that is [config.params] when [params] is [None] or any
    other falsy value such as an empty dictionary), and those parameters
    are recorded as [_current_params]. *)
Theorem fit_contract_holds (self : SkLearnModel.t Ex Lbl Cls Clf)
    (examples : list Ex) (labels : list Lbl) (params : pyval) :
  sk_calls self = [] →
  fit_contract random_shuffle get_feature_matrix _convert_params
    model_class_fit grid_search_fit py_or self examples labels params.
Proof.
  intros Hcalls self' Hfit. unfold fit in Hfit.
  do 3 bind_inv Hfit. destruct a1 as [classes [[x y] groups]].
  assert (sk_calls (set_classes_ self classes) = []) as Hcalls' by done.
  destruct (is_None params) eqn:Hp; simpl in Hfit.
  - apply is_None_true in Hp as ->.
    destruct (is_None (ModelConfig.param_selection (config self))) eqn:Hs;
      simpl in Hfit.
    + apply is_None_true in Hs. bind_inv Hfit. injection Hfit as <-.
      destruct a1 as [fitted clf]. simpl.
      pose proof (fit_single_spec _ _ _ _ _ _ Hcalls' E2) as Hsingle.
      split_and!; [|tauto|by intros _].
      split; [|tauto]. intros (s & g & cv & n & Hin). exfalso.
      destruct Hsingle as (cp & ? & ? & ? & _ & _ & Hlog & _).
      simpl in Hlog, Hin. rewrite Hlog in Hin.
      by apply list_elem_of_singleton in Hin.
    + apply is_None_false in Hs. bind_inv Hfit. injection Hfit as <-.
      destruct a1 as [selected [clf best]]. simpl.
      pose proof (fit_cv_spec _ _ _ _ _ _ _ Hcalls' Hs E2) as Hcv.
      split_and!; [|by intros _|tauto].
      split; [done|]. intros _.
      destruct Hcv as (s & g & cv & n & ? & ? & ? & ? & _ & Hlog & _).
      exists s, g, cv, n. simpl in Hlog |- *. rewrite Hlog.
      by apply list_elem_of_singleton.
  - apply is_None_false in Hp. bind_inv Hfit. injection Hfit as <-.
    destruct a1 as [fitted clf]. simpl.
    pose proof (fit_single_spec _ _ _ _ _ _ Hcalls' E2) as Hsingle.
    split_and!; [|tauto|by intros _].
    split; [|tauto]. intros (s & g & cv & n & Hin). exfalso.
    destruct Hsingle as (cp & ? & ? & ? & _ & _ & Hlog & _).
    simpl in Hlog, Hin. rewrite Hlog in Hin.
    by apply list_elem_of_singleton in Hin.
Qed.

End FitFacts.

Lemma fit_contract_holds_witness :
  fit_contract keep_order no_features same_params fit_as_params select_grid
    py_or fixed_params_model ["hello"] ["greet"] (PyDict ∅).
Proof. apply fit_contract_holds. reflexivity. Defined.

(** C4 (as stated) fails: [fit] called with the explicit empty dictionary
    [params = {}] fits with [config.params] and records [config.params],
    not the explicit parameters. *)
Lemma fit_empty_params_counterexample :
  ¬ fit_contract keep_order no_features same_params fit_as_params select_grid
      params_unless_None fixed_params_model ["hello"] ["greet"] (PyDict ∅).
Proof.
  intros Hc. edestruct Hc as (_ & _ & Hplain); [vm_compute; reflexivity|].
  destruct Hplain as (? & ? & ? & ? & _ & _ & _ & _ & Hcur);
    [by intros [? _]|].
  vm_compute in Hcur. discriminate Hcur.
Qed.


(** * Further properties of the code *)

(** ** Accuracy and the correct and incorrect results *)

Section AccuracyFacts.
Context {E P : Type}.

Lemma ratio_range (c n : nat) :
  (c <= n)%nat → (0 < n)%nat →
  (0 <= inject_Z (Z.of_nat c) / inject_Z (Z.of_nat n) <= 1)%Q
  ∧ (inject_Z (Z.of_nat c) / inject_Z (Z.of_nat n) == 1 ↔ c = n)%Q.
Proof.
  intros Hcn Hn. destruct n as [|k]; [lia|].
  unfold Qle, Qeq, Qdiv, Qmult, Qinv, inject_Z. simpl.
  rewrite Pos.mul_1_l, Zpos_P_of_succ_nat. lia.
Qed.

(** X1. [get_accuracy] raises [ZeroDivisionError] on an empty list of
    results; on any other list it returns a value between 0 and 1, which is
    1 exactly when every result is correct. *)
Theorem get_accuracy_range (results : list (EvaluatedExample E string P)) :
  (results = [] → get_accuracy results = Raise ZeroDivisionError)
  ∧ (results ≠ [] →
       ∃ a, get_accuracy results = Ok a
            ∧ (0 <= a <= 1)%Q
            ∧ ((a == 1)%Q ↔ Forall (λ r, is_correct r = true) results)).
Proof.
  split.
  - by intros ->.
  - intros Hne. unfold get_accuracy.
    destruct (decide (length results = 0%nat)) as [H0|H0].
    { by destruct results. }
    eexists. split; [done|].
    pose proof (length_filter (λ e, is_correct e = true) results) as Hle.
    destruct (ratio_range _ _ Hle ltac:(lia)) as (Hrange & Hone).
    split; [done|]. rewrite Hone. split.
    + intros Hlen. apply Forall_forall. intros r Hr.
      destruct (is_correct r) eqn:Hc; [done|]. exfalso.
      assert (length (filter (λ e, is_correct e = true) results) < length results)%nat
        as Hlt by (apply (length_filter_lt _ _ r Hr); by rewrite Hc).
      lia.
    + intros Hall. f_equal. clear -Hall.
      induction Hall as [|r rs Hr _ IH]; [done|].
      rewrite filter_cons_True by done. simpl. by rewrite IH.
Qed.

(** X2. Every result is yielded by exactly one of [correct_results] and
    [incorrect_results]: together they are a rearrangement of the results,
    the first holds only results whose labels agree, the second only
    results whose labels differ, and the accuracy is the share of the
    first. *)
Theorem correct_incorrect_partition (results : list (EvaluatedExample E string P)) :
  correct_results results ++ incorrect_results results ≡ₚ results
  ∧ Forall (λ r, expected r = predicted r) (correct_results results)
  ∧ Forall (λ r, expected r ≠ predicted r) (incorrect_results results)
  ∧ (results ≠ [] →
       get_accuracy results
       = Ok (inject_Z (Z.of_nat (length (correct_results results)))
             / inject_Z (Z.of_nat (length results)))%Q).
Proof.
  unfold correct_results, incorrect_results. split_and!.
  - rewrite <- (filter_app_complement (λ r, is_correct r = true) results) at 3.
    f_equiv. apply reflexive_eq. apply list_filter_iff.
    intros r. destruct (is_correct r); simpl; split; intros; done.
  - apply Forall_forall. intros r [Hc _]%list_elem_of_filter.
    unfold is_correct in Hc. by apply bool_decide_eq_true in Hc.
  - apply Forall_forall. intros r [Hc _]%list_elem_of_filter.
    unfold is_correct in Hc. apply negb_true_iff, bool_decide_eq_false in Hc. done.
  - intros Hne. unfold get_accuracy.
    destruct (decide (length results = 0%nat)); [by destruct results|done].
Qed.

End AccuracyFacts.

Lemma get_accuracy_range_witness :
  ∃ a, get_accuracy
         [mkEvaluatedExample () "exit" "exit" (); mkEvaluatedExample () "exit" "greet" ()]
       = Ok a
       ∧ (0 <= a <= 1)%Q
       ∧ ((a == 1)%Q ↔
          Forall (λ r, is_correct r = true)
            [mkEvaluatedExample () "exit" "exit" ();
             mkEvaluatedExample () "exit" "greet" ()]).
Proof. by apply (proj2 (get_accuracy_range _)). Defined.

(** ** Truncated labels *)

Lemma string_length_app (s1 s2 : string) :
  String.length (s1 +:+ s2) = (String.length s1 + String.length s2)%nat.
Proof. induction s1 as [|c s1 IH]; simpl; [done|]. by rewrite IH. Qed.

Lemma string_length_substring (s : string) : ∀ n,
  (n <= String.length s)%nat → String.length (String.substring 0 n s) = n.
Proof.
  induction s as [|c s IH]; intros [|n] Hn; simpl in *; try done; try lia.
  rewrite IH; [done|lia].
Qed.

(** X3. [_truncate_label] returns the label itself when it has at most
    [max_len] characters; otherwise it returns the first [max_len]
    characters followed by two dots. The result never has more than
    [max_len + 2] characters. *)
Theorem truncate_label_spec (label : string) (max_len : nat) :
  ((String.length label <= max_len)%nat → _truncate_label label max_len = label)
  ∧ ((max_len < String.length label)%nat →
       _truncate_label label max_len
       = String.substring 0 max_len label +:+ ".."
       ∧ String.length (_truncate_label label max_len) = (max_len + 2)%nat)
  ∧ (String.length (_truncate_label label max_len) <= max_len + 2)%nat.
Proof.
  unfold _truncate_label. split_and!.
  - intros Hle. case_decide; [lia|done].
  - intros Hlt. case_decide; [|lia]. split; [done|].
    rewrite string_length_app, string_length_substring by lia. done.
  - case_decide; [|lia].
    rewrite string_length_app, string_length_substring by lia. simpl. lia.
Qed.


(** ** Raw results: which labels, which numbers *)

Section RawCoverFacts.
Context {E L P : Type} `{EqDecision L}.
Import StandardModelEvaluation.

Lemma py_index_fresh (label : L) (text_labels : list L) :
  label ∉ text_labels →
  py_index label (text_labels ++ [label]) = Ok (length text_labels).
Proof.
  induction text_labels as [|x rest IH]; intros Hfresh; simpl.
  - by rewrite decide_True.
  - apply not_elem_of_cons in Hfresh as [Hne Hfresh].
    rewrite decide_False by done. by rewrite IH.
Qed.

Lemma update_raw_result_cases (label : L) (text_labels : list L) (vec : list nat) :
  (label ∈ text_labels
   ∧ (∃ i, _update_raw_result label text_labels vec = Ok (text_labels, vec ++ [i])
           ∧ (i < length text_labels)%nat))
  ∨ ((label ∉ text_labels)
     ∧ _update_raw_result label text_labels vec
       = Ok (text_labels ++ [label], vec ++ [length text_labels])).
Proof.
  unfold _update_raw_result, py_in. case_bool_decide as Hin; simpl.
  - left. split; [done|].
    destruct (py_index_found label text_labels Hin) as (i & -> & Hi).
    exists i. split; [done|]. by eapply lookup_lt_Some.
  - right. split; [done|]. by rewrite py_index_fresh.
Qed.

Lemma update_raw_result_cover (label : L) (tl : list L) (vec other : list nat) :
  NoDup tl →
  (∀ i, (i < length tl)%nat → i ∈ vec ∨ i ∈ other) →
  ∃ tl' vec',
    _update_raw_result label tl vec = Ok (tl', vec')
    ∧ NoDup tl'
    ∧ (∀ l, l ∈ tl' ↔ l ∈ tl ∨ l = label)
    ∧ (∀ i, (i < length tl')%nat → i ∈ vec' ∨ i ∈ other).
Proof.
  intros Hnd Hcov.
  destruct (update_raw_result_cases label tl vec)
    as [(Hin & i & -> & Hi)|(Hfresh & ->)].
  - eexists _, _. split_and!; [done|done| |].
    + intros l. split; [tauto|]. by intros [?| ->].
    + intros j Hj. destruct (Hcov j Hj); [left|by right].
      apply elem_of_app. by left.
  - eexists _, _. split_and!; [done| | |].
    + apply NoDup_app. split_and!; [done| |apply NoDup_singleton].
      by intros x Hx ->%list_elem_of_singleton.
    + intros l. rewrite elem_of_app, list_elem_of_singleton. done.
    + intros j Hj. rewrite length_app in Hj. simpl in Hj.
      destruct (decide (j = length tl)) as [->|Hne].
      * left. apply elem_of_app. right. by apply list_elem_of_singleton.
      * destruct (Hcov j ltac:(lia)); [left|by right].
        apply elem_of_app. by left.
Qed.

Lemma raw_results_body_cover (seen : list (EvaluatedExample E L P)) st r :
  raw_cover_inv seen st →
  ∃ st', raw_results_body st r = Ok st' ∧ raw_cover_inv (seen ++ [r]) st'.
Proof.
  destruct st as [[tl pv] ev]. intros (Hnd & Hmem & Hcov).
  unfold raw_results_body.
  destruct (update_raw_result_cover (predicted r) tl pv ev Hnd Hcov)
    as (tl1 & pv1 & -> & Hnd1 & Hmem1 & Hcov1).
  simpl.
  destruct (update_raw_result_cover (expected r) tl1 ev pv1 Hnd1)
    as (tl2 & ev2 & -> & Hnd2 & Hmem2 & Hcov2).
  { intros i Hi. destruct (Hcov1 i Hi); tauto. }
  simpl. eexists. split; [done|]. split_and!; [done| |].
  - intros l. rewrite Hmem2, Hmem1, Hmem. unfold all_labels.
    rewrite bind_app, elem_of_app. simpl.
    rewrite !elem_of_cons, elem_of_nil. tauto.
  - intros i Hi. destruct (Hcov2 i Hi); tauto.
Qed.

Lemma raw_results_loop_cover (results : list (EvaluatedExample E L P)) :
  ∀ seen st,
  raw_cover_inv seen st →
  ∃ st', for_each raw_results_body results st = Ok st'
         ∧ raw_cover_inv (seen ++ results) st'.
Proof.
  induction results as [|r results IH]; intros seen st Hinv.
  - exists st. by rewrite app_nil_r.
  - destruct (raw_results_body_cover seen st r Hinv) as (st1 & Hst1 & Hinv1).
    destruct (IH _ _ Hinv1) as (st' & Hst' & Hinv').
    exists st'. simpl. rewrite Hst1. simpl. split; [done|].
    by rewrite <- app_assoc in Hinv'.
Qed.

Lemma raw_cover_inv_start : raw_cover_inv ([] : list (EvaluatedExample E L P)) ([], [], []).
Proof.
  split_and!; [apply NoDup_nil_2|done|]. intros i Hi. simpl in Hi. lia.
Qed.

(** X4. The text labels of [raw_results] are exactly the labels that occur
    in the results: a label is in [text_labels] if and only if it is the
    predicted or the expected label of some result. *)
Theorem raw_results_text_labels (results : list (EvaluatedExample E L P)) :
  ∃ rr, raw_results results = Ok rr
    ∧ ∀ l, l ∈ rr_text_labels rr
           ↔ ∃ r, r ∈ results ∧ (predicted r = l ∨ expected r = l).
Proof.
  destruct (raw_results_loop_cover results [] ([], [], []) raw_cover_inv_start)
    as ([[tl pv] ev] & Hrun & _ & Hmem & _).
  exists (mkRawResults pv ev tl). unfold raw_results. rewrite Hrun.
  split; [done|]. intros l. simpl. rewrite Hmem. unfold all_labels.
  rewrite list_elem_of_bind. split.
  - intros (r & Hl & Hr). exists r. split; [done|].
    rewrite !elem_of_cons, elem_of_nil in Hl.
    destruct Hl as [->|[->|[]]]; tauto.
  - intros (r & Hr & Hl). exists r. split; [|done].
    rewrite !elem_of_cons, elem_of_nil. destruct Hl as [<-|<-]; tauto.
Qed.

(** X5. The numeric vectors of [raw_results] agree at a position exactly
    when the result at that position is correct. *)
Theorem raw_results_agree_iff_correct (results : list (EvaluatedExample E L P)) :
  ∃ rr, raw_results results = Ok rr
    ∧ ∀ i r, results !! i = Some r →
        (rr_predicted rr !! i = rr_expected rr !! i ↔ is_correct r = true).
Proof.
  destruct (raw_results_loop_inv results [] ([], [], [])) as (st & Hst & Hinv).
  { split_and!; [apply NoDup_nil_2|constructor|constructor]. }
  destruct st as [[tl pv] ev]. simpl in Hinv. destruct Hinv as (Hnd & Hp & He).
  exists (mkRawResults pv ev tl). unfold raw_results. rewrite Hst.
  split; [done|]. intros i r Hr. simpl.
  destruct (Forall2_lookup_l _ _ _ _ _ Hp Hr) as (p & -> & Hpl).
  destruct (Forall2_lookup_l _ _ _ _ _ He Hr) as (e & -> & Hel).
  unfold is_correct. rewrite bool_decide_eq_true. split.
  - intros [= ->]. congruence.
  - intros Heq. f_equal. rewrite Heq in Hel. by eapply NoDup_lookup.
Qed.

Lemma Sorted_seq (j n : nat) : Sorted le (seq j n).
Proof.
  revert j. induction n as [|n IH]; intros j; simpl; [constructor|].
  constructor; [apply IH|]. destruct n; simpl; constructor. lia.
Qed.

Lemma raw_results_run (results : list (EvaluatedExample E L P)) :
  ∃ tl pv ev,
    for_each raw_results_body results ([], [], []) = Ok (tl, pv, ev)
    ∧ raw_inv results (tl, pv, ev)
    ∧ raw_cover_inv results (tl, pv, ev).
Proof.
  destruct (raw_results_loop_cover results [] ([], [], []) raw_cover_inv_start)
    as ([[tl pv] ev] & Hrun & Hcover).
  destruct (raw_results_loop_inv results [] ([], [], [])) as (st & Hst & Hinv).
  { split_and!; [apply NoDup_nil_2|constructor|constructor]. }
  rewrite Hrun in Hst. injection Hst as <-. by exists tl, pv, ev.
Qed.

Lemma raw_unique_labels (seen : list (EvaluatedExample E L P))
    (tl : list L) (pv ev : list nat) :
  raw_inv seen (tl, pv, ev) → raw_cover_inv seen (tl, pv, ev) →
  unique_labels ev pv = seq 0 (length tl).
Proof.
  intros (_ & Hp & He) (_ & _ & Hcov). unfold unique_labels.
  apply (Sorted_unique le).
  - apply Sorted_merge_sort. intros x y. lia.
  - apply Sorted_seq.
  - rewrite merge_sort_Permutation. apply NoDup_Permutation.
    + apply NoDup_remove_dups.
    + apply NoDup_seq.
    + intros i. rewrite elem_of_remove_dups, elem_of_app, elem_of_seq. split.
      * intros [Hi|Hi]; apply list_elem_of_lookup in Hi as [k Hk].
        -- destruct (Forall2_lookup_r _ _ _ _ _ He Hk) as (r & _ & Hr).
           apply lookup_lt_Some in Hr. lia.
        -- destruct (Forall2_lookup_r _ _ _ _ _ Hp Hk) as (r & _ & Hr).
           apply lookup_lt_Some in Hr. lia.
      * intros [_ Hi]. destruct (Hcov i); [lia|by right|by left].
Qed.

(** X6. The classes that the confusion matrix is built on are the numbers
    [0 .. n-1] of the [n] text labels, in order: row and column [i] of the
    matrix belong to [text_labels[i]]. *)
Theorem raw_results_classes (results : list (EvaluatedExample E L P)) :
  ∃ rr, raw_results results = Ok rr
    ∧ unique_labels (rr_expected rr) (rr_predicted rr)
      = seq 0 (length (rr_text_labels rr)).
Proof.
  destruct (raw_results_run results) as (tl & pv & ev & Hrun & Hinv & Hcover).
  exists (mkRawResults pv ev tl). unfold raw_results. rewrite Hrun.
  split; [done|]. simpl. by eapply raw_unique_labels.
Qed.

End RawCoverFacts.


(** ** Cross-validation iterators: errors *)

Section CvIteratorErrors.
Import Model.

Lemma cv_types_in_table (ty : string) :
  ty ∈ cv_types → ∃ f, cv_iterators !! ty = Some f
    ∧ ∀ d, d !! "k" = None → f (PyDict d) = Raise (KeyError "k").
Proof.
  unfold cv_types. rewrite !elem_of_cons, elem_of_nil.
  intros [->|[->|[->|[->|[->|[->|[]]]]]]]; eexists; (split; [reflexivity|]);
    intros d Hk; cbn; by rewrite Hk.
Qed.

(** X7. For a settings dictionary whose 'type' is one of the six supported
    names but which has no 'k' entry, [_get_cv_iterator] raises
    [ValueError] with the message for an unknown param selection type: the
    [KeyError] of the missing 'k' is caught by the handler meant for the
    type. *)
Theorem get_cv_iterator_missing_k (d : gmap string pyval) (ty : string) :
  d !! "type" = Some (PyStr ty) →
  ty ∈ cv_types →
  d !! "k" = None →
  _get_cv_iterator (PyDict d)
    = Raise (ValueError "Unknown param selection type: {!r}" [PyStr ty]).
Proof.
  intros Hty Hin Hk. destruct (cv_types_in_table ty Hin) as (f & Hf & Hraise).
  unfold _get_cv_iterator.
  rewrite (truthy_dict_with_key d "type" _ Hty). simpl.
  rewrite Hty. simpl. rewrite Hf. simpl. by rewrite (Hraise d Hk).
Qed.

Lemma get_cv_iterator_missing_k_witness :
  _get_cv_iterator (PyDict (<["type" := PyStr "shuffle"]> (<["n" := PyInt 3]> ∅)))
    = Raise (ValueError "Unknown param selection type: {!r}" [PyStr "shuffle"]).
Proof.
  apply get_cv_iterator_missing_k; [reflexivity| |reflexivity].
  unfold cv_types. rewrite !elem_of_cons. tauto.
Defined.

(** X8. For the three shuffle types, [k = 0] makes [_get_cv_iterator]
    raise [ZeroDivisionError] (from [1.0 / k]), whatever 'n' is. *)
Theorem get_cv_iterator_zero_k (d : gmap string pyval) (ty : string) :
  d !! "type" = Some (PyStr ty) →
  ty ∈ ["shuffle"; "group-shuffle"; "stratified-shuffle"] →
  d !! "k" = Some (PyInt 0) →
  _get_cv_iterator (PyDict d) = Raise ZeroDivisionError.
Proof.
  intros Hty Hin Hk. rewrite !elem_of_cons, elem_of_nil in Hin.
  destruct Hin as [->|[->|[->|[]]]];
    (erewrite get_cv_iterator_dispatch; [|exact Hty|exact Hk|reflexivity]);
    cbn; rewrite Hk; reflexivity.
Qed.

Lemma get_cv_iterator_zero_k_witness :
  _get_cv_iterator
    (PyDict (<["type" := PyStr "group-shuffle"]> (<["k" := PyInt 0]> ∅)))
    = Raise ZeroDivisionError.
Proof.
  apply (get_cv_iterator_zero_k _ "group-shuffle"); [reflexivity| |reflexivity].
  rewrite !elem_of_cons. tauto.
Defined.

(** X9. [_get_cv_iterator] returns [None] only for falsy settings: for a
    truthy value it returns a splitter or raises. *)
Theorem get_cv_iterator_None_iff (settings : pyval) :
  _get_cv_iterator settings = Ok None ↔ truthy settings = false.
Proof.
  unfold _get_cv_iterator. destruct (truthy settings); simpl; [|done].
  split; [|done]. intros Hrun. exfalso.
  destruct (subscript settings "type") as [cv_type|]; [|done]. simpl in Hrun.
  destruct (except_KeyError _ _) as [cv|]; done.
Qed.

(** X10. A settings dictionary that is not empty and has no 'type' entry
    makes [_get_cv_iterator] raise [KeyError] for 'type'; the handler for
    unknown types is not reached. *)
Theorem get_cv_iterator_missing_type (d : gmap string pyval) :
  d ≠ ∅ → d !! "type" = None →
  _get_cv_iterator (PyDict d) = Raise (KeyError "type").
Proof.
  intros Hne Hty. unfold _get_cv_iterator. simpl.
  rewrite bool_decide_eq_false_2 by done. simpl. by rewrite Hty.
Qed.

Lemma get_cv_iterator_missing_type_witness :
  _get_cv_iterator (PyDict (<["k" := PyInt 5]> ∅)) = Raise (KeyError "type").
Proof.
  apply get_cv_iterator_missing_type; [|reflexivity].
  apply insert_non_empty.
Defined.

End CvIteratorErrors.


(** ** Configurations as dictionaries *)

Section ConfigDictFacts.
Import ModelConfig.

Lemma init_ok_inv (mt et lt f ms p ps : pyval) (c : ModelConfig.t) :
  __init__ mt et lt f ms p ps = Ok c → c = mk mt et lt f ms p ps.
Proof.
  unfold __init__. intros Hinit.
  destruct (for_each _ _ _); [|done]. simpl in Hinit.
  destruct (if is_None p then _ else _) as [[|]|]; simpl in Hinit; congruence.
Qed.

Lemma to_dict_lookups (c : ModelConfig.t) :
  to_dict c !! "model_type" = Some (model_type c)
  ∧ to_dict c !! "example_type" = Some (example_type c)
  ∧ to_dict c !! "label_type" = Some (label_type c)
  ∧ to_dict c !! "features" = Some (features c)
  ∧ to_dict c !! "model_settings" = Some (model_settings c)
  ∧ to_dict c !! "params" = Some (params c)
  ∧ to_dict c !! "param_selection" = Some (param_selection c).
Proof. unfold to_dict. split_and!; by simplify_map_eq. Qed.

Lemma to_dict_dom (c : ModelConfig.t) : dom (to_dict c) = list_to_set slots.
Proof. unfold to_dict, slots. rewrite !dom_insert_L, dom_empty_L. set_solver. Qed.

(** X11. [to_dict] has exactly the seven slots as keys, and building a
    configuration from the dictionary of a configuration that [__init__]
    accepted gives the same configuration back. *)
Theorem to_dict_round_trip (mt et lt f ms p ps : pyval) (c : ModelConfig.t) :
  __init__ mt et lt f ms p ps = Ok c →
  dom (to_dict c) = list_to_set slots
  ∧ from_kwargs (to_dict c) = Ok c.
Proof.
  intros Hinit. split; [apply to_dict_dom|].
  unfold from_kwargs. rewrite decide_True by (by rewrite to_dict_dom).
  destruct (to_dict_lookups c) as (-> & -> & -> & -> & -> & -> & ->).
  simpl. pose proof (init_ok_inv _ _ _ _ _ _ _ _ Hinit) as ->. simpl. done.
Qed.

Lemma to_dict_round_trip_witness :
  let c := mk (PyStr "text") (PyStr "query") (PyStr "class") (PyDict ∅)
             PyNone (PyDict (<["C" := PyInt 1]> ∅)) PyNone in
  dom (to_dict c) = list_to_set slots ∧ from_kwargs (to_dict c) = Ok c.
Proof.
  apply (to_dict_round_trip (PyStr "text") (PyStr "query") (PyStr "class")
           (PyDict ∅) PyNone (PyDict (<["C" := PyInt 1]> ∅)) PyNone).
  reflexivity.
Defined.

End ConfigDictFacts.

(** ** The effective configuration *)

Section EffectiveConfigFacts.
Context {Ex Lbl Cls Clf : Type}.
Import SkLearnModel.

(** X12. For a model whose configuration [__init__] accepted,
    [_get_effective_config] raises [ValueError] while [_current_params] is
    [None] (as it is before the model is fitted); otherwise it returns the
    configuration with [params] replaced by [_current_params],
    [param_selection] set to [None] and the other five slots unchanged. *)
Theorem get_effective_config_spec (self : SkLearnModel.t Ex Lbl Cls Clf)
    (mt et lt f ms p ps : pyval) :
  ModelConfig.__init__ mt et lt f ms p ps = Ok (config self) →
  (_current_params self = PyNone →
     raises_ValueError (_get_effective_config self))
  ∧ (_current_params self ≠ PyNone →
     _get_effective_config self
     = Ok (ModelConfig.mk mt et lt f ms (_current_params self) PyNone)).
Proof.
  intros Hinit. pose proof (init_ok_inv _ _ _ _ _ _ _ _ Hinit) as Hc.
  unfold _get_effective_config, dict_pop.
  destruct (to_dict_lookups (config self)) as (Hmt & Het & Hlt & Hf & Hms & Hp & Hps).
  rewrite Hps. simpl. unfold ModelConfig.from_kwargs.
  rewrite decide_True.
  2:{ rewrite dom_insert_L, dom_delete_L, to_dict_dom.
      apply union_subseteq. split; [|by apply subseteq_difference_l].
      apply singleton_subseteq_l, elem_of_list_to_set.
      unfold ModelConfig.slots. rewrite !elem_of_cons. tauto. }
  rewrite lookup_insert_eq.
  rewrite !lookup_insert_ne, !lookup_delete_ne by done.
  rewrite Hmt, Het, Hlt, Hf, Hms, lookup_delete_eq. rewrite Hc. simpl.
  destruct (required_args_checked mt et lt f) as [[Hmiss Hraise]|[Hok Hrun]].
  { exfalso. unfold ModelConfig.__init__ in Hinit.
    destruct Hraise as (? & ? & Hr). rewrite Hr in Hinit. done. }
  unfold ModelConfig.__init__. rewrite Hrun. simpl. split.
  - intros ->. simpl. by eexists _, _.
  - intros Hne. apply is_None_false in Hne. by rewrite Hne.
Qed.

End EffectiveConfigFacts.

Lemma get_effective_config_spec_witness :
  (SkLearnModel._current_params fixed_params_model = PyNone →
     raises_ValueError (SkLearnModel._get_effective_config fixed_params_model))
  ∧ (SkLearnModel._current_params fixed_params_model ≠ PyNone →
     SkLearnModel._get_effective_config fixed_params_model
     = Ok (ModelConfig.mk (PyStr "text") (PyStr "query") (PyStr "class")
             (PyDict ∅) PyNone
             (SkLearnModel._current_params fixed_params_model) PyNone)).
Proof.
  apply (get_effective_config_spec fixed_params_model (PyStr "text")
           (PyStr "query") (PyStr "class") (PyDict ∅) PyNone
           (PyDict (<["C" := PyInt 1]> ∅)) PyNone).
  reflexivity.
Defined.


(** ** The statistics dictionaries *)

Section CommonStatsFacts.
Context {E P : Type}.
Variable score :
  list nat → list nat → list nat → result (list Q * list Q * list Q * list Z).
Variable f1_score : list nat → list nat → list nat → string → result Q.

(** X13. In the statistics that [_get_common_stats] returns, each overall
    count is the sum of the per-class array of the same name, the accuracy
    is the one of [get_accuracy], and the confusion matrix is the one of the
    two raw vectors. *)
Theorem common_stats_consistent (results : list (EvaluatedExample E string P))
    (raw_expected raw_predicted : list nat) (text_labels : list string)
    (st : CommonStats) :
  _get_common_stats score f1_score results raw_expected raw_predicted text_labels
    = Ok st →
  (∃ tp tn fp fn,
      odict_get (class_stats st) "TP" = Ok (PyInt <$> tp)
      ∧ odict_get (class_stats st) "TN" = Ok (PyInt <$> tn)
      ∧ odict_get (class_stats st) "FP" = Ok (PyInt <$> fp)
      ∧ odict_get (class_stats st) "FN" = Ok (PyInt <$> fn)
      ∧ odict_get (stats_overall st) "TP" = Ok (PyInt (Zsum tp))
      ∧ odict_get (stats_overall st) "TN" = Ok (PyInt (Zsum tn))
      ∧ odict_get (stats_overall st) "FP" = Ok (PyInt (Zsum fp))
      ∧ odict_get (stats_overall st) "FN" = Ok (PyInt (Zsum fn)))
  ∧ (∃ a, get_accuracy results = Ok a
          ∧ odict_get (stats_overall st) "accuracy" = Ok (PyFloat a))
  ∧ confusion_matrix raw_expected raw_predicted = Ok (cm_confusion_matrix st).
Proof.
  intros Hst. unfold _get_common_stats, _get_confusion_matrix_and_counts in Hst.
  destruct (confusion_matrix raw_expected raw_predicted) as [C|] eqn:HC; [|done].
  simpl in Hst.
  pose proof (counts_of_matrix_overall C) as Hsum.
  pose proof (counts_of_matrix_confusion_matrix C) as Hcm.
  destruct (counts_of_matrix C) as [C' [tp tn fp fn] overall].
  unfold overall_is_sum in Hsum. simpl in Hsum, Hcm. subst overall C'.
  unfold _get_overall_stats in Hst.
  destruct (f1_score _ _ _ "weighted"); [|done]. simpl in Hst.
  destruct (f1_score _ _ _ "macro"); [|done]. simpl in Hst.
  destruct (f1_score _ _ _ "micro"); [|done]. simpl in Hst.
  destruct (get_accuracy results) as [acc|]; [|done]. simpl in Hst.
  unfold _get_class_stats in Hst.
  destruct (score _ _ _) as [[[[p r] f] s]|]; [|done].
  simpl in Hst. injection Hst as <-. split_and!.
  - exists tp, tn, fp, fn. split_and!; reflexivity.
  - exists acc. split; reflexivity.
  - reflexivity.
Qed.

End CommonStatsFacts.

Lemma common_stats_consistent_witness :
  ∃ st,
    _get_common_stats unit_score unit_f1_score three_results
      [0; 1; 2]%nat [0; 1; 2]%nat ["a"; "b"; "c"] = Ok st
    ∧ (∃ tp tn fp fn,
        odict_get (class_stats st) "TP" = Ok (PyInt <$> tp)
        ∧ odict_get (class_stats st) "TN" = Ok (PyInt <$> tn)
        ∧ odict_get (class_stats st) "FP" = Ok (PyInt <$> fp)
        ∧ odict_get (class_stats st) "FN" = Ok (PyInt <$> fn)
        ∧ odict_get (stats_overall st) "TP" = Ok (PyInt (Zsum tp))
        ∧ odict_get (stats_overall st) "TN" = Ok (PyInt (Zsum tn))
        ∧ odict_get (stats_overall st) "FP" = Ok (PyInt (Zsum fp))
        ∧ odict_get (stats_overall st) "FN" = Ok (PyInt (Zsum fn)))
    ∧ (∃ a, get_accuracy three_results = Ok a
            ∧ odict_get (stats_overall st) "accuracy" = Ok (PyFloat a))
    ∧ confusion_matrix [0; 1; 2]%nat [0; 1; 2]%nat = Ok (cm_confusion_matrix st).
Proof.
  eexists. split; [vm_compute; reflexivity|].
  apply (common_stats_consistent unit_score unit_f1_score three_results
           [0; 1; 2]%nat [0; 1; 2]%nat ["a"; "b"; "c"]).
  vm_compute. reflexivity.
Defined.


(** ** Printing the statistics *)

Section PrintStatsFacts.
Context {E P : Type}.
Import StandardModelEvaluation.
Variable score :
  list nat → list nat → list nat → result (list Q * list Q * list Q * list Z).
Variable f1_score : list nat → list nat → list nat → string → result Q.

Lemma for_each_appends_total {X R : Type} (body : list R → X → result (list R))
    (xs : list X) : ∀ init,
  (∀ acc x, x ∈ xs → ∃ r, body acc x = Ok (acc ++ [r])) →
  ∃ rows, for_each body xs init = Ok (init ++ rows) ∧ length rows = length xs.
Proof.
  induction xs as [|x xs IH]; intros init Hbody.
  - exists []. by rewrite app_nil_r.
  - destruct (Hbody init x) as [r Hr]; [by left|].
    destruct (IH (init ++ [r])) as (rows & Hrun & Hlen).
    { intros acc y Hy. apply Hbody. by right. }
    exists (r :: rows). simpl. rewrite Hr. simpl. rewrite Hrun.
    rewrite <- app_assoc. simpl. by rewrite Hlen.
Qed.

Lemma list_get_in_range {V : Type} (l : list V) (i : nat) :
  (i < length l)%nat → ∃ v, list_get l i = Ok v.
Proof.
  intros Hi. unfold list_get.
  destruct (lookup_lt_is_Some_2 l i Hi) as [v ->]. by exists v.
Qed.

Lemma counts_of_matrix_lengths (C : matrix) :
  let by_class := counts_by_class (counts_of_matrix C) in
  length (TP by_class) = count_entries (length C)
  ∧ length (TN by_class) = count_entries (length C)
  ∧ length (FP by_class) = count_entries (length C)
  ∧ length (FN by_class) = count_entries (length C).
Proof.
  unfold counts_of_matrix, count_entries. case_decide; [done|].
  rewrite multiclass_loop. simpl. by rewrite !length_fmap, !length_seq.
Qed.

Lemma confusion_matrix_rows (y_true y_pred : list nat) :
  length y_true = length y_pred →
  ∃ C, confusion_matrix y_true y_pred = Ok C
       ∧ length C = length (unique_labels y_true y_pred).
Proof.
  intros Hlen. unfold confusion_matrix. rewrite decide_True by done.
  eexists. split; [done|]. by rewrite length_fmap.
Qed.

Lemma stats_row_total (stats : list (string * list pyval)) (label : nat)
    (titles : list string) : ∀ row,
  Forall (λ stat, ∃ column, odict_get stats stat = Ok column
                            ∧ (label < length column)%nat) titles →
  ∃ cells,
    for_each (λ row stat, column ← odict_get stats stat;
                          cell ← list_get column label;
                          Ok (row ++ [cell])) titles row
    = Ok cells.
Proof.
  induction titles as [|stat titles IH]; intros row Hall; [by eexists|].
  apply Forall_cons in Hall as [(column & Hcol & Hlt) Hall].
  destruct (list_get_in_range column label Hlt) as [cell Hcell].
  simpl. rewrite Hcol. simpl. rewrite Hcell. simpl. apply IH, Hall.
Qed.

Lemma overall_row_total (stats : list (string * pyval)) (titles : list string) :
  ∀ row,
  Forall (λ stat, ∃ cell, odict_get stats stat = Ok cell) titles →
  ∃ cells,
    for_each (λ row stat, cell ← odict_get stats stat; Ok (row ++ [cell]))
      titles row
    = Ok cells.
Proof.
  induction titles as [|stat titles IH]; intros row Hall; [by eexists|].
  apply Forall_cons in Hall as [(cell & Hcell) Hall].
  simpl. rewrite Hcell. simpl. apply IH, Hall.
Qed.

Lemma comprehension_total {X Y : Type} (f : X → result Y) (xs : list X) :
  (∀ x, x ∈ xs → ∃ y, f x = Ok y) → ∃ ys, comprehension f xs = Ok ys.
Proof.
  induction xs as [|x xs IH]; intros Hf; [by eexists|].
  destruct (Hf x) as [y Hy]; [by left|].
  destruct IH as [ys Hys]; [intros z Hz; apply Hf; by right|].
  simpl. rewrite Hy. simpl. rewrite Hys. by eexists.
Qed.

Lemma print_class_stats_table_total (text_labels : list string)
    (c1 c2 c3 c4 c5 c6 c7 c8 : list pyval) :
  Forall (λ column, (length text_labels - 1 <= length column)%nat)
         [c1; c2; c3; c4; c5; c6; c7; c8] →
  ∃ out,
    _print_class_stats_table
      (odict_set (odict_set (odict_set (odict_set
         [("precision", c1); ("recall", c2); ("f_beta", c3); ("support", c4)]
         "TP" c5) "TN" c6) "FP" c7) "FN" c8) text_labels = Ok out.
Proof.
  intros Hlen.
  change (odict_set _ "FN" c8)
    with [("precision", c1); ("recall", c2); ("f_beta", c3); ("support", c4);
          ("TP", c5); ("TN", c6); ("FP", c7); ("FN", c8)].
  unfold _print_class_stats_table.
  match goal with
  | |- context [for_each ?b ?xs ?i] =>
      destruct (for_each_appends_total b xs i) as (rows & Hrows & _)
  end; [|rewrite Hrows; by eexists].
  intros acc label Hlabel. unfold label_range in Hlabel.
  apply elem_of_seq in Hlabel as [_ Hlabel]. simpl in Hlabel.
  unfold stats_row.
  match goal with
  | |- context [for_each ?b ?xs []] =>
      destruct (stats_row_total
                  [("precision", c1); ("recall", c2); ("f_beta", c3);
                   ("support", c4); ("TP", c5); ("TN", c6); ("FP", c7);
                   ("FN", c8)] label xs []) as [cells Hcells]
  end.
  { rewrite !Forall_cons in Hlen. destruct Hlen as (?&?&?&?&?&?&?&?&_).
    repeat (apply Forall_cons; split;
            [eexists; split; [reflexivity|lia]|]).
    apply Forall_nil_2. }
  rewrite Hcells.
  destruct (list_get_in_range text_labels label) as [name ->]; [lia|].
  simpl. by eexists.
Qed.

Lemma print_overall_stats_table_total (v1 v2 v3 v4 v5 v6 v7 v8 : pyval) :
  ∃ out,
    _print_overall_stats_table
      (odict_set (odict_set (odict_set (odict_set
         [("f1_weighted", v1); ("f1_macro", v2); ("f1_micro", v3);
          ("accuracy", v4)]
         "TP" v5) "TN" v6) "FP" v7) "FN" v8) = Ok out.
Proof.
  change (odict_set _ "FN" v8)
    with [("f1_weighted", v1); ("f1_macro", v2); ("f1_micro", v3);
          ("accuracy", v4); ("TP", v5); ("TN", v6); ("FP", v7); ("FN", v8)].
  unfold _print_overall_stats_table.
  match goal with
  | |- context [for_each ?b ?xs []] =>
      destruct (overall_row_total
                  [("f1_weighted", v1); ("f1_macro", v2); ("f1_micro", v3);
                   ("accuracy", v4); ("TP", v5); ("TN", v6); ("FP", v7);
                   ("FN", v8)] xs []) as [cells Hcells]
  end; [|rewrite Hcells; by eexists].
  repeat (apply Forall_cons; split; [eexists; reflexivity|]).
  apply Forall_nil_2.
Qed.

Lemma print_class_matrix_total (C : matrix) (text_labels : list string) :
  (length text_labels - 1 <= length C)%nat →
  ∃ out, _print_class_matrix C text_labels = Ok out.
Proof.
  intros Hlen. unfold _print_class_matrix.
  destruct (comprehension_total
              (λ label, name ← list_get text_labels label;
                        Ok (_truncate_label name 10))
              (label_range text_labels)) as [titles ->].
  { intros label [_ Hl]%elem_of_seq.
    destruct (list_get_in_range text_labels label) as [name ->]; [simpl in Hl; lia|].
    by eexists. }
  simpl.
  match goal with
  | |- context [for_each ?b ?xs ?i] =>
      destruct (for_each_appends_total b xs i) as (rows & Hrows & _)
  end; [|rewrite Hrows; by eexists].
  intros acc label [_ Hl]%elem_of_seq. simpl in Hl.
  destruct (list_get_in_range text_labels label) as [name ->]; [lia|].
  destruct (list_get_in_range C label) as [cells ->]; [lia|].
  simpl. by eexists.
Qed.

(** X14. [print_stats] does not raise on a list of results that is not
    empty, provided the scoring functions of the library return, with one
    entry per label they are asked for: the raw vectors have equal lengths,
    the confusion matrix has one row per text label, and every cell that the
    three tables read exists, also in the binary case where the count arrays
    hold a single entry. *)
Theorem print_stats_returns (results : list (EvaluatedExample E string P)) :
  results ≠ [] →
  (∀ y_true y_pred labels, ∃ p r f s,
      score y_true y_pred labels = Ok (p, r, f, s)
      ∧ length p = length labels ∧ length r = length labels
      ∧ length f = length labels ∧ length s = length labels) →
  (∀ y_true y_pred labels average, ∃ v,
      f1_score y_true y_pred labels average = Ok v) →
  ∃ stats out, print_stats score f1_score results = Ok (stats, out).
Proof.
  intros Hne Hscore Hf1. unfold print_stats.
  destruct (raw_results_run results) as (tl & pv & ev & Hrun & Hinv & Hcover).
  unfold raw_results. rewrite Hrun.
  cbn [mbind result_bind rr_expected rr_predicted rr_text_labels].
  pose proof (raw_unique_labels _ _ _ _ Hinv Hcover) as Hclasses.
  destruct Hinv as (_ & Hp & He).
  destruct (confusion_matrix_rows ev pv) as (C & HC & HlenC).
  { by rewrite <- (Forall2_length _ _ _ He), <- (Forall2_length _ _ _ Hp). }
  rewrite Hclasses, length_seq in HlenC.
  unfold _get_common_stats, _get_confusion_matrix_and_counts. rewrite HC.
  unfold _get_overall_stats.
  destruct (Hf1 ev pv (label_range tl) "weighted") as [w ->].
  destruct (Hf1 ev pv (label_range tl) "macro") as [ma ->].
  destruct (Hf1 ev pv (label_range tl) "micro") as [mi ->].
  unfold get_accuracy. rewrite decide_False by (by destruct results).
  unfold _get_class_stats.
  destruct (Hscore ev pv (label_range tl))
    as (p & r & f & s & -> & Hlp & Hlr & Hlf & Hls).
  unfold label_range in Hlp, Hlr, Hlf, Hls. rewrite length_seq in Hlp, Hlr, Hlf, Hls.
  cbn [mbind result_bind stats_overall class_stats cm_confusion_matrix].
  pose proof (counts_of_matrix_lengths C) as (Htp & Htn & Hfp & Hfn).
  rewrite (counts_of_matrix_confusion_matrix C).
  assert (length tl - 1 <= count_entries (length C))%nat as Hcount.
  { unfold count_entries. case_decide; lia. }
  match goal with
  | |- context [_print_overall_stats_table
                  (odict_set (odict_set (odict_set (odict_set
                     [(_, ?v1); (_, ?v2); (_, ?v3); (_, ?v4)]
                     _ ?v5) _ ?v6) _ ?v7) _ ?v8)] =>
      destruct (print_overall_stats_table_total v1 v2 v3 v4 v5 v6 v7 v8)
        as [out1 Hout1]; rewrite Hout1
  end.
  cbn [mbind result_bind].
  match goal with
  | |- context [_print_class_stats_table
                  (odict_set (odict_set (odict_set (odict_set
                     [(_, ?c1); (_, ?c2); (_, ?c3); (_, ?c4)]
                     _ ?c5) _ ?c6) _ ?c7) _ ?c8) tl] =>
      destruct (print_class_stats_table_total tl c1 c2 c3 c4 c5 c6 c7 c8)
        as [out2 Hout2];
        [repeat (apply Forall_cons; split; [rewrite length_fmap; lia|]);
         apply Forall_nil_2
        |rewrite Hout2]
  end.
  cbn [mbind result_bind].
  destruct (print_class_matrix_total C tl) as [out3 ->]; [lia|].
  cbn [mbind result_bind]. by eexists _, _.
Qed.

End PrintStatsFacts.

Lemma print_stats_returns_witness :
  ∃ stats out,
    StandardModelEvaluation.print_stats unit_score unit_f1_score three_results = Ok (stats, out).
Proof.
  apply (print_stats_returns unit_score unit_f1_score).
  - done.
  - intros y_true y_pred labels. eexists _, _, _, _.
    split; [reflexivity|]. by rewrite !length_fmap.
  - intros. by eexists.
Defined.


(** ** The shuffle of [fit] on lists of different lengths *)

Section ShuffleLengthFacts.
Context {Ex Lbl : Type}.
Import SkLearnModel.

Lemma comprehension_list_get_out {V : Type} (l : list V) (indices : list nat) :
  Exists (λ i, (length l <= i)%nat) indices →
  comprehension (list_get l) indices = Raise IndexError.
Proof.
  induction indices as [|i indices IH]; intros Hex; [by apply Exists_nil in Hex|].
  cbn [comprehension]. apply Exists_cons in Hex as [Hi|Hex].
  - unfold list_get. by rewrite (lookup_ge_None_2 l i Hi).
  - rewrite (IH Hex). unfold list_get. by destruct (l !! i).
Qed.

Lemma omap_ext_in {A B : Type} (f g : A → option B) (l : list A) :
  (∀ x, x ∈ l → f x = g x) → omap f l = omap g l.
Proof.
  induction l as [|x l IH]; intros Hfg; [done|].
  cbn [omap list_omap]. rewrite (Hfg x) by by left.
  rewrite IH; [done|]. intros y Hy. apply Hfg. by right.
Qed.

Lemma omap_lookup_seq_take {V : Type} (l : list V) (n : nat) :
  (n <= length l)%nat → omap (λ i, l !! i) (seq 0 n) = take n l.
Proof.
  intros Hn. pose proof (omap_lookup_seq (take n l) []) as Hseq.
  simpl in Hseq. rewrite length_take, Nat.min_l in Hseq by done.
  etrans; [|exact Hseq]. apply omap_ext_in.
  intros i [_ Hi]%elem_of_seq. by rewrite lookup_take_lt by lia.
Qed.

(** X15. With fewer examples than labels the shuffle of [fit] raises
    [IndexError], whatever permutation [random.shuffle] produces. *)
Theorem shuffle_too_few_examples (random_shuffle : list nat → list nat)
    (examples : list Ex) (labels : list Lbl) :
  (∀ l, random_shuffle l ≡ₚ l) →
  (length examples < length labels)%nat →
  shuffle_examples random_shuffle examples labels = Raise IndexError.
Proof.
  intros Hshuffle Hlen. unfold shuffle_examples.
  rewrite (comprehension_list_get_out examples); [reflexivity|].
  apply Exists_exists. exists (length examples). split; [|done].
  rewrite Hshuffle. apply elem_of_seq. lia.
Qed.

(** X16. With at least as many examples as labels the shuffle succeeds and
    the examples beyond the number of labels are dropped without an error:
    the shuffled examples are a rearrangement of the first [len(labels)]
    examples, the shuffled labels a rearrangement of all labels, and each
    kept example is still paired with its label. *)
Theorem shuffle_drops_surplus_examples (random_shuffle : list nat → list nat)
    (examples : list Ex) (labels : list Lbl) :
  (∀ l, random_shuffle l ≡ₚ l) →
  (length labels <= length examples)%nat →
  ∃ examples' labels',
    shuffle_examples random_shuffle examples labels = Ok (examples', labels')
    ∧ examples' ≡ₚ take (length labels) examples
    ∧ labels' ≡ₚ labels
    ∧ zip examples' labels' ≡ₚ zip (take (length labels) examples) labels.
Proof.
  intros Hshuffle Hlen. unfold shuffle_examples.
  set (indices := random_shuffle (seq 0 (length labels))).
  assert (indices ≡ₚ seq 0 (length labels)) as Hperm by apply Hshuffle.
  assert (Forall (λ i, (i < length examples)%nat ∧ (i < length labels)%nat) indices)
    as Hrange.
  { rewrite Hperm. apply Forall_forall. intros i Hi%elem_of_seq. lia. }
  rewrite (comprehension_list_get examples), (comprehension_list_get labels);
    [|eapply Forall_impl; [exact Hrange|]; simpl; tauto ..].
  simpl. eexists _, _. split; [done|]. split_and!.
  - rewrite Hperm. by rewrite omap_lookup_seq_take.
  - by apply omap_lookup_permutation.
  - destruct (zip_omap_lookup examples labels indices) as [->|Hno]; [|done].
    rewrite Hperm.
    rewrite omap_lookup_seq_take by (rewrite length_zip_with; lia).
    rewrite zip_with_take_l by done.
    rewrite take_ge; [done|]. rewrite length_zip_with. lia.
Qed.

End ShuffleLengthFacts.

Lemma shuffle_too_few_examples_witness :
  SkLearnModel.shuffle_examples (@reverse nat) ["play jazz"] ["music"; "exit"]
    = Raise IndexError.
Proof.
  apply (shuffle_too_few_examples reverse).
  - intros l. apply reverse_Permutation.
  - simpl. lia.
Defined.

Lemma shuffle_drops_surplus_examples_witness :
  ∃ examples' labels',
    SkLearnModel.shuffle_examples (@reverse nat)
      ["book a table"; "play jazz"; "stop"] ["reserve"; "music"]
    = Ok (examples', labels')
    ∧ examples' ≡ₚ take 2 ["book a table"; "play jazz"; "stop"]
    ∧ labels' ≡ₚ ["reserve"; "music"]
    ∧ zip examples' labels'
      ≡ₚ zip (take 2 ["book a table"; "play jazz"; "stop"]) ["reserve"; "music"].
Proof.
  apply (shuffle_drops_surplus_examples reverse).
  - intros l. apply reverse_Permutation.
  - simpl. lia.
Defined.


(** ** Class probabilities: low scores and surplus columns *)

Section PredictProbaEdges.
Context {Ex Lbl Cls Clf : Type} `{Countable Lbl}.
Import SkLearnModel.

Lemma enumerate_decoded_prefix (self : SkLearnModel.t Ex Lbl Cls Clf)
    (labels : list Lbl) (row : list Q) :
  Forall2 (λ c l, decode (_label_encoder self) [c] None = Ok [l])
          (classes_ self) labels →
  (length row <= length (classes_ self))%nat →
  Forall2 (λ (item : nat * Q) (pair : Lbl * Q), item.2 = pair.2
             ∧ ∃ c, classes_ self !! item.1 = Some c
                    ∧ decode (_label_encoder self) [c] None = Ok [pair.1])
          (enumerate row) (zip labels row).
Proof.
  intros Hdec Hlen. pose proof (Forall2_length _ _ _ Hdec) as Hlen'.
  apply Forall2_same_length_lookup. split.
  - unfold enumerate. rewrite !length_zip_with, length_seq. lia.
  - intros i [j p] [l p'] Hitem Hpair. unfold enumerate in Hitem.
    apply lookup_zip_Some in Hitem as [Hj Hp].
    apply lookup_zip_Some in Hpair as [Hl Hp'].
    apply lookup_seq in Hj as [-> _]. simpl.
    split; [congruence|].
    destruct (Forall2_lookup_r _ _ _ _ _ Hdec Hl) as (c & Hc & Hcl).
    by exists c.
Qed.

Lemma proba_step_low (pairs : list (Lbl * Q)) : ∀ probs,
  Forall (λ lp, (lp.2 <= -1)%Q) pairs →
  (foldl proba_step (probs, None) pairs).2 = None.
Proof.
  induction pairs as [|[l p] pairs IH]; intros probs Hlow; [done|].
  apply Forall_cons in Hlow as [Hp Hlow]. simpl in Hp.
  simpl. unfold proba_step at 2. simpl.
  apply float_gt_false in Hp. rewrite Hp. by apply IH.
Qed.

(** X17. When every entry of every row is at most -1 (as logarithms of
    probabilities below 1/e are), [_predict_proba] returns [None] as the
    top class of every row: the comparison starts from -1.0, which no such
    entry exceeds. The rows are not empty and have no more entries than
    there are fitted classes. *)
Theorem predict_proba_low_scores (self : SkLearnModel.t Ex Lbl Cls Clf)
    (labels : list Lbl) (rows : list (list Q)) :
  Forall2 (λ c l, decode (_label_encoder self) [c] None = Ok [l])
          (classes_ self) labels →
  Forall (λ row, row ≠ [] ∧ (length row <= length (classes_ self))%nat
                 ∧ Forall (λ p, (p <= -1)%Q) row) rows →
  ∃ predictions,
    _predict_proba self rows = Ok predictions
    ∧ length predictions = length rows
    ∧ Forall (λ prediction, prediction.1 = None) predictions.
Proof.
  intros Hdec Hrows. unfold _predict_proba.
  enough (∀ acc, ∃ predictions,
    for_each (λ predictions row,
                class_index ← argmax row;
                st ← for_each (proba_body self) (enumerate row) (∅, None);
                Ok (predictions ++ [(st.2, st.1)])) rows acc
      = Ok (acc ++ predictions)
    ∧ length predictions = length rows
    ∧ Forall (λ prediction, prediction.1 = None) predictions) as Hloop.
  { destruct (Hloop []) as (predictions & Hrun & Hok). by exists predictions. }
  induction Hrows as [|row rows (Hne & Hlen & Hlow) _ IH]; intros acc.
  - exists []. by rewrite app_nil_r.
  - destruct (argmax_nonempty row Hne) as (class_index & Hargmax).
    pose proof (proba_loop_decoded self (enumerate row) (zip labels row) (∅, None)
                  (enumerate_decoded_prefix self labels row Hdec Hlen)) as Hrow.
    destruct (IH (acc ++ [((foldl proba_step (∅, None) (zip labels row)).2,
                           (foldl proba_step (∅, None) (zip labels row)).1)]))
      as (predictions & Hrun & Hcount & Hall).
    eexists (_ :: predictions). split_and!.
    + cbn [for_each]. rewrite Hargmax. cbn [mbind result_bind].
      rewrite Hrow. cbn [mbind result_bind]. rewrite Hrun.
      by rewrite <- app_assoc.
    + simpl. by rewrite Hcount.
    + constructor; [|done]. simpl. apply proba_step_low.
      apply Forall_forall. intros [l p] Hlp. simpl.
      rewrite Forall_forall in Hlow. apply Hlow.
      apply list_elem_of_lookup in Hlp as [i Hi].
      apply lookup_zip_Some in Hi as [_ Hp].
      by eapply list_elem_of_lookup_2.
Qed.

Lemma for_each_app {S X : Type} (body : S → X → result S) (xs ys : list X) :
  ∀ s, for_each body (xs ++ ys) s = for_each body xs s ≫= for_each body ys.
Proof.
  induction xs as [|x xs IH]; intros s; [done|].
  simpl. destruct (body s x) as [s'|]; simpl; [apply IH|done].
Qed.

Lemma enumerate_app {V : Type} (a b : list V) :
  enumerate (a ++ b) = enumerate a ++ zip (seq (length a) (length b)) b.
Proof.
  unfold enumerate. rewrite length_app, seq_app.
  rewrite zip_with_app by (by rewrite length_seq). done.
Qed.

(** X18. A row with more entries than there are fitted classes makes
    [_predict_proba] raise [ValueError]: the class encoder does not know the
    class index of the first surplus entry. *)
Theorem predict_proba_surplus_column (self : SkLearnModel.t Ex Lbl Cls Clf)
    (labels : list Lbl) (row : list Q) (rows : list (list Q)) :
  Forall2 (λ c l, decode (_label_encoder self) [c] None = Ok [l])
          (classes_ self) labels →
  (length (classes_ self) < length row)%nat →
  _predict_proba self (row :: rows)
    = Raise (ValueError "y contains previously unseen labels: {}"
               [PyInt (Z.of_nat (length (classes_ self)))]).
Proof.
  intros Hdec Hlen. unfold _predict_proba. cbn [for_each].
  destruct (argmax_nonempty row) as (class_index & ->).
  { intros ->. simpl in Hlen. lia. }
  cbn [mbind result_bind].
  set (n := length (classes_ self)) in *.
  rewrite <- (take_drop n row) at 1.
  destruct (drop n row) as [|p rest] eqn:Hdrop.
  { apply (f_equal length) in Hdrop. rewrite length_drop in Hdrop. simpl in Hdrop. lia. }
  rewrite enumerate_app, for_each_app.
  rewrite (proba_loop_decoded self _ (zip labels (take n row))).
  2:{ apply enumerate_decoded; [done|]. rewrite length_take. lia. }
  simpl. rewrite length_take, Nat.min_l by lia.
  destruct (foldl proba_step _ _) as [probs top]. simpl.
  unfold inverse_transform. simpl.
  rewrite (lookup_ge_None_2 (classes_ self) n) by done. done.
Qed.

End PredictProbaEdges.

Lemma predict_proba_low_scores_witness :
  ∃ predictions,
    SkLearnModel._predict_proba two_class_model [[-3 # 2; -2]]%Q = Ok predictions
    ∧ length predictions = 1%nat
    ∧ Forall (λ prediction, prediction.1 = None) predictions.
Proof.
  apply (predict_proba_low_scores two_class_model ["exit"; "greet"]).
  - repeat constructor.
  - repeat constructor; simpl; try done; lia.
Defined.

Lemma predict_proba_surplus_column_witness :
  SkLearnModel._predict_proba two_class_model [[1 # 4; 1 # 4; 1 # 2]]%Q
    = Raise (ValueError "y contains previously unseen labels: {}" [PyInt 2]).
Proof.
  apply (predict_proba_surplus_column two_class_model ["exit"; "greet"]).
  - repeat constructor.
  - simpl. lia.
Defined.

(** ** Prediction *)

Section PredictFacts.
Context {Ex Lbl Clf X : Type}.
Import SkLearnModel.
Variable transform_features : list Ex → result X.
Variable clf_predict : Clf → X → result (list nat).

Lemma comprehension_Forall2 {A B : Type} (f : A → result B) (xs : list A) :
  ∀ ys, comprehension f xs = Ok ys → Forall2 (λ x y, f x = Ok y) xs ys.
Proof.
  induction xs as [|x xs IH]; intros ys Hrun; simpl in Hrun.
  - injection Hrun as <-. constructor.
  - destruct (f x) as [y|] eqn:Hy; [|done]. simpl in Hrun.
    destruct (comprehension f xs) as [ys'|]; [|done]. simpl in Hrun.
    injection Hrun as <-. constructor; [done|]. by apply IH.
Qed.

(** X19. With the 'class' label encoder, whenever [predict] returns, the
    model holds a classifier and every returned label is the fitted class
    at the index the classifier predicted: [predict] returns one label per
    predicted index and never a label that was not seen when fitting. *)
Theorem predict_returns_fitted_classes (self : SkLearnModel.t Ex Lbl Lbl Clf)
    (examples : list Ex) (labels : list Lbl) :
  _label_encoder self = LabelEncoder →
  predict transform_features clf_predict self examples = Ok labels →
  ∃ clf x y,
    _clf self = Some clf
    ∧ transform_features examples = Ok x
    ∧ clf_predict clf x = Ok y
    ∧ Forall2 (λ i l, classes_ self !! i = Some l) y labels
    ∧ Forall (λ l, l ∈ classes_ self) labels.
Proof.
  intros Henc Hrun. unfold predict in Hrun.
  destruct (transform_features examples) as [x|]; [|done]. simpl in Hrun.
  destruct (_clf self) as [clf|]; [|done]. simpl in Hrun.
  destruct (clf_predict clf x) as [y|] eqn:Hy; [|done]. simpl in Hrun.
  destruct (inverse_transform self y) as [predictions|] eqn:Hinv; [|done].
  simpl in Hrun. rewrite Henc in Hrun. simpl in Hrun. injection Hrun as <-.
  apply comprehension_Forall2 in Hinv.
  assert (Forall2 (λ i l, classes_ self !! i = Some l) y predictions) as Hcls.
  { eapply Forall2_impl; [exact Hinv|]. intros i l Hil. simpl in Hil.
    destruct (classes_ self !! i); congruence. }
  exists clf, x, y. split_and!; try done.
  apply Forall_forall. intros l Hl.
  apply list_elem_of_lookup in Hl as [k Hk].
  destruct (Forall2_lookup_r _ _ _ _ _ Hcls Hk) as (i & _ & Hi).
  by eapply list_elem_of_lookup_2.
Qed.

End PredictFacts.


(** ** Parameter selection *)

Section SelectionFacts.
Context {Ex Lbl Cls Clf X Y : Type}.
Variable get_feature_matrix :
  list Ex → list Cls → result (list Cls * (X * Y * list nat)).
Variable _convert_params : pyval → Y → result pyval.
Variable model_class_fit : pyval → X → Y → result Clf.
Variable grid_search_fit :
  pyval → pyval → cv_splitter → pyval → X → Y → list nat
  → result (GridSearchResult Clf).
Import SkLearnModel.

Abbreviation model := (SkLearnModel.t Ex Lbl Cls Clf).

Ltac bind_inv_as H E :=
  match type of H with
  | (?m ≫= _) = Ok _ => destruct m eqn:E; simpl in H; [|discriminate H]
  end.

Ltac bind_inv H := let E := fresh "E" in bind_inv_as H E.

Lemma get_cv_iterator_has_type (d : gmap string pyval) (cv : cv_splitter) :
  Model._get_cv_iterator (PyDict d) = Ok (Some cv) →
  truthy (PyDict d) = true ∧ ∃ ty, d !! "type" = Some ty.
Proof.
  unfold Model._get_cv_iterator. destruct (truthy (PyDict d)); simpl; [|done].
  destruct (d !! "type") as [ty|]; [|done]. intros _. split; [done|by exists ty].
Qed.

(** X20. With a 'scoring' setting other than 'accuracy' and 'log_loss',
    [_fit_cv] raises [UnboundLocalError] after the grid search has run and
    succeeded: the message that reports the best score is only assigned for
    those two scorings. *)
Theorem fit_cv_other_scoring (self : model) (x : X) (y : Y) (groups : list nat)
    (d : gmap string pyval) (scoring : string) (cv : cv_splitter)
    (grid param_grid : pyval) (fitted : GridSearchResult Clf) :
  d !! "scoring" = Some (PyStr scoring) →
  scoring ≠ "accuracy" → scoring ≠ "log_loss" →
  Model._get_cv_iterator (PyDict d) = Ok (Some cv) →
  d !! "grid" = Some grid →
  _convert_params grid y = Ok param_grid →
  grid_search_fit (PyStr scoring) param_grid cv
    (default (PyInt (-1)) (d !! "n_jobs")) x y groups = Ok fitted →
  _fit_cv _convert_params model_class_fit grid_search_fit self x y groups (PyDict d)
    = Raise (UnboundLocalError "msg").
Proof.
  intros Hs Hacc Hll Hcv Hgrid Hconv Hfit.
  destruct (get_cv_iterator_has_type d cv Hcv) as (Htruthy & ty & Hty).
  unfold _fit_cv, py_or. rewrite Htruthy, Hcv. simpl.
  rewrite Hty, Hs, Hgrid. simpl. rewrite Hconv. simpl. rewrite Hfit. simpl.
  unfold ACCURACY_SCORING, LIKELIHOOD_SCORING.
  by rewrite !bool_decide_eq_false_2.
Qed.

(** X21. When [_fit_cv] runs with settings whose scoring is 'accuracy' (also
    by default, when there is no 'scoring' entry) or 'log_loss', it returns
    the best estimator and the best parameters of the grid search and sets
    [cv_loss_] to [1 - best_score_] for accuracy and to [- best_score_] for
    the log likelihood; it records neither as the model's classifier or
    current parameters. *)
Theorem fit_cv_records_loss (self : model) (x : X) (y : Y) (groups : list nat)
    (d : gmap string pyval) (cv : cv_splitter)
    (grid param_grid : pyval) (fitted : GridSearchResult Clf) :
  let scoring := default (PyStr "accuracy") (d !! "scoring") in
  scoring = PyStr "accuracy" ∨ scoring = PyStr "log_loss" →
  Model._get_cv_iterator (PyDict d) = Ok (Some cv) →
  d !! "grid" = Some grid →
  _convert_params grid y = Ok param_grid →
  grid_search_fit scoring param_grid cv
    (default (PyInt (-1)) (d !! "n_jobs")) x y groups = Ok fitted →
  ∃ self',
    _fit_cv _convert_params model_class_fit grid_search_fit self x y groups (PyDict d)
      = Ok (self', (best_estimator_ fitted, best_params_ fitted))
    ∧ cv_loss_ self'
      = Some (if str_eqb scoring "accuracy"
              then (1 - best_score_ fitted)%Q else (- best_score_ fitted)%Q)
    ∧ _clf self' = _clf self
    ∧ _current_params self' = _current_params self
    ∧ sk_calls self'
      = sk_calls self
        ++ [CallGridSearchCV scoring param_grid cv
              (default (PyInt (-1)) (d !! "n_jobs"))].
Proof.
  intros scoring Hscoring Hcv Hgrid Hconv Hfit.
  destruct (get_cv_iterator_has_type d cv Hcv) as (Htruthy & ty & Hty).
  unfold _fit_cv, py_or. rewrite Htruthy, Hcv. simpl.
  rewrite Hty, Hgrid. simpl. rewrite Hconv. simpl.
  change (default (PyStr DEFAULT_CV_SCORING) (d !! "scoring")) with scoring.
  rewrite Hfit. simpl.
  destruct Hscoring as [Hsc|Hsc]; rewrite Hsc; simpl.
  - by eexists.
  - by eexists.
Qed.

(** X22. When the parameter selection of the configuration is a dictionary
    without a 'type' entry (an empty dictionary included) and no selection
    settings are passed, [_fit_cv] raises [KeyError] for 'type' before any
    classifier is fitted. *)
Theorem fit_cv_missing_type (self : model) (x : X) (y : Y) (groups : list nat)
    (d : gmap string pyval) :
  ModelConfig.param_selection (config self) = PyDict d →
  d !! "type" = None →
  _fit_cv _convert_params model_class_fit grid_search_fit self x y groups PyNone
    = Raise (KeyError "type").
Proof.
  intros Hsel Hty. unfold _fit_cv.
  change (py_or PyNone ?b) with b. rewrite Hsel.
  unfold Model._get_cv_iterator.
  destruct (truthy (PyDict d)); simpl; by rewrite Hty.
Qed.

(** X23. When no selection settings are passed and the configuration has
    none either, [_fit_cv] fits one classifier with [config.params] and
    returns these parameters: whenever it returns, no grid search was run. *)
Theorem fit_cv_without_settings (self self' : model) (x : X) (y : Y)
    (groups : list nat) (settings : pyval) (clf : Clf) (params : pyval) :
  truthy settings = false →
  ModelConfig.param_selection (config self) = PyNone →
  _fit_cv _convert_params model_class_fit grid_search_fit self x y groups settings
    = Ok (self', (clf, params)) →
  params = ModelConfig.params (config self)
  ∧ ∃ converted,
      _convert_params (ModelConfig.params (config self)) y = Ok converted
      ∧ model_class_fit converted x y = Ok clf
      ∧ sk_calls self' = sk_calls self ++ [CallFit converted].
Proof.
  intros Hfalsy Hsel Hrun. unfold _fit_cv, py_or in Hrun.
  rewrite Hfalsy, Hsel in Hrun. simpl in Hrun.
  bind_inv_as Hrun Hfit. injection Hrun as <- <- <-.
  unfold _fit in Hfit. do 2 bind_inv Hfit.
  injection Hfit as <-. split; [done|]. by eexists.
Qed.

Lemma fit_cv_frame (self selected : model) (x : X) (y : Y) (groups : list nat)
    (settings : pyval) (clf : Clf) (params : pyval) :
  _fit_cv _convert_params model_class_fit grid_search_fit self x y groups settings
    = Ok (selected, (clf, params)) →
  _current_params selected = _current_params self
  ∧ _clf selected = _clf self
  ∧ config selected = config self
  ∧ classes_ selected = classes_ self.
Proof.
  intros Hcv. unfold _fit_cv in Hcv.
  bind_inv Hcv.
  destruct (is_None _).
  - bind_inv_as Hcv Hfit. injection Hcv as <- <- <-.
    unfold _fit in Hfit. do 2 bind_inv Hfit.
    by injection Hfit as <-.
  - do 7 bind_inv Hcv.
    destruct (str_eqb _ ACCURACY_SCORING);
      [|destruct (str_eqb _ LIKELIHOOD_SCORING)];
      simpl in Hcv; try discriminate Hcv; by injection Hcv as <- <- <-.
Qed.

(** X24. Whenever [select_params] returns, the model holds the classes that
    [get_feature_matrix] refitted the class encoder on and the classifier
    that [_fit_cv] selected together with the returned parameters; unlike
    after [fit], [_current_params] is as it was, and so is the
    configuration. *)
Theorem select_params_keeps_current_params (self self' : model)
    (examples : list Ex) (labels : list Lbl) (settings params : pyval) :
  select_params get_feature_matrix _convert_params model_class_fit
    grid_search_fit self examples labels settings = Ok (self', params) →
  ∃ y classes x y' groups selected clf,
    encode (_label_encoder self) labels None = Ok y
    ∧ get_feature_matrix examples y = Ok (classes, (x, y', groups))
    ∧ _fit_cv _convert_params model_class_fit grid_search_fit
        (set_classes_ self classes) x y' groups settings
      = Ok (selected, (clf, params))
    ∧ _clf self' = Some clf
    ∧ classes_ self' = classes
    ∧ _current_params self' = _current_params self
    ∧ config self' = config self.
Proof.
  intros Hrun. unfold select_params in Hrun.
  bind_inv_as Hrun Hy. bind_inv_as Hrun Hmatrix.
  destruct a0 as [classes [[x y'] groups]]. simpl in Hrun.
  bind_inv_as Hrun Hcv.
  injection Hrun as <- <-. destruct a0 as [selected [clf best]].
  destruct (fit_cv_frame _ _ _ _ _ _ _ _ Hcv) as (Hparams & _ & Hconfig & Hclasses).
  exists a, classes, x, y', groups, selected, clf. by split_and!.
Qed.

End SelectionFacts.


(** ** The feature scaler *)

Section FeatureScalerFacts.
Import SkLearnModel.

(** X25. [_get_feature_scaler] returns a scaler exactly when the model
    settings are a dictionary whose 'feature_scaler' is 'std-dev' (a
    standard scaler without centring) or 'max-abs'; without model settings,
    without the entry, or with any other name it returns [None] and does
    not raise. *)
Theorem get_feature_scaler_spec (config : ModelConfig.t) :
  (∀ scaler,
     _get_feature_scaler config = Ok (Some scaler)
     ↔ ∃ d, ModelConfig.model_settings config = PyDict d
            ∧ ((d !! "feature_scaler" = Some (PyStr "std-dev")
                ∧ scaler = StandardScaler false)
               ∨ (d !! "feature_scaler" = Some (PyStr "max-abs")
                  ∧ scaler = MaxAbsScaler)))
  ∧ (ModelConfig.model_settings config = PyNone →
       _get_feature_scaler config = Ok None)
  ∧ (∀ d, ModelConfig.model_settings config = PyDict d →
       (d !! "feature_scaler" = None → _get_feature_scaler config = Ok None)
       ∧ (∀ name, d !! "feature_scaler" = Some (PyStr name) →
            name ≠ "std-dev" → name ≠ "max-abs" →
            _get_feature_scaler config = Ok None)).
Proof.
  unfold _get_feature_scaler. split_and!.
  - intros scaler.
    destruct (ModelConfig.model_settings config) as [| | | | | |d]; simpl;
      try (split; [done|intros (? & ? & _); done]).
    destruct (d !! "feature_scaler") as [v|] eqn:Hv; simpl.
    + destruct v as [| | | |name| |]; simpl;
        try (split; [done|intros (? & [= <-] & [[? _]|[? _]]); congruence]).
      repeat case_decide; subst; split;
        try (intros [= <-]; exists d; split; [done|]; rewrite Hv; tauto);
        try (intros (? & [= <-] & [[? ->]|[? ->]]); congruence);
        try done.
    + split; [done|]. intros (? & [= <-] & [[? _]|[? _]]); congruence.
  - by intros ->.
  - intros d ->. simpl. split.
    + by intros ->.
    + intros name -> Hstd Hmax. simpl.
      by rewrite !decide_False.
Qed.

End FeatureScalerFacts.


(** ** Raw results of sequence models *)

Section SequenceRawFacts.
Context {Ex Lbl Cls P : Type} `{EqDecision Cls}.
Import SequenceModelEvaluation.

Lemma register_entities_loop (entities : list Cls) : ∀ tl vec,
  NoDup tl → Forall (λ i, (i < length tl)%nat) vec →
  ∃ tl' vec',
    for_each register_entities entities (tl, vec) = Ok (tl', vec')
    ∧ NoDup tl' ∧ tl `prefix_of` tl'
    ∧ Forall (λ i, (i < length tl')%nat) vec'.
Proof.
  induction entities as [|entity entities IH]; intros tl vec Hnd Hvec.
  - by exists tl, vec.
  - destruct (update_raw_result_spec entity tl vec Hnd)
      as (tl1 & i & Hrun & Hnd1 & Hpre1 & Hi).
    destruct (IH tl1 (vec ++ [i]) Hnd1) as (tl' & vec' & Hloop & Hnd' & Hpre' & Hvec').
    { apply Forall_app. split.
      - eapply Forall_impl; [exact Hvec|]. intros j Hj. simpl in Hj.
        apply prefix_length in Hpre1. lia.
      - constructor; [|constructor]. by eapply lookup_lt_Some. }
    exists tl', vec'. split_and!; try done; [|by etrans].
    cbn [for_each].
    change (register_entities (tl, vec) entity)
      with (_update_raw_result entity tl vec).
    rewrite Hrun. exact Hloop.
Qed.

Lemma Forall_lt_prefix (tl tl' : list Cls) (vec : list nat) :
  tl `prefix_of` tl' →
  Forall (λ i, (i < length tl)%nat) vec → Forall (λ i, (i < length tl')%nat) vec.
Proof.
  intros Hpre Hvec. eapply Forall_impl; [exact Hvec|].
  intros j Hj. simpl in Hj. apply prefix_length in Hpre. lia.
Qed.

Lemma seq_raw_results_body_inv (label_encoder : LabelEncoderClass Ex Lbl Cls)
    (count : nat) st st' (r : EvaluatedExample Ex Lbl P) :
  seq_raw_inv count st →
  raw_results_body label_encoder st r = Ok st' →
  seq_raw_inv (S count) st'.
Proof.
  destruct st as [[[[tl pvs] evs] pf] ef].
  intros (Hnd & Hpf & Hef & Hlp & Hle & Hpin & Hein) Hrun.
  unfold raw_results_body in Hrun.
  destruct (encode label_encoder [predicted r] _) as [raw_p|]; [|done].
  simpl in Hrun.
  destruct (encode label_encoder [expected r] _) as [raw_e|]; [|done].
  simpl in Hrun.
  destruct (register_entities_loop raw_p tl [] Hnd) as (tl1 & v1 & Hr1 & Hnd1 & Hpre1 & Hv1);
    [constructor|].
  rewrite Hr1 in Hrun. simpl in Hrun.
  destruct (register_entities_loop raw_e tl1 [] Hnd1) as (tl2 & v2 & Hr2 & Hnd2 & Hpre2 & Hv2);
    [constructor|].
  rewrite Hr2 in Hrun. simpl in Hrun. injection Hrun as <-.
  split_and!.
  - done.
  - rewrite concat_app. simpl. by rewrite app_nil_r, Hpf.
  - rewrite concat_app. simpl. by rewrite app_nil_r, Hef.
  - rewrite length_app. simpl. lia.
  - rewrite length_app. simpl. lia.
  - apply Forall_app. split.
    + eapply Forall_lt_prefix; [|exact Hpin]. by etrans.
    + by eapply Forall_lt_prefix.
  - apply Forall_app. split; [|done].
    eapply Forall_lt_prefix; [|exact Hein]. by etrans.
Qed.

Lemma seq_raw_results_loop_inv (label_encoder : LabelEncoderClass Ex Lbl Cls)
    (results : list (EvaluatedExample Ex Lbl P)) : ∀ count st st',
  seq_raw_inv count st →
  for_each (raw_results_body label_encoder) results st = Ok st' →
  seq_raw_inv (count + length results) st'.
Proof.
  induction results as [|r results IH]; intros count st st' Hinv Hrun.
  - simpl in Hrun. injection Hrun as <-. by rewrite Nat.add_0_r.
  - simpl in Hrun.
    destruct (raw_results_body label_encoder st r) as [st1|] eqn:Hbody; [|done].
    simpl in Hrun.
    pose proof (seq_raw_results_body_inv _ _ _ _ _ Hinv Hbody) as Hinv1.
    pose proof (IH _ _ _ Hinv1 Hrun) as Hinv'.
    simpl. by rewrite <- Nat.add_succ_comm.
Qed.

(** X26. Whenever [SequenceModelEvaluation.raw_results] returns, whatever
    the label encoder, [predicted_flat] and [expected_flat] are the
    concatenations of [predicted] and [expected], which hold one vector per
    result; the text labels have no duplicates and every number in the
    vectors is a position in the text labels. *)
Theorem sequence_raw_results_flat (label_encoder : LabelEncoderClass Ex Lbl Cls)
    (results : list (EvaluatedExample Ex Lbl P)) (rr : SequenceRawResults Cls) :
  raw_results label_encoder results = Ok rr →
  sr_predicted_flat rr = concat (sr_predicted rr)
  ∧ sr_expected_flat rr = concat (sr_expected rr)
  ∧ length (sr_predicted rr) = length results
  ∧ length (sr_expected rr) = length results
  ∧ NoDup (sr_text_labels rr)
  ∧ Forall (λ i, (i < length (sr_text_labels rr))%nat) (sr_predicted_flat rr)
  ∧ Forall (λ i, (i < length (sr_text_labels rr))%nat) (sr_expected_flat rr).
Proof.
  unfold raw_results. intros Hrun.
  destruct (for_each _ results _) as [st|] eqn:Hloop; [|done].
  simpl in Hrun.
  pose proof (seq_raw_results_loop_inv label_encoder results 0
                ([], [], [], [], []) st) as Hinv.
  destruct st as [[[[tl pvs] evs] pf] ef]. injection Hrun as <-. simpl.
  destruct Hinv as (Hnd & Hpf & Hef & Hlp & Hle & Hpin & Hein); [|done|].
  { split_and!; try done; try constructor. }
  by split_and!.
Qed.

End SequenceRawFacts.

Lemma sequence_raw_results_flat_witness :
  ∃ rr,
    SequenceModelEvaluation.raw_results LabelEncoder
      [mkEvaluatedExample "play jazz" "music" "music" ();
       mkEvaluatedExample "stop" "exit" "music" ()] = Ok rr
    ∧ sr_predicted_flat rr = concat (sr_predicted rr)
    ∧ sr_expected_flat rr = concat (sr_expected rr)
    ∧ length (sr_predicted rr) = 2%nat
    ∧ length (sr_expected rr) = 2%nat
    ∧ NoDup (sr_text_labels rr)
    ∧ Forall (λ i, (i < length (sr_text_labels rr))%nat) (sr_predicted_flat rr)
    ∧ Forall (λ i, (i < length (sr_text_labels rr))%nat) (sr_expected_flat rr).
Proof.
  eexists. split; [vm_compute; reflexivity|].
  apply (sequence_raw_results_flat LabelEncoder
           [mkEvaluatedExample "play jazz" "music" "music" ();
            mkEvaluatedExample "stop" "exit" "music" ()]).
  vm_compute. reflexivity.
Defined.


(** ** Overall counts and the number of observations *)

Section OverallCountFacts.

Lemma sum_over_add (n : nat) (f g : nat → Z) :
  sum_over n (λ k, f k + g k) = sum_over n f + sum_over n g.
Proof.
  revert f g. induction n as [|n IH]; intros f g; [done|].
  rewrite !sum_over_S, IH. lia.
Qed.

Lemma sum_over_swap (n m : nat) (f : nat → nat → Z) :
  sum_over n (λ i, sum_over m (λ j, f i j))
  = sum_over m (λ j, sum_over n (λ i, f i j)).
Proof.
  revert f. induction n as [|n IH]; intros f.
  - symmetry. apply sum_over_zero.
  - rewrite sum_over_S, IH. rewrite <- sum_over_add.
    apply sum_over_ext. intros j _. by rewrite sum_over_S.
Qed.

Lemma column_total (C : matrix) (i : nat) :
  (i < length C)%nat →
  entry C i i + false_positives C i = sum_over (length C) (λ j, entry C j i).
Proof.
  intros Hi. unfold false_positives.
  rewrite <- (sum_over_single (length C) i (λ j, entry C j i)) at 1 by done.
  rewrite <- sum_over_add. apply sum_over_ext. intros j _.
  repeat case_bool_decide; lia.
Qed.

(** X27. In the multi class branch the overall true positives and the
    overall false positives add up to the sum of all entries of the
    confusion matrix: every observation is counted once, as a true positive
    of its class when predicted right and as a false positive of the
    predicted class otherwise. *)
Theorem multiclass_overall_total (C : matrix) :
  is_square (length C) C → length C ≠ 2%nat →
  TP (counts_overall (counts_of_matrix C)) + FP (counts_overall (counts_of_matrix C))
  = np_sum C.
Proof.
  intros HC Hn. unfold counts_of_matrix. case_decide; [done|].
  rewrite multiclass_loop. simpl.
  change (Zsum ((λ i, entry C i i) <$> seq 0 (length C)))
    with (sum_over (length C) (λ i, entry C i i)).
  change (Zsum (?f <$> seq 0 (length C))) with (sum_over (length C) f).
  rewrite <- sum_over_add.
  rewrite (np_sum_square (length C)) by done.
  rewrite sum_over_swap. apply sum_over_ext. intros i Hi.
  rewrite (column_mask_sum C i HC Hi). by apply column_total.
Qed.

(** X28. In the binary branch the four overall counts add up to the sum of
    all entries of the confusion matrix. *)
Theorem binary_overall_total (C : matrix) :
  is_square (length C) C → length C = 2%nat →
  let overall := counts_overall (counts_of_matrix C) in
  TP overall + TN overall + FP overall + FN overall = np_sum C.
Proof.
  intros HC Hn. unfold counts_of_matrix. case_decide; [|done].
  simpl. rewrite (np_sum_square (length C)) by done. rewrite Hn.
  cbn. lia.
Qed.

End OverallCountFacts.

Lemma multiclass_overall_total_witness :
  let C := [[0; 1; 0]; [0; 1; 0]; [1; 0; 1]] in
  TP (counts_overall (counts_of_matrix C)) + FP (counts_overall (counts_of_matrix C))
  = np_sum C.
Proof.
  apply multiclass_overall_total; [|simpl; lia].
  split; [done|]. repeat constructor.
Defined.

Lemma binary_overall_total_witness :
  let C := [[2; 1]; [0; 3]] in
  let overall := counts_overall (counts_of_matrix C) in
  TP overall + TN overall + FP overall + FN overall = np_sum C.
Proof.
  apply binary_overall_total; [|done].
  split; [done|]. repeat constructor.
Defined.


(** ** Runs of prediction and parameter selection on concrete models *)

Lemma predict_returns_fitted_classes_witness :
  ∃ clf x y,
    SkLearnModel._clf fitted_two_class_model = Some clf
    ∧ count_examples [(); ()] = Ok x
    ∧ always_second clf x = Ok y
    ∧ Forall2 (λ i l, SkLearnModel.classes_ fitted_two_class_model !! i = Some l)
        y ["greet"; "greet"]
    ∧ Forall (λ l, l ∈ SkLearnModel.classes_ fitted_two_class_model)
        ["greet"; "greet"].
Proof.
  apply (predict_returns_fitted_classes count_examples always_second
           fitted_two_class_model [(); ()] ["greet"; "greet"]); reflexivity.
Defined.

Lemma fit_cv_other_scoring_witness :
  SkLearnModel._fit_cv same_params fit_as_params select_grid fixed_params_model
    () () [] (PyDict f1_settings)
  = Raise (UnboundLocalError "msg").
Proof.
  eapply (fit_cv_other_scoring same_params fit_as_params select_grid
            fixed_params_model () () [] f1_settings "f1");
    try reflexivity; done.
Defined.

Lemma fit_cv_records_loss_witness :
  ∃ self',
    SkLearnModel._fit_cv same_params fit_as_params select_grid fixed_params_model
      () () [] (PyDict kfold_settings)
    = Ok (self', (PyDict (<["C" := PyList [PyInt 1; PyInt 10]]> ∅),
                  PyDict (<["C" := PyList [PyInt 1; PyInt 10]]> ∅)))
    ∧ SkLearnModel.cv_loss_ self' = Some (1 - 1)%Q
    ∧ SkLearnModel._clf self' = None
    ∧ SkLearnModel._current_params self' = PyNone
    ∧ SkLearnModel.sk_calls self'
      = [CallGridSearchCV (PyStr "accuracy")
           (PyDict (<["C" := PyList [PyInt 1; PyInt 10]]> ∅))
           (KFold (PyInt 3)) (PyInt (-1))].
Proof.
  apply (fit_cv_records_loss same_params fit_as_params select_grid
           fixed_params_model () () [] kfold_settings (KFold (PyInt 3))
           (PyDict (<["C" := PyList [PyInt 1; PyInt 10]]> ∅))
           (PyDict (<["C" := PyList [PyInt 1; PyInt 10]]> ∅))
           (mkGridSearchResult (PyDict (<["C" := PyList [PyInt 1; PyInt 10]]> ∅))
              (PyDict (<["C" := PyList [PyInt 1; PyInt 10]]> ∅)) 1));
    try reflexivity. by left.
Defined.

Lemma fit_cv_missing_type_witness :
  SkLearnModel._fit_cv same_params fit_as_params select_grid empty_selection_model
    () () [] PyNone
  = Raise (KeyError "type").
Proof.
  apply (fit_cv_missing_type same_params fit_as_params select_grid
           empty_selection_model () () [] ∅); reflexivity.
Defined.

Lemma fit_cv_without_settings_witness :
  ∃ self' clf params,
    SkLearnModel._fit_cv same_params fit_as_params select_grid fixed_params_model
      () () [] PyNone = Ok (self', (clf, params))
    ∧ params = ModelConfig.params (SkLearnModel.config fixed_params_model)
    ∧ ∃ converted,
        same_params (ModelConfig.params (SkLearnModel.config fixed_params_model)) ()
          = Ok converted
        ∧ fit_as_params converted () () = Ok clf
        ∧ SkLearnModel.sk_calls self'
          = SkLearnModel.sk_calls fixed_params_model ++ [CallFit converted].
Proof.
  eexists _, _, _. split; [reflexivity|].
  eapply (fit_cv_without_settings same_params fit_as_params select_grid
            fixed_params_model _ () () [] PyNone); reflexivity.
Defined.

Lemma select_params_keeps_current_params_witness :
  ∃ self' params,
    SkLearnModel.select_params no_features same_params fit_as_params select_grid
      fixed_params_model ["hello"; "bye"] ["greet"; "exit"] (PyDict kfold_settings)
    = Ok (self', params)
    ∧ ∃ y classes x y' groups selected clf,
        encode (SkLearnModel._label_encoder fixed_params_model) ["greet"; "exit"] None
          = Ok y
        ∧ no_features ["hello"; "bye"] y = Ok (classes, (x, y', groups))
        ∧ SkLearnModel._fit_cv same_params fit_as_params select_grid
            (SkLearnModel.set_classes_ fixed_params_model classes) x y' groups
            (PyDict kfold_settings)
          = Ok (selected, (clf, params))
        ∧ SkLearnModel._clf self' = Some clf
        ∧ SkLearnModel.classes_ self' = classes
        ∧ SkLearnModel._current_params self'
          = SkLearnModel._current_params fixed_params_model
        ∧ SkLearnModel.config self' = SkLearnModel.config fixed_params_model.
Proof.
  eexists _, _. split; [reflexivity|].
  eapply (select_params_keeps_current_params no_features same_params
            fit_as_params select_grid fixed_params_model _ ["hello"; "bye"]
            ["greet"; "exit"] (PyDict kfold_settings)).
  reflexivity.
Defined.
